(** * dataiku-chat-control: the completion waiter and the execution session

    A shallow embedding of [mcp-server/helpers/jobs.py] (the polling loops
    [wait_for_job] and [run_scenario_and_wait] with their callers) and of
    [mcp-server/server.py] (the [execute_python] tool with its persistent
    namespace), followed by the properties of both.  The search helpers
    of [mcp-server/helpers/search.py], the views of
    [mcp-server/helpers/inspection.py] and the script [create_dataset.py]
    are embedded after them, with their properties at the end.

    Conventions.
    - JSON payloads returned by the platform are values of [json]; a JSON
      object is a [gmap string json], as the Python code sees a [dict].
    - [time.time()] returns a float in Python.  Clock readings, elapsed
      times and durations are rationals here ([Q], in seconds), added and
      compared exactly; rounding of floats is not modelled.  [timeout] and
      [poll_interval] are integers, as their annotations say.
    - A Python call either returns or raises: [outcome A].  The unbounded
      [while True] loops take a fuel argument and answer [None] when the
      fuel runs out before the loop has returned or raised. *)

From Stdlib Require Import ZArith QArith Lia Lqa Ascii String.
From stdpp Require Import base option gmap strings list pretty.

Open Scope Z_scope.
Set Warnings "-register-all".

(** ** Python data *)

Module Py.

(** A line feed, which Rocq string literals cannot spell. *)
Definition nl : string := String "010"%char EmptyString.

(** A double quote. *)
Definition dq : string := String "034"%char EmptyString.

(** JSON values as [dataikuapi] hands them to the helpers. *)
Inductive json :=
| JNull
| JBool (b : bool)
| JInt (z : Z)
| JStr (s : string)
| JList (l : list json)
| JObj (d : gmap string json).

(** The exceptions that the modelled code can meet, by class name and
    message ([str(e)]). *)
Record exn := Exn { exn_class : string; exn_msg : string }.

(** A computation that returns or raises. *)
Inductive outcome (A : Type) :=
| Ret (a : A)
| Raise (e : exn).
Arguments Ret {A} a.
Arguments Raise {A} e.

Definition bind {A B} (m : outcome A) (k : A -> outcome B) : outcome B :=
  match m with
  | Ret a => k a
  | Raise e => Raise e
  end.

(** [type(v).__name__] for a JSON value. *)
Definition type_name (v : json) : string :=
  match v with
  | JNull => "NoneType"
  | JBool _ => "bool"
  | JInt _ => "int"
  | JStr _ => "str"
  | JList _ => "list"
  | JObj _ => "dict"
  end.

(** [v.get(key, default)]: defined on dicts, [AttributeError] elsewhere. *)
Definition get (v : json) (key : string) (dflt : json) : outcome json :=
  match v with
  | JObj d => Ret (default dflt (d !! key))
  | _ => Raise (Exn "AttributeError"
                 ("'" ++ type_name v ++ "' object has no attribute 'get'"))
  end.

(** [v == s] for a string literal [s]. *)
Definition eq_str (v : json) (s : string) : bool :=
  match v with
  | JStr t => bool_decide (t = s)
  | _ => false
  end.

End Py.

(** ** helpers/jobs.py *)

Module Jobs.
Import Py.

(** The dict every wait operation returns.  [wait_for_job] builds it
    without an [outcome] key ([None] here); [run_scenario_and_wait] always
    sets the key, to Python's [None] ([Some JNull]) on a timeout. *)
Record WaitResult := {
  success : bool;
  status : json;
  duration : Q;
  outcome_ : option json;
  details : json;
}.

(** A remote operation handle: what its n-th status query answers.  The
    query is a network call and may raise. *)
Definition Remote := nat -> outcome (gmap string json).

(** The host the loop runs on: how long the n-th status query takes and by
    how much the n-th sleep overshoots the requested length. *)
Record Host := {
  query_cost : nat -> Q;
  oversleep : nat -> Q;
}.

(** The part of the world a wait loop reads and changes: the wall clock and
    how many queries and sleeps have been made on the handle. *)
Record World := {
  now : Q;
  polls : nat;
  sleeps : nat;
}.

(** [time.time()] *)
Definition time_time (w : World) : Q := now w.

(** [x > y] on clock readings. *)
Definition Qgtb (x y : Q) : bool := negb (Qle_bool x y).

(** [job.get_status()] and [run.get_info()]: one remote query. *)
Definition query (host : Host) (remote : Remote) (w : World)
  : outcome (gmap string json) * World :=
  (remote (polls w),
   {| now := (now w + query_cost host (polls w))%Q;
      polls := S (polls w);
      sleeps := sleeps w |}).

(** [time.sleep(secs)]: [ValueError] on a negative length, otherwise the
    clock moves on by at least [secs]. *)
Definition time_sleep (host : Host) (secs : Z) (w : World)
  : outcome unit * World :=
  if secs <? 0 then
    (Raise (Exn "ValueError" "sleep length must be non-negative"), w)
  else
    (Ret tt,
     {| now := (now w + inject_Z secs + oversleep host (sleeps w))%Q;
        polls := polls w;
        sleeps := S (sleeps w) |}).

(** [status.get("baseStatus", {}).get("state", status.get("state", "UNKNOWN"))].
    [status] is a dict, so the inner default neither raises nor has an
    effect and may be computed ahead of the outer call; a [baseStatus] that
    is not a dict has no [get]. *)
Definition job_state (status : gmap string json) : outcome json :=
  bind (get (JObj status) "baseStatus" (JObj ∅)) (fun base =>
  bind (get (JObj status) "state" (JStr "UNKNOWN")) (fun flat =>
  get base "state" flat)).

(** [state in ("DONE", "FAILED", "ABORTED")] *)
Definition is_terminal (state : json) : bool :=
  eq_str state "DONE" || eq_str state "FAILED" || eq_str state "ABORTED".

Definition job_timeout_result (timeout : Z) (elapsed : Q) : WaitResult :=
  {| success := false;
     status := JStr "TIMEOUT";
     duration := elapsed;
     outcome_ := None;
     details := JStr ("Job did not complete within " ++ pretty timeout
                      ++ " seconds") |}.

Definition job_result (state : json) (status : gmap string json)
    (elapsed : Q) : WaitResult :=
  {| success := eq_str state "DONE";
     status := state;
     duration := elapsed;
     outcome_ := None;
     details := JObj status |}.

(** The [while True] loop of [wait_for_job], one iteration per unit of
    fuel. *)
Fixpoint wait_loop (host : Host) (job : Remote) (timeout poll_interval : Z)
    (start_time : Q) (fuel : nat) (w : World)
  : option (outcome WaitResult * World) :=
  match fuel with
  | O => None
  | S fuel' =>
    let elapsed := (time_time w - start_time)%Q in
    if Qgtb elapsed (inject_Z timeout) then
      Some (Ret (job_timeout_result timeout elapsed), w)
    else
      match query host job w with
      | (Raise e, w1) => Some (Raise e, w1)
      | (Ret status, w1) =>
        match job_state status with
        | Raise e => Some (Raise e, w1)
        | Ret state =>
          if is_terminal state then
            Some (Ret (job_result state status elapsed), w1)
          else
            match time_sleep host poll_interval w1 with
            | (Raise e, w2) => Some (Raise e, w2)
            | (Ret _, w2) =>
              wait_loop host job timeout poll_interval start_time fuel' w2
            end
        end
      end
  end.

(** [wait_for_job(job, timeout=600, poll_interval=2)].  Time passes in
    the queries and in the sleeps only: the reading of the clock that
    gives [start_time] and the reading at the first loop head are taken at
    the same instant, so the first elapsed time is nil here where it is a
    few microseconds on a machine. *)
Definition wait_for_job (host : Host) (job : Remote)
    (timeout poll_interval : Z) (fuel : nat) (w : World)
  : option (outcome WaitResult * World) :=
  let start_time := time_time w in
  wait_loop host job timeout poll_interval start_time fuel w.

Definition default_timeout : Z := 600.
Definition default_poll_interval : Z := 2.

(** The client as the helpers use it: each chain of calls that ends in a
    handle ([get_project(..).get_dataset(..).build(..)] and the like) is one
    field; any link of the chain may raise. *)
Record DSSClient := {
  dataset_build : string -> string -> string -> outcome Remote;
  scenario_run : string -> string -> outcome Remote;
  recipe_run : string -> string -> outcome Remote;
}.

(** [build_and_wait(client, project_key, dataset_name, build_mode, timeout)] *)
Definition build_and_wait (host : Host) (client : DSSClient)
    (project_key dataset_name build_mode : string) (timeout : Z)
    (fuel : nat) (w : World) : option (outcome WaitResult * World) :=
  match dataset_build client project_key dataset_name build_mode with
  | Raise e => Some (Raise e, w)
  | Ret job => wait_for_job host job timeout default_poll_interval fuel w
  end.

(** [run_info.get("scenarioRun", {}).get("result", {}).get("outcome")] *)
Definition scenario_outcome (run_info : gmap string json) : outcome json :=
  bind (get (JObj run_info) "scenarioRun" (JObj ∅)) (fun sr =>
  bind (get sr "result" (JObj ∅)) (fun res =>
  get res "outcome" JNull)).

(** [state is not None] *)
Definition is_not_None (v : json) : bool :=
  match v with
  | JNull => false
  | _ => true
  end.

Definition scenario_timeout_result (timeout : Z) (elapsed : Q) : WaitResult :=
  {| success := false;
     status := JStr "TIMEOUT";
     duration := elapsed;
     outcome_ := Some JNull;
     details := JStr ("Scenario did not complete within " ++ pretty timeout
                      ++ " seconds") |}.

Definition scenario_result (state : json) (run_info : gmap string json)
    (elapsed : Q) : WaitResult :=
  {| success := eq_str state "SUCCESS";
     status := JStr "DONE";
     duration := elapsed;
     outcome_ := Some state;
     details := JObj run_info |}.

(** The [while True] loop of [run_scenario_and_wait]; it sleeps a fixed two
    seconds between queries. *)
Fixpoint scenario_loop (host : Host) (run : Remote) (timeout : Z)
    (start_time : Q) (fuel : nat) (w : World)
  : option (outcome WaitResult * World) :=
  match fuel with
  | O => None
  | S fuel' =>
    let elapsed := (time_time w - start_time)%Q in
    if Qgtb elapsed (inject_Z timeout) then
      Some (Ret (scenario_timeout_result timeout elapsed), w)
    else
      match query host run w with
      | (Raise e, w1) => Some (Raise e, w1)
      | (Ret run_info, w1) =>
        match scenario_outcome run_info with
        | Raise e => Some (Raise e, w1)
        | Ret state =>
          if is_not_None state then
            Some (Ret (scenario_result state run_info elapsed), w1)
          else
            match time_sleep host 2 w1 with
            | (Raise e, w2) => Some (Raise e, w2)
            | (Ret _, w2) => scenario_loop host run timeout start_time fuel' w2
            end
        end
      end
  end.

(** [run_scenario_and_wait(client, project_key, scenario_id, timeout)] *)
Definition run_scenario_and_wait (host : Host) (client : DSSClient)
    (project_key scenario_id : string) (timeout : Z)
    (fuel : nat) (w : World) : option (outcome WaitResult * World) :=
  match scenario_run client project_key scenario_id with
  | Raise e => Some (Raise e, w)
  | Ret run =>
    let start_time := time_time w in
    scenario_loop host run timeout start_time fuel w
  end.

(** [run_recipe_and_wait(client, project_key, recipe_name, timeout)] *)
Definition run_recipe_and_wait (host : Host) (client : DSSClient)
    (project_key recipe_name : string) (timeout : Z)
    (fuel : nat) (w : World) : option (outcome WaitResult * World) :=
  match recipe_run client project_key recipe_name with
  | Raise e => Some (Raise e, w)
  | Ret job => wait_for_job host job timeout default_poll_interval fuel w
  end.

End Jobs.

(** ** The polling pattern shared by the two loops

    [wait_loop] and [scenario_loop] are the same loop up to how a payload
    is read and which records are built; [poll_loop] is that common shape,
    used to reason about both at once. *)

Module Polling.
Import Py Jobs.

Section Loop.
Variable host : Host.
Variable remote : Remote.
(** Reading a payload: raise, keep polling ([None]) or finish with a
    record that still awaits the elapsed time. *)
Variable classify : gmap string json -> outcome (option (Q -> WaitResult)).
Variable on_timeout : Q -> WaitResult.
Variables timeout interval : Z.

Fixpoint poll_loop (start_time : Q) (fuel : nat) (w : World)
  : option (outcome WaitResult * World) :=
  match fuel with
  | O => None
  | S fuel' =>
    let elapsed := (time_time w - start_time)%Q in
    if Qgtb elapsed (inject_Z timeout) then Some (Ret (on_timeout elapsed), w)
    else
      match query host remote w with
      | (Raise e, w1) => Some (Raise e, w1)
      | (Ret payload, w1) =>
        match classify payload with
        | Raise e => Some (Raise e, w1)
        | Ret (Some finish) => Some (Ret (finish elapsed), w1)
        | Ret None =>
          match time_sleep host interval w1 with
          | (Raise e, w2) => Some (Raise e, w2)
          | (Ret _, w2) => poll_loop start_time fuel' w2
          end
        end
      end
  end.

(** The world after one full iteration: a query, then a sleep. *)
Definition tick (w : World) : World :=
  {| now := (now w + query_cost host (polls w) + inject_Z interval
             + oversleep host (sleeps w))%Q;
     polls := S (polls w);
     sleeps := S (sleeps w) |}.

(** The world at the head of the n-th iteration. *)
Fixpoint after (n : nat) (w : World) : World :=
  match n with
  | O => w
  | S n' => after n' (tick w)
  end.

(** The n-th reply asks for another round. *)
Definition pending (n : nat) : bool :=
  match remote n with
  | Ret payload =>
    match classify payload with
    | Ret None => true
    | _ => false
    end
  | Raise _ => false
  end.
End Loop.

Definition job_classify (status : gmap string json)
  : outcome (option (Q -> WaitResult)) :=
  bind (job_state status) (fun state =>
  Ret (if is_terminal state then Some (job_result state status) else None)).

(** The job's n-th status has a state outside the terminal set. *)
Definition job_pending (job : Remote) (n : nat) : bool :=
  pending job job_classify n.

(** The payload has no state in either shape: no flat [state] key, and no
    [state] key under [baseStatus] (a [baseStatus] that is missing, or
    that is no object, holds none). *)
Definition state_absent (status : gmap string json) : bool :=
  match status !! "state" with
  | Some _ => false
  | None =>
    match status !! "baseStatus" with
    | Some (JObj base) =>
      match base !! "state" with
      | None => true
      | Some _ => false
      end
    | _ => true
    end
  end.

(** [baseStatus] is missing or an object: the extraction can call [get]
    on what [status.get("baseStatus", {})] returns. *)
Definition base_readable (status : gmap string json) : bool :=
  match status !! "baseStatus" with
  | None => true
  | Some (JObj _) => true
  | Some _ => false
  end.

Definition scenario_classify (run_info : gmap string json)
  : outcome (option (Q -> WaitResult)) :=
  bind (scenario_outcome run_info) (fun state =>
  Ret (if is_not_None state then Some (scenario_result state run_info)
       else None)).

(** The job's n-th status is a payload without a state. *)
Definition absent_at (job : Remote) (n : nat) : bool :=
  match job n with
  | Ret status => state_absent status
  | Raise _ => false
  end.

(** The job's n-th status has a [baseStatus] that is missing or an
    object. *)
Definition readable_at (job : Remote) (n : nat) : bool :=
  match job n with
  | Ret status => base_readable status
  | Raise _ => false
  end.

(** The run's n-th info has no outcome yet. *)
Definition scenario_pending (run : Remote) (n : nat) : bool :=
  pending run scenario_classify n.

End Polling.

(** ** Sample hosts, handles and payloads *)

Module Samples.
Import Py Jobs.

(** Queries answer at once and sleeps last exactly as long as asked. *)
Definition ideal_host : Host :=
  {| query_cost := fun _ => 0%Q; oversleep := fun _ => 0%Q |}.

(** Each query takes half a second and each sleep overshoots by a tenth. *)
Definition slow_host : Host :=
  {| query_cost := fun _ => (1 # 2)%Q; oversleep := fun _ => (1 # 10)%Q |}.

Definition world0 : World := {| now := 0%Q; polls := 0; sleeps := 0 |}.

(** A handle that answers the listed payloads in turn, then [last] for
    ever. *)
Definition scripted (replies : list (gmap string json))
    (last : gmap string json) : Remote :=
  fun i => Ret (default last (replies !! i)).

Definition flat_state (s : string) : gmap string json :=
  {[ "state" := JStr s ]}.

Definition nested_state (s : string) : gmap string json :=
  {[ "baseStatus" := JObj {[ "state" := JStr s ]} ]}.

(** A payload with neither [baseStatus.state] nor [state]. *)
Definition stateless : gmap string json :=
  {[ "baseStatus" := JObj {[ "jobId" := JStr "build_1" ]};
     "warnings" := JInt 0 ]}.

Definition run_info_of (outcome : json) : gmap string json :=
  {[ "scenarioRun" := JObj {[ "result" := JObj {[ "outcome" := outcome ]} ]} ]}.

(** A run that has started and has no result yet. *)
Definition run_info_pending : gmap string json :=
  {[ "scenarioRun" := JObj {[ "runId" := JStr "run_1" ]} ]}.

Definition client_of (remote : Remote) : DSSClient :=
  {| dataset_build := fun _ _ _ => Ret remote;
     scenario_run := fun _ _ => Ret remote;
     recipe_run := fun _ _ => Ret remote |}.

End Samples.

(** ** mcp-server/server.py

    [exec] is Python's own.  It is followed on a fragment of the language
    that is enough to bind variables, read and write attributes of the
    modules in the namespace, print, and raise: [code] is the parsed form
    of the source text, one statement per line.  Values are immediate
    (numbers, strings, builtins, exception instances) or references to
    heap objects (modules, the client), so that two names for one object
    see each other's attribute writes.

    What the fragment does not cover is not approximated.  A step that
    reads a name, an attribute or a builtin of which nothing is known here
    (the builtins other than [print] and the exception classes of
    [exception_classes], the functions of the helper modules, the
    attributes of the client, every attribute whose name begins with two
    underscores), or that raises an exception instance kept from before,
    goes [Beyond], the run of the code is [Unmodelled] and the reply of
    the call [Unknown]; text that does not compile is treated alike.
    The properties below are stated for calls whose reply is known.
    The environment of the process is taken to stay as it was when the
    module was loaded: code of the fragment cannot change it. *)

Module Server.
Import Py.
Local Open Scope string_scope.

Definition loc := positive.

Inductive pyval :=
| VNone
| VBool (b : bool)
| VInt (z : Z)
| VStr (s : string)
| VRef (l : loc)
| VBuiltin (name : string)
| VExc (cls : string) (msg : string).

(** A heap object: [type(o).__name__], the module's [__name__] (empty for
    an instance), [repr(o)], the attributes that are followed here, and
    what is known of the others.  [obj_hidden] is [Some H] when the object
    has, besides the attributes in [attrs], those named in [H] and those
    whose name begins with two underscores, and no other; it is [None]
    when the source of the object is not at hand and nothing is known of
    its other attributes. *)
Record pyobj := {
  obj_type : string;
  obj_name : string;
  obj_repr : string;
  attrs : gmap string pyval;
  obj_hidden : option (gset string);
}.

(** What a step of the executed code comes to.  Only a fragment of
    Python is followed, and followed exactly: a step yields a value, or
    raises, or goes [Beyond] what is followed (it reads an object the
    embedding knows nothing of, or touches an attribute whose name begins
    with two underscores), and then nothing is said of it. *)
Inductive result (A : Type) :=
| Val (a : A)
| Exc (e : exn)
| Beyond.
Arguments Val {A} a.
Arguments Exc {A} e.
Arguments Beyond {A}.

Inductive literal :=
| LNone
| LBool (b : bool)
| LInt (z : Z)
| LStr (s : string).

(** [f(arg)] is a call with one positional argument. *)
Inductive expr :=
| ELit (c : literal)
| EName (x : string)
| EAttr (e : expr) (a : string)
| ECall (f : expr) (arg : expr).

(** A piece of code is a list of statements, the n-th of which stands
    alone on line n of the text. *)
Inductive stmt :=
| SAssign (x : string) (e : expr)
| SSetAttr (e : expr) (a : string) (rhs : expr)
| SExpr (e : expr)
| SRaise (e : expr).

(** [sys.stdout]: the stream the process started with, or a [StringIO]
    with what has been written to it. *)
Inductive stream :=
| Console
| StringIO (buf : string).

(** The module-level state of [server.py] together with the heap its
    namespace points into.  [addresses l] is the address, as [repr] shows
    it, at which the interpreter keeps the object kept here at [l]; it is
    the allocator's choice. *)
Record State := {
  execution_globals : gmap string pyval;
  heap : gmap loc pyobj;
  _client : option loc;
  sys_stdout : stream;
  console : string;
  clients_created : nat;
  addresses : loc -> string;
}.

(** How a piece of code ends: at its last statement, with an exception
    raised on a line, or beyond what is followed. *)
Inductive ending :=
| Finished
| Failed (e : exn) (line : nat)
| Unmodelled.

(** What a tool call hands back to the transport: a string, or an
    exception that leaves [execute_python]; [Unknown] when the code has
    gone beyond what is followed, after which the state says nothing of
    the process either. *)
Inductive reply :=
| Returned (text : string)
| Propagated (e : exn)
| Unknown.

(** The builtin exception classes that are followed, and those among them
    that [except Exception] does not catch. *)
Definition exception_classes : list string :=
  ["BaseException"; "Exception"; "SystemExit"; "KeyboardInterrupt";
   "GeneratorExit"; "ArithmeticError"; "AssertionError"; "AttributeError";
   "ImportError"; "NameError"; "NotImplementedError"; "OSError";
   "RuntimeError"; "TypeError"; "ValueError"; "ZeroDivisionError"].

Definition outside_Exception : list string :=
  ["BaseException"; "SystemExit"; "KeyboardInterrupt"; "GeneratorExit"].

Definition is_exception_class (cls : string) : bool :=
  bool_decide (cls ∈ exception_classes).

(** [isinstance(e, Exception)] by the class of [e]. *)
Definition is_Exception (e : exn) : bool :=
  negb (bool_decide (exn_class e ∈ outside_Exception)).

Definition lit_val (c : literal) : pyval :=
  match c with
  | LNone => VNone
  | LBool b => VBool b
  | LInt z => VInt z
  | LStr s => VStr s
  end.

(** [type(v).__name__] *)
Definition type_name (h : gmap loc pyobj) (v : pyval) : string :=
  match v with
  | VNone => "NoneType"
  | VBool _ => "bool"
  | VInt _ => "int"
  | VStr _ => "str"
  | VRef l => from_option obj_type "object" (h !! l)
  | VBuiltin name =>
    if is_exception_class name then "type" else "builtin_function_or_method"
  | VExc cls _ => cls
  end.

(** An integer short enough to be written out: the conversion of more
    than 4300 digits raises since Python 3.11, and 14000 bits are fewer. *)
Definition short_int (z : Z) : bool := (Z.log2 (Z.abs z) <? 14000)%Z.

(** [str(v)], where it is followed: not for an integer that is too long,
    a reference to no object, or a builtin other than [print] and the
    exception classes. *)
Definition py_str (h : gmap loc pyobj) (v : pyval) : option string :=
  match v with
  | VNone => Some "None"
  | VBool true => Some "True"
  | VBool false => Some "False"
  | VInt z => if short_int z then Some (pretty z) else None
  | VStr s => Some s
  | VRef l => obj_repr <$> h !! l
  | VBuiltin name =>
    if bool_decide (name = "print") then Some "<built-in function print>"
    else if is_exception_class name then Some ("<class '" ++ name ++ "'>")
    else None
  | VExc _ msg => Some msg
  end.

(** Names that Python itself gives a meaning to. *)
Definition is_dunder (a : string) : bool := String.prefix "__" a.

Definition no_attribute (o : pyobj) (a : string) : exn :=
  Exn "AttributeError"
    ("module '" ++ obj_name o ++ "' has no attribute '" ++ a ++ "'").

(** The attribute [a] of the object at [l], if both exist. *)
Definition attr_at (h : gmap loc pyobj) (l : loc) (a : string) : option pyval :=
  h !! l ≫= fun o => attrs o !! a.

(** [v.a].  It is followed on heap objects, for names that do not begin
    with two underscores: an attribute in [attrs] is read; a module that
    is known not to have the attribute raises; everything else is
    [Beyond]. *)
Definition getattr (h : gmap loc pyobj) (v : pyval) (a : string)
  : result pyval :=
  if is_dunder a then Beyond
  else
    match v with
    | VRef l =>
      match h !! l with
      | Some o =>
        match attrs o !! a with
        | Some w => Val w
        | None =>
          match obj_hidden o with
          | Some H =>
            if bool_decide (obj_type o = "module")
               && negb (bool_decide (a ∈ H))
            then Exc (no_attribute o a)
            else Beyond
          | None => Beyond
          end
        end
      | None => Beyond
      end
    | _ => Beyond
    end.

(** A name is looked up in the globals, then in the builtins module the
    frame was created with.  A name found in neither may still be one of
    the builtins that are not followed. *)
Definition lookup_name (builtins : option loc) (g : gmap string pyval)
    (h : gmap loc pyobj) (x : string) : result pyval :=
  match g !! x with
  | Some v => Val v
  | None =>
    match builtins ≫= fun b => attr_at h b x with
    | Some v => Val v
    | None => Beyond
    end
  end.

Definition not_callable (h : gmap loc pyobj) (f : pyval) : exn :=
  Exn "TypeError" ("'" ++ type_name h f ++ "' object is not callable").

(** [f(arg)] for values already computed: the value, and the text the call
    prints.  [print] and the exception classes are called; [None], the
    booleans, integers, strings, modules and exception instances are not
    callable; the call of anything else is [Beyond]. *)
Definition call (h : gmap loc pyobj) (f arg : pyval) : result pyval * string :=
  match f with
  | VBuiltin name =>
    if bool_decide (name = "print") then
      match py_str h arg with
      | Some text => (Val VNone, text ++ nl)
      | None => (Beyond, "")
      end
    else if is_exception_class name then
      match py_str h arg with
      | Some msg => (Val (VExc name msg), "")
      | None => (Beyond, "")
      end
    else (Beyond, "")
  | VRef l =>
    match h !! l with
    | Some o =>
      if bool_decide (obj_type o = "module") then (Exc (not_callable h f), "")
      else (Beyond, "")
    | None => (Beyond, "")
    end
  | _ => (Exc (not_callable h f), "")
  end.

(** Evaluation reads the namespace and the heap; its only effect is the
    text it prints, returned alongside the result.  The callee is
    evaluated before the argument. *)
Fixpoint eval (builtins : option loc) (g : gmap string pyval)
    (h : gmap loc pyobj) (e : expr) : result pyval * string :=
  match e with
  | ELit c => (Val (lit_val c), "")
  | EName x => (lookup_name builtins g h x, "")
  | EAttr e' a =>
    match eval builtins g h e' with
    | (Val v, out) => (getattr h v a, out)
    | (Exc ex, out) => (Exc ex, out)
    | (Beyond, out) => (Beyond, out)
    end
  | ECall f arg =>
    match eval builtins g h f with
    | (Val vf, out1) =>
      match eval builtins g h arg with
      | (Val va, out2) =>
        let '(r, out3) := call h vf va in (r, out1 ++ out2 ++ out3)
      | (Exc ex, out2) => (Exc ex, out1 ++ out2)
      | (Beyond, out2) => (Beyond, out1 ++ out2)
      end
    | (Exc ex, out) => (Exc ex, out)
    | (Beyond, out) => (Beyond, out)
    end
  end.

(** [sys.stdout.write(text)] *)
Definition write (text : string) (st : State) : State :=
  match sys_stdout st with
  | Console =>
    {| execution_globals := execution_globals st; heap := heap st;
       _client := _client st; sys_stdout := Console;
       console := console st ++ text;
       clients_created := clients_created st;
       addresses := addresses st |}
  | StringIO buf =>
    {| execution_globals := execution_globals st; heap := heap st;
       _client := _client st; sys_stdout := StringIO (buf ++ text);
       console := console st;
       clients_created := clients_created st;
       addresses := addresses st |}
  end.

Definition set_global (x : string) (v : pyval) (st : State) : State :=
  {| execution_globals := <[x := v]> (execution_globals st);
     heap := heap st; _client := _client st; sys_stdout := sys_stdout st;
     console := console st; clients_created := clients_created st;
     addresses := addresses st |}.

Definition set_heap (h : gmap loc pyobj) (st : State) : State :=
  {| execution_globals := execution_globals st;
     heap := h; _client := _client st; sys_stdout := sys_stdout st;
     console := console st; clients_created := clients_created st;
     addresses := addresses st |}.

Definition set_stdout (s : stream) (st : State) : State :=
  {| execution_globals := execution_globals st;
     heap := heap st; _client := _client st; sys_stdout := s;
     console := console st; clients_created := clients_created st;
     addresses := addresses st |}.

Definition with_attr (a : string) (v : pyval) (o : pyobj) : pyobj :=
  {| obj_type := obj_type o; obj_name := obj_name o; obj_repr := obj_repr o;
     attrs := <[a := v]> (attrs o); obj_hidden := obj_hidden o |}.

(** [target.a = v] for values already computed.  It is followed on
    modules, which take any attribute, for names that do not begin with
    two underscores. *)
Definition setattr (target : pyval) (a : string) (v : pyval) (st : State)
  : result () * State :=
  if is_dunder a then (Beyond, st)
  else
    match target with
    | VRef l =>
      match heap st !! l with
      | Some o =>
        if bool_decide (obj_type o = "module")
        then (Val (), set_heap (<[l := with_attr a v o]> (heap st)) st)
        else (Beyond, st)
      | None => (Beyond, st)
      end
    | _ => (Beyond, st)
    end.

Definition is_call (e : expr) : bool :=
  match e with
  | ECall _ _ => true
  | _ => false
  end.

Definition not_an_exception : exn :=
  Exn "TypeError" "exceptions must derive from BaseException".

(** [raise e] for the value [v] of [e]: the exception that is raised.
    An exception class is instantiated without arguments.  An instance
    is followed when the statement has just made it by a call; one that
    was kept in a variable carries the traceback of its earlier raises. *)
Definition raise_value (e : expr) (v : pyval) : result exn :=
  match v with
  | VExc cls msg => if is_call e then Val (Exn cls msg) else Beyond
  | VBuiltin name =>
    if is_exception_class name then Val (Exn name "")
    else if bool_decide (name = "print") then Val not_an_exception
    else Beyond
  | _ => Val not_an_exception
  end.

(** One statement: whether it raises, and the state it leaves.  In
    [e.a = rhs] the right-hand side is evaluated first. *)
Definition exec_stmt (builtins : option loc) (s : stmt) (st : State)
  : result () * State :=
  let g := execution_globals st in
  let h := heap st in
  match s with
  | SAssign x e =>
    match eval builtins g h e with
    | (Val v, out) => (Val (), set_global x v (write out st))
    | (Exc ex, out) => (Exc ex, write out st)
    | (Beyond, out) => (Beyond, write out st)
    end
  | SSetAttr e a rhs =>
    match eval builtins g h rhs with
    | (Val v, out1) =>
      match eval builtins g h e with
      | (Val target, out2) => setattr target a v (write (out1 ++ out2) st)
      | (Exc ex, out2) => (Exc ex, write (out1 ++ out2) st)
      | (Beyond, out2) => (Beyond, write (out1 ++ out2) st)
      end
    | (Exc ex, out) => (Exc ex, write out st)
    | (Beyond, out) => (Beyond, write out st)
    end
  | SExpr e =>
    match eval builtins g h e with
    | (Val _, out) => (Val (), write out st)
    | (Exc ex, out) => (Exc ex, write out st)
    | (Beyond, out) => (Beyond, write out st)
    end
  | SRaise e =>
    match eval builtins g h e with
    | (Val v, out) =>
      match raise_value e v with
      | Val ex => (Exc ex, write out st)
      | _ => (Beyond, write out st)
      end
    | (Exc ex, out) => (Exc ex, write out st)
    | (Beyond, out) => (Beyond, write out st)
    end
  end.

(** The statements from line [line] on, up to the first that does not
    run to its end. *)
Fixpoint exec_from (builtins : option loc) (line : nat) (code : list stmt)
    (st : State) : ending * State :=
  match code with
  | [] => (Finished, st)
  | s :: rest =>
    match exec_stmt builtins s st with
    | (Val _, st') => exec_from builtins (S line) rest st'
    | (Exc ex, st') => (Failed ex line, st')
    | (Beyond, st') => (Unmodelled, st')
    end
  end.

(** The builtins a frame is created with: the module that
    [__builtins__] names in the globals. *)
Definition frame_builtins (st : State) : option loc :=
  match execution_globals st !! "__builtins__" with
  | Some (VRef b) =>
    match heap st !! b with
    | Some o => if bool_decide (obj_type o = "module") then Some b else None
    | None => None
    end
  | _ => None
  end.

(** *** What compiles *)

Definition keywords : list string :=
  ["False"; "None"; "True"; "and"; "as"; "assert"; "async"; "await";
   "break"; "class"; "continue"; "def"; "del"; "elif"; "else"; "except";
   "finally"; "for"; "from"; "global"; "if"; "import"; "in"; "is";
   "lambda"; "nonlocal"; "not"; "or"; "pass"; "raise"; "return"; "try";
   "while"; "with"; "yield"; "__debug__"].

Definition between (lo hi c : ascii) : bool :=
  (N_of_ascii lo <=? N_of_ascii c)%N && (N_of_ascii c <=? N_of_ascii hi)%N.

Definition is_digit (c : ascii) : bool := between "0" "9" c.

Definition ident_char (c : ascii) : bool :=
  between "a" "z" c || between "A" "Z" c || is_digit c
  || bool_decide (c = "_"%char).

(** An identifier in ASCII that is no keyword. *)
Definition identifier (x : string) : bool :=
  match x with
  | EmptyString => false
  | String c _ => negb (is_digit c)
  end
  && forallb ident_char (list_ascii_of_string x)
  && negb (bool_decide (x ∈ keywords)).

Fixpoint expr_ok (e : expr) : bool :=
  match e with
  | ELit (LInt z) => short_int z
  | ELit _ => true
  | EName x => identifier x
  | EAttr e' a => expr_ok e' && identifier a
  | ECall f arg => expr_ok f && expr_ok arg
  end.

(** How deep an expression is nested. *)
Fixpoint depth (e : expr) : nat :=
  match e with
  | ELit _ | EName _ => 0
  | EAttr e' _ => S (depth e')
  | ECall f arg => S (Nat.max (depth f) (depth arg))
  end.

(** The parser and the compiler give up on an expression that is nested
    too deep; both go further than 100 levels. *)
Definition expr_fits (e : expr) : bool :=
  expr_ok e && (depth e <=? 100)%nat.

Definition stmt_ok (s : stmt) : bool :=
  match s with
  | SAssign x e => identifier x && expr_fits e
  | SSetAttr e a rhs => expr_fits e && identifier a && expr_fits rhs
  | SExpr e => expr_fits e
  | SRaise e => expr_fits e
  end.

(** The statements are such as the text of a program gives and the
    interpreter takes: every name is an identifier, every integer can be
    read and no expression is nested too deep. *)
Definition compiles (code : list stmt) : bool := forallb stmt_ok code.

(** [exec(code, execution_globals)] *)
Definition exec (code : list stmt) (st : State) : ending * State :=
  if compiles code then exec_from (frame_builtins st) 1 code st
  else (Unmodelled, st).

(** [not s] for the result of [os.environ.get]. *)
Definition py_not (s : option string) : bool :=
  match s with
  | None => true
  | Some s => bool_decide (s = "")
  end.

Definition credentials_error : string :=
  String.concat nl
    [ "ERROR: Dataiku credentials not configured.";
      "";
      "Please add DATAIKU_URL and DATAIKU_API_KEY to your MCP server config.";
      "";
      "Edit ~/.claude/mcp_settings.json and add to the " ++ dq ++ "dataiku"
        ++ dq ++ " server:";
      "  " ++ dq ++ "env" ++ dq ++ ": {";
      "    " ++ dq ++ "DATAIKU_URL" ++ dq ++ ": " ++ dq
        ++ "https://your-instance.dataiku.com" ++ dq ++ ",";
      "    " ++ dq ++ "DATAIKU_API_KEY" ++ dq ++ ": " ++ dq ++ "your-api-key"
        ++ dq;
      "  }";
      "";
      "Then restart Claude Code." ].

Definition no_output : string := "(executed successfully, no output)".

Section Process.
(** [os.environ] once the [.env] file has been loaded. *)
Variable environ : gmap string string.
(** [traceback.format_exc()] for an exception raised on a line of the
    executed code, in the state the code has left; its layout is the
    interpreter's and is left open (recent versions add hints that they
    draw from the names and attributes of the state). *)
Variable format_exc : exn -> nat -> State -> string.

(** [_credentials_missing], computed once when the module is loaded. *)
Definition _credentials_missing : bool :=
  py_not (environ !! "DATAIKU_URL") || py_not (environ !! "DATAIKU_API_KEY").

(** [dataikuapi.DSSClient(url, api_key)]: a new instance on the heap,
    shown by [repr] with its class and address.  No request is sent.
    The class is not of this repository: nothing is known of the
    attributes of the instance. *)
Definition DSSClient (url api_key : string) (st : State) : loc * State :=
  let l := fresh (dom (heap st)) in
  (l,
   {| execution_globals := execution_globals st;
      heap := <[l := {| obj_type := "DSSClient"; obj_name := "";
                        obj_repr := "<dataikuapi.dssclient.DSSClient object at "
                                    ++ addresses st l ++ ">";
                        attrs := ∅;
                        obj_hidden := None |}]>
                (heap st);
      _client := _client st; sys_stdout := sys_stdout st;
      console := console st;
      clients_created := S (clients_created st);
      addresses := addresses st |}).

(** [client.get_client()] *)
Definition get_client (st : State) : outcome loc * State :=
  let url := environ !! "DATAIKU_URL" in
  let api_key := environ !! "DATAIKU_API_KEY" in
  if py_not url || py_not api_key then
    (Raise (Exn "ValueError"
        "DATAIKU_URL and DATAIKU_API_KEY must be set in environment or .env file"),
     st)
  else
    let '(l, st') := DSSClient (default "" url) (default "" api_key) st in
    (Ret l, st').

(** [get_dataiku_client()] *)
Definition get_dataiku_client (st : State) : outcome loc * State :=
  match _client st with
  | None =>
    match get_client st with
    | (Ret l, st') =>
      (Ret l,
       {| execution_globals := execution_globals st'; heap := heap st';
          _client := Some l; sys_stdout := sys_stdout st';
          console := console st';
          clients_created := clients_created st';
          addresses := addresses st' |})
    | (Raise ex, st') => (Raise ex, st')
    end
  | Some l => (Ret l, st)
  end.

(** [stdout_capture.getvalue()], the capture being what [sys.stdout]
    points to while the code runs. *)
Definition getvalue (st : State) : string :=
  match sys_stdout st with
  | StringIO buf => buf
  | Console => ""
  end.

(** [execute_python(code)] *)
Definition execute_python (code : list stmt) (st : State) : reply * State :=
  if _credentials_missing then (Returned credentials_error, st)
  else
    match get_dataiku_client st with
    | (Raise ex, st1) => (Propagated ex, st1)
    | (Ret c, st1) =>
      let st2 := set_global "client" (VRef c) st1 in
      let old_stdout := sys_stdout st2 in
      let st3 := set_stdout (StringIO "") st2 in
      match exec code st3 with
      | (Finished, st4) =>
        let output := getvalue st4 in
        (Returned (if bool_decide (output = "") then no_output else output),
         set_stdout old_stdout st4)
      | (Failed ex line, st4) =>
        if is_Exception ex then
          let error_output := getvalue st4 in
          let tb := format_exc ex line st4 in
          (Returned (error_output ++ nl ++ "Error: " ++ exn_class ex ++ ": "
                     ++ exn_msg ex ++ nl ++ nl ++ tb),
           set_stdout old_stdout st4)
        else (Propagated ex, set_stdout old_stdout st4)
      | (Unmodelled, st4) => (Unknown, set_stdout old_stdout st4)
      end
    end.
End Process.

(** *** The state once [server.py] has been loaded *)

Definition builtins_loc : loc := 1%positive.
Definition helpers_loc : loc := 2%positive.
Definition jobs_loc : loc := 3%positive.
Definition inspection_loc : loc := 4%positive.
Definition search_loc : loc := 5%positive.
Definition export_loc : loc := 6%positive.

Definition module_obj (name origin : string) (members : gmap string pyval)
    (hidden : option (gset string)) : pyobj :=
  {| obj_type := "module"; obj_name := name;
     obj_repr := "<module '" ++ name ++ "' " ++ origin ++ ">";
     attrs := members; obj_hidden := hidden |}.

(** Of the builtins, [print] and the exception classes above are
    followed; the module holds many more. *)
Definition builtins_module : pyobj :=
  module_obj "builtins" "(built-in)"
    (list_to_map
       (("print", VBuiltin "print")
        :: map (fun cls => (cls, VBuiltin cls)) exception_classes))
    None.

(** [helpers/__init__.py] imports its four submodules, so each of them is
    an attribute of the package as well as a global of the namespace.
    The other attributes of a module are the names its file binds at top
    level: imports and functions.  [export.py] is not at hand. *)
Definition startup_heap (server_dir : string) : gmap loc pyobj :=
  let from file := "from '" ++ server_dir ++ "/helpers/" ++ file ++ "'" in
  {[ builtins_loc := builtins_module;
     helpers_loc :=
       module_obj "helpers" (from "__init__.py")
         {[ "jobs" := VRef jobs_loc; "inspection" := VRef inspection_loc;
            "search" := VRef search_loc; "export" := VRef export_loc ]}
         (Some ∅);
     jobs_loc :=
       module_obj "helpers.jobs" (from "jobs.py") ∅
         (Some (list_to_set
            ["time"; "Optional"; "wait_for_job"; "build_and_wait";
             "run_scenario_and_wait"; "run_recipe_and_wait"; "get_job_log"]));
     inspection_loc :=
       module_obj "helpers.inspection" (from "inspection.py") ∅
         (Some (list_to_set
            ["Optional"; "dataset_info"; "project_summary";
             "list_projects_summary"; "connection_info";
             "list_connections_summary"; "user_info"]));
     search_loc :=
       module_obj "helpers.search" (from "search.py") ∅
         (Some (list_to_set
            ["re"; "Optional"; "find_datasets"; "find_recipes";
             "find_scenarios"; "find_by_connection"; "find_by_type";
             "find_users"]));
     export_loc := module_obj "helpers.export" (from "export.py") ∅ None ]}.

Definition startup (server_dir : string) (layout : loc -> string) : State :=
  {| execution_globals :=
       {[ "__builtins__" := VRef builtins_loc;
          "helpers" := VRef helpers_loc;
          "jobs" := VRef jobs_loc;
          "inspection" := VRef inspection_loc;
          "search" := VRef search_loc;
          "export" := VRef export_loc ]};
     heap := startup_heap server_dir;
     _client := None;
     sys_stdout := Console;
     console := "";
     clients_created := 0;
     addresses := layout |}.

(** *** The names a piece of code mentions and those it assigns *)

Fixpoint idents (e : expr) : gset string :=
  match e with
  | ELit _ => ∅
  | EName x => {[ x ]}
  | EAttr e' a => {[ a ]} ∪ idents e'
  | ECall f arg => idents f ∪ idents arg
  end.

(** Every identifier of a statement, variable or attribute. *)
Definition stmt_idents (s : stmt) : gset string :=
  match s with
  | SAssign x e => {[ x ]} ∪ idents e
  | SSetAttr e a rhs => {[ a ]} ∪ idents e ∪ idents rhs
  | SExpr e => idents e
  | SRaise e => idents e
  end.

(** The variable or attribute name a statement assigns. *)
Definition stmt_writes (s : stmt) : gset string :=
  match s with
  | SAssign x _ => {[ x ]}
  | SSetAttr _ a _ => {[ a ]}
  | _ => ∅
  end.

Definition code_idents (code : list stmt) : gset string :=
  ⋃ (stmt_idents <$> code).

Definition code_writes (code : list stmt) : gset string :=
  ⋃ (stmt_writes <$> code).




(** *** Views of [execute_python] used to state its properties *)

(** The client a call works with and the state once it is known: the
    singleton if there is one, a new client otherwise.  This is
    [get_dataiku_client] when the credentials are configured. *)
Definition acquire (environ : gmap string string) (st : State) : loc * State :=
  match _client st with
  | Some l => (l, st)
  | None =>
    let '(l, st') :=
      DSSClient (default "" (environ !! "DATAIKU_URL"))
        (default "" (environ !! "DATAIKU_API_KEY")) st in
    (l,
     {| execution_globals := execution_globals st'; heap := heap st';
        _client := Some l; sys_stdout := sys_stdout st';
        console := console st'; clients_created := clients_created st';
        addresses := addresses st' |})
  end.

(** The state in which [exec] starts: the client bound to [client], and
    [sys.stdout] pointing to an empty capture. *)
Definition entered (environ : gmap string string) (st : State) : State :=
  let '(c, st1) := acquire environ st in
  set_stdout (StringIO "") (set_global "client" (VRef c) st1).

(** The [try] statement around [exec], from the result of [exec] on. *)
Definition leave (format_exc : exn -> nat -> State -> string)
    (old_stdout : stream) (r : ending * State) : reply * State :=
  match r with
  | (Finished, st4) =>
    (Returned (if bool_decide (getvalue st4 = "") then no_output
               else getvalue st4),
     set_stdout old_stdout st4)
  | (Failed ex line, st4) =>
    if is_Exception ex then
      (Returned (getvalue st4 ++ nl ++ "Error: " ++ exn_class ex ++ ": "
                 ++ exn_msg ex ++ nl ++ nl ++ format_exc ex line st4),
       set_stdout old_stdout st4)
    else (Propagated ex, set_stdout old_stdout st4)
  | (Unmodelled, st4) => (Unknown, set_stdout old_stdout st4)
  end.

(** How the code of a call ends and what it has printed by then, in a
    process with the credentials: what the reply is made of, the
    traceback apart. *)
Definition course (environ : gmap string string) (code : list stmt)
    (st : State) : ending * string :=
  (fst (exec code (entered environ st)),
   getvalue (snd (exec code (entered environ st)))).

(** The call has returned a string: its code has stayed within what is
    followed and has raised nothing that leaves the call, so the process
    goes on to the next call in the state the call has left. *)
Definition answered (r : reply) : Prop := exists text, r = Returned text.

(** The name resolves to the builtin of that name: nothing shadows it in
    the globals and the builtins module still holds it. *)
Definition builtin_visible (st : State) (name : string) : Prop :=
  lookup_name (frame_builtins st) (execution_globals st) (heap st) name
  = Val (VBuiltin name).

(** What every reference to an object reveals whatever the attributes
    that are followed. *)
Definition obj_meta (o : pyobj)
  : string * string * string * option (gset string) :=
  (obj_type o, obj_name o, obj_repr o, obj_hidden o).

(** Two states look the same through the identifiers of [S]: the globals
    named in [S] are bound alike, the heaps hold the same objects, and the
    attributes named in [S] are set alike on every object. *)
Record agree (S : gset string) (st1 st2 : State) : Prop := {
  agree_globals : forall x, x ∈ S ->
    execution_globals st1 !! x = execution_globals st2 !! x;
  agree_objects : forall l,
    obj_meta <$> heap st1 !! l = obj_meta <$> heap st2 !! l;
  agree_attrs : forall l a, a ∈ S ->
    attr_at (heap st1) l a = attr_at (heap st2) l a;
}.

(** *** Sample processes and snippets *)

Definition configured_environ : gmap string string :=
  {[ "DATAIKU_URL" := "https://dss.example.com";
     "DATAIKU_API_KEY" := "secret" ]}.

Definition bare_environ : gmap string string :=
  {[ "HOME" := "/home/user" ]}.

(** A traceback in the layout of CPython 3.10, which draws nothing from
    the state. *)
Definition plain_traceback (ex : exn) (line : nat) (st : State) : string :=
  "Traceback (most recent call last):" ++ nl
  ++ "  File " ++ dq ++ "/srv/mcp-server/server.py" ++ dq
  ++ ", line 172, in execute_python" ++ nl
  ++ "    exec(code, execution_globals)" ++ nl
  ++ "  File " ++ dq ++ "<string>" ++ dq ++ ", line " ++ pretty line
  ++ ", in <module>" ++ nl
  ++ exn_class ex ++ (if bool_decide (exn_msg ex = "") then ""
                      else ": " ++ exn_msg ex) ++ nl.

(** An allocator that places the object kept at [l] at an address made
    of [l]. *)
Definition sample_layout (l : loc) : string :=
  "0x7f3a5c" ++ pretty (Z.pos l) ++ "0".

Definition session0 : State := startup "/srv/mcp-server" sample_layout.

(** [print(e)] *)
Definition print_ (e : expr) : stmt := SExpr (ECall (EName "print") e).

(** [x = 1] *)
Definition code_x_is_1 : list stmt := [SAssign "x" (ELit (LInt 1))].
(** [print(x)] *)
Definition code_print_x : list stmt := [print_ (EName "x")].
(** [print(1)] *)
Definition code_print_1 : list stmt := [print_ (ELit (LInt 1))].
(** [raise RuntimeError('boom')] *)
Definition code_raise_boom : list stmt :=
  [SRaise (ECall (EName "RuntimeError") (ELit (LStr "boom")))].

End Server.

(** ** More Python data *)

Module PyMore.
Import Py.

(** [bool(v)] for a JSON value. *)
Definition truthy (v : json) : bool :=
  match v with
  | JNull => false
  | JBool b => b
  | JInt z => negb (z =? 0)
  | JStr s => negb (bool_decide (s = ""))
  | JList l => negb (bool_decide (length l = 0%nat))
  | JObj d => negb (bool_decide (size d = 0%nat))
  end.

(** [a or b] *)
Definition py_or (a b : json) : json := if truthy a then a else b.

(** [v.items()] *)
Definition items (v : json) : outcome (gmap string json) :=
  match v with
  | JObj d => Ret d
  | _ => Raise (Exn "AttributeError"
                 ("'" ++ type_name v ++ "' object has no attribute 'items'"))
  end.

(** [[f(x) for x in l]], stopping at the first [f(x)] that raises. *)
Fixpoint comprehension {A B} (f : A -> outcome B) (l : list A)
  : outcome (list B) :=
  match l with
  | [] => Ret []
  | x :: rest =>
    match f x with
    | Raise e => Raise e
    | Ret y =>
      match comprehension f rest with
      | Raise e => Raise e
      | Ret ys => Ret (y :: ys)
      end
    end
  end.

End PyMore.

(** ** helpers/search.py

    [re] is Python's.  A compiled pattern is a value of an open type
    [regex]; [re_compile pattern] stands for
    [re.compile(pattern, re.IGNORECASE)], which raises on a malformed
    pattern, and [re_search rx s] tells whether [rx.search(s)] finds a
    match in the string [s]. *)

Module Search.
Import Py PyMore.

(** A project handle, as far as the search helpers use it.
    [dataset_raw name] stands for
    [project.get_dataset(name).get_settings().get_raw()]. *)
Record Project := {
  list_datasets : outcome (list json);
  list_recipes : outcome (list json);
  list_scenarios : outcome (list json);
  dataset_raw : json -> outcome json;
}.

(** The client, as far as the search helpers use it. *)
Record DSSClient := {
  list_projects : outcome (list json);
  get_project : json -> outcome Project;
  list_users : outcome (list json);
}.

(** [if project_key:] for an optional string. *)
Definition given (project_key : option string) : bool :=
  match project_key with
  | Some k => negb (bool_decide (k = ""))
  | None => false
  end.

(** The projects a search goes through: the one asked for, or all. *)
Definition projects_of (client : DSSClient) (project_key : option string)
  : outcome (list json) :=
  if given project_key
  then Ret [JObj {[ "projectKey" := JStr (default "" project_key) ]}]
  else list_projects client.

(** An inner [for] loop inside a [try]: [step] handles one item given the
    results so far; the first exception ends the loop, and the bare
    [except: continue] around it keeps the results appended until then. *)
Fixpoint scan (step : json -> list json -> outcome (list json))
    (items : list json) (results : list json) : list json :=
  match items with
  | [] => results
  | item :: rest =>
    match step item results with
    | Raise _ => results
    | Ret results' => scan step rest results'
    end
  end.

(** The [try] block for one project: get the project, list its items, and
    scan them; any exception leaves the results as they are. *)
Definition try_project (client : DSSClient)
    (listing : Project -> outcome (list json))
    (step : Project -> json -> list json -> outcome (list json))
    (pkey : json) (results : list json) : list json :=
  match get_project client pkey with
  | Raise _ => results
  | Ret project =>
    match listing project with
    | Raise _ => results
    | Ret items => scan (step project) items results
    end
  end.

(** The outer [for p in projects] loop; [p.get("projectKey")] stands
    before the [try] and so may raise out of the search. *)
Fixpoint over_projects (body : json -> list json -> list json)
    (projects : list json) (results : list json) : outcome (list json) :=
  match projects with
  | [] => Ret results
  | p :: rest =>
    match get p "projectKey" JNull with
    | Raise e => Raise e
    | Ret pkey => over_projects body rest (body pkey results)
    end
  end.

Section Regex.
Variable regex : Type.
Variable re_compile : string -> outcome regex.
Variable re_search : regex -> string -> bool.

(** [bool(rx.search(v))]: a [TypeError] unless [v] is a string (the
    message is that of Python 3.11 and later). *)
Definition search (rx : regex) (v : json) : outcome bool :=
  match v with
  | JStr s => Ret (re_search rx s)
  | _ => Raise (Exn "TypeError"
                  ("expected string or bytes-like object, got '"
                   ++ type_name v ++ "'"))
  end.

Definition named_entry (pkey name type : json) : json :=
  JObj {[ "project_key" := pkey; "name" := name; "type" := type ]}.

(** The body of the loop over the datasets, and over the recipes, of a
    project. *)
Definition name_step (rx : regex) (pkey : json) (d : json)
    (results : list json) : outcome (list json) :=
  bind (get d "name" (JStr "")) (fun name =>
  bind (search rx name) (fun hit =>
  if hit then
    bind (get d "type" JNull) (fun type =>
    Ret (results ++ [named_entry pkey name type]))
  else Ret results)).

(** [find_datasets(client, pattern, project_key=None)] *)
Definition find_datasets (client : DSSClient) (pattern : string)
    (project_key : option string) : outcome (list json) :=
  bind (re_compile pattern) (fun rx =>
  bind (projects_of client project_key) (fun projects =>
  over_projects
    (fun pkey => try_project client list_datasets
                   (fun _ => name_step rx pkey) pkey)
    projects [])).

(** [find_recipes(client, pattern, project_key=None)] *)
Definition find_recipes (client : DSSClient) (pattern : string)
    (project_key : option string) : outcome (list json) :=
  bind (re_compile pattern) (fun rx =>
  bind (projects_of client project_key) (fun projects =>
  over_projects
    (fun pkey => try_project client list_recipes
                   (fun _ => name_step rx pkey) pkey)
    projects [])).

Definition scenario_entry (pkey sid name : json) : json :=
  JObj {[ "project_key" := pkey; "id" := sid; "name" := name ]}.

(** [rx.search(a) or rx.search(b)]: [b] is searched only if [a] has no
    match. *)
Definition search_either (rx : regex) (a b : json) : outcome bool :=
  bind (search rx a) (fun hit => if hit then Ret true else search rx b).

Definition scenario_step (rx : regex) (pkey : json) (s : json)
    (results : list json) : outcome (list json) :=
  bind (get s "name" (JStr "")) (fun name =>
  bind (get s "id" (JStr "")) (fun sid =>
  bind (search_either rx name sid) (fun hit =>
  if hit then Ret (results ++ [scenario_entry pkey sid name])
  else Ret results))).

(** [find_scenarios(client, pattern, project_key=None)] *)
Definition find_scenarios (client : DSSClient) (pattern : string)
    (project_key : option string) : outcome (list json) :=
  bind (re_compile pattern) (fun rx =>
  bind (projects_of client project_key) (fun projects =>
  over_projects
    (fun pkey => try_project client list_scenarios
                   (fun _ => scenario_step rx pkey) pkey)
    projects [])).

Definition user_entry (login display groups email : json) : json :=
  JObj {[ "login" := login; "displayName" := display;
          "groups" := groups; "email" := email ]}.

(** The loop of [find_users]; it stands in no [try]. *)
Fixpoint users_loop (rx : regex) (users : list json) (results : list json)
  : outcome (list json) :=
  match users with
  | [] => Ret results
  | u :: rest =>
    match
      bind (get u "login" (JStr "")) (fun login =>
      bind (get u "displayName" (JStr "")) (fun display =>
      bind (search_either rx login display) (fun hit =>
      if hit then
        bind (get u "groups" (JList [])) (fun groups =>
        bind (get u "email" JNull) (fun email =>
        Ret (results ++ [user_entry login display groups email])))
      else Ret results)))
    with
    | Raise e => Raise e
    | Ret results' => users_loop rx rest results'
    end
  end.

(** [find_users(client, pattern)] *)
Definition find_users (client : DSSClient) (pattern : string)
  : outcome (list json) :=
  bind (re_compile pattern) (fun rx =>
  bind (list_users client) (fun users =>
  users_loop rx users [])).
End Regex.

Definition connection_entry (pkey name type path : json) : json :=
  JObj {[ "project_key" := pkey; "name" := name; "type" := type;
          "path" := path ]}.

(** The body of the loop over the datasets in [find_by_connection]. *)
Definition connection_step (connection_name : string) (pkey : json)
    (project : Project) (d : json) (results : list json)
  : outcome (list json) :=
  bind (get d "name" JNull) (fun name =>
  bind (dataset_raw project name) (fun raw =>
  bind (get raw "params" (JObj ∅)) (fun params =>
  bind (get params "connection" JNull) (fun connection =>
  if eq_str connection connection_name then
    bind (get d "type" JNull) (fun type =>
    bind (get params "path" JNull) (fun path =>
    bind (get params "table" JNull) (fun table =>
    Ret (results ++ [connection_entry pkey name type (py_or path table)]))))
  else Ret results)))).

(** [find_by_connection(client, connection_name)] *)
Definition find_by_connection (client : DSSClient) (connection_name : string)
  : outcome (list json) :=
  bind (list_projects client) (fun projects =>
  over_projects
    (fun pkey => try_project client list_datasets
                   (fun project => connection_step connection_name pkey project)
                   pkey)
    projects []).

(** *** Sample clients *)

(** A regular-expression engine that knows literal patterns only: a
    pattern matches the strings it is a substring of, and a pattern that
    opens a bracket is malformed. *)
Definition literal_compile (pattern : string) : outcome string :=
  if bool_decide (pattern = "[")
  then Raise (Exn "error" "unterminated character set at position 0")
  else Ret pattern.

Fixpoint contains (pattern s : string) : bool :=
  String.prefix pattern s
  || match s with
     | EmptyString => false
     | String _ rest => contains pattern rest
     end.

Definition literal_search (pattern s : string) : bool := contains pattern s.

Definition dataset_item (name type : string) : json :=
  JObj {[ "name" := JStr name; "type" := JStr type ]}.

Definition raw_settings (connection table : string) : json :=
  JObj {[ "params" := JObj {[ "connection" := JStr connection;
                               "table" := JStr table ]} ]}.

(** A project with three datasets and one scenario; the settings of
    [broken] cannot be read. *)
Definition sales_project : Project :=
  {| list_datasets :=
       Ret [dataset_item "orders" "Snowflake";
            dataset_item "broken" "Snowflake";
            dataset_item "customers" "Snowflake"];
     list_recipes := Ret [];
     list_scenarios :=
       Ret [JObj {[ "id" := JStr "NIGHTLY"; "name" := JStr "Nightly build" ]}];
     dataset_raw := fun name =>
       if eq_str name "broken"
       then Raise (Exn "DataikuException" "dataset settings unavailable")
       else Ret (raw_settings "sf-azure" "T") |}.

Definition hr_project : Project :=
  {| list_datasets := Ret [dataset_item "staff" "PostgreSQL"];
     list_recipes := Ret [];
     list_scenarios := Ret [];
     dataset_raw := fun _ => Ret (raw_settings "sf-azure" "STAFF") |}.

Definition project_item (key : string) : json :=
  JObj {[ "projectKey" := JStr key ]}.

(** An instance with two projects; listing the users fails. *)
Definition two_projects : DSSClient :=
  {| list_projects := Ret [project_item "SALES"; project_item "HR"];
     get_project := fun pkey =>
       if eq_str pkey "SALES" then Ret sales_project
       else if eq_str pkey "HR" then Ret hr_project
       else Raise (Exn "DataikuException" "project not found");
     list_users := Raise (Exn "DataikuException" "not an administrator") |}.

(** The same instance seen with a key that may not list projects. *)
Definition no_listing : DSSClient :=
  {| list_projects := Raise (Exn "DataikuException" "forbidden");
     get_project := get_project two_projects;
     list_users := list_users two_projects |}.

Definition user_item (login display : json) : json :=
  JObj {[ "login" := login; "displayName" := display ]}.

Definition users_client (users : list json) : DSSClient :=
  {| list_projects := Ret [];
     get_project := fun _ => Raise (Exn "DataikuException" "project not found");
     list_users := Ret users |}.

End Search.

(** ** helpers/inspection.py *)

Module Inspection.
Import Py PyMore.

(** A connection handle. *)
Record Connection := {
  get_definition : outcome json;
  test : outcome json;
}.

(** The settings of a dataset: [get_raw()] and the [type] attribute. *)
Record Settings := {
  get_raw : outcome json;
  type_ : json;
}.

(** The last metric values of a dataset. *)
Record Metrics := {
  get_global_value : string -> outcome json;
}.

(** A dataset handle.  [get_last_metric_values()] answers a metrics
    object or [None].  [iter_rows()] is a generator: the rows it yields,
    and the exception it raises after them if it does not come to its
    end. *)
Record Dataset := {
  get_settings : outcome Settings;
  get_last_metric_values : outcome (option Metrics);
  iter_rows : list json * option exn;
}.

Record Project := {
  get_metadata : outcome json;
  list_datasets : outcome (list json);
  list_recipes : outcome (list json);
  list_scenarios : outcome (list json);
  list_jobs : outcome (list json);
  get_dataset : string -> outcome Dataset;
}.

Record DSSClient := {
  get_project : string -> outcome Project;
  get_connection : string -> outcome Connection;
  list_projects : outcome (list json);
}.

(** [(col.get("name"), col.get("type"))] *)
Definition column (col : json) : outcome (json * json) :=
  bind (get col "name" JNull) (fun name =>
  bind (get col "type" JNull) (fun type =>
  Ret (name, type))).

Definition str_has_no_get : exn :=
  Exn "AttributeError" "'str' object has no attribute 'get'".

(** [[(col.get("name"), col.get("type")) for col in schema]].  A list is
    gone through item by item; a dict yields its keys and a string its
    characters, strings both, on which [get] fails; nothing else can be
    iterated. *)
Definition columns_of (schema : json) : outcome (list (json * json)) :=
  match schema with
  | JList cols => comprehension column cols
  | JObj d => if bool_decide (size d = 0%nat) then Ret []
              else Raise str_has_no_get
  | JStr s => if bool_decide (s = "") then Ret [] else Raise str_has_no_get
  | _ => Raise (Exn "TypeError"
                  ("'" ++ type_name schema ++ "' object is not iterable"))
  end.

(** The first [try] of [dataset_info]: the value [row_count] is bound to
    when the block comes to its end. *)
Definition read_row_count (dataset : Dataset) : outcome json :=
  bind (get_last_metric_values dataset) (fun metrics =>
  match metrics with
  | Some m =>
    bind (get_global_value m "records:COUNT_RECORDS") (fun records_metric =>
    if truthy records_metric then Ret records_metric else Ret JNull)
  | None => Ret JNull
  end).

Definition isinstance_dict (v : json) : bool :=
  match v with
  | JObj _ => true
  | _ => false
  end.

Section Builtins.
(** [dict(zip(names, row))] is Python's; it raises on a row that cannot
    be iterated and on a name that cannot be hashed. *)
Variable dict_zip : list json -> json -> outcome json.

(** The loop of the second [try], from the [i]-th row on: the sample so
    far, and the exception that ended the loop if one did. *)
Fixpoint sample_loop (names : list json) (sample_size : Z) (i : nat)
    (rows : list json) (rows_end : option exn) (sample : list json)
  : list json * option exn :=
  match rows with
  | [] => (sample, rows_end)
  | row :: rest =>
    if Z.of_nat i >=? sample_size then (sample, None)
    else if isinstance_dict row
    then sample_loop names sample_size (S i) rest rows_end (sample ++ [row])
    else
      match dict_zip names row with
      | Raise e => (sample, Some e)
      | Ret converted =>
        sample_loop names sample_size (S i) rest rows_end
                    (sample ++ [converted])
      end
  end.

(** [dataset_info(client, project_key, dataset_name, sample_size=5)].
    The tuples of [columns] are shown as two-item lists in the result. *)
Definition dataset_info (client : DSSClient) (project_key dataset_name : string)
    (sample_size : Z) : outcome json :=
  bind (get_project client project_key) (fun project =>
  bind (get_dataset project dataset_name) (fun dataset =>
  bind (get_settings dataset) (fun settings =>
  bind (get_raw settings) (fun raw =>
  bind (get raw "schema" (JObj ∅)) (fun schema_ =>
  bind (get schema_ "columns" (JList [])) (fun schema =>
  bind (columns_of schema) (fun columns =>
  let ds_type := type_ settings in
  bind (get_raw settings) (fun raw' =>
  bind (get raw' "params" (JObj ∅)) (fun params =>
  bind (get params "connection" JNull) (fun connection =>
  bind (get params "path" JNull) (fun path_ =>
  bind (get params "table" JNull) (fun table =>
  let path := py_or path_ table in
  let row_count :=
    match read_row_count dataset with
    | Ret v => v
    | Raise _ => JNull
    end in
  let sample :=
    fst (sample_loop (map fst columns) sample_size 0
                     (fst (iter_rows dataset)) (snd (iter_rows dataset)) []) in
  Ret (JObj {[ "name" := JStr dataset_name;
               "type" := ds_type;
               "schema" := JList (map (fun c => JList [fst c; snd c]) columns);
               "row_count" := row_count;
               "sample" := JList sample;
               "connection" := connection;
               "path" := path ]}))))))))))))).
End Builtins.

(** [{"name": d.get("name"), "type": d.get("type")}] *)
Definition name_and_type (d : json) : outcome json :=
  bind (get d "name" JNull) (fun name =>
  bind (get d "type" JNull) (fun type =>
  Ret (JObj {[ "name" := name; "type" := type ]}))).

(** [{"id": s.get("id"), "name": s.get("name")}] *)
Definition id_and_name (s : json) : outcome json :=
  bind (get s "id" JNull) (fun sid =>
  bind (get s "name" JNull) (fun name =>
  Ret (JObj {[ "id" := sid; "name" := name ]}))).

(** The [try] of [project_summary]: the five first jobs, none when the
    listing fails. *)
Definition recent_jobs (project : Project) : list json :=
  match list_jobs project with
  | Ret job_list =>
    if truthy (JList job_list) then take 5 job_list else []
  | Raise _ => []
  end.

(** [project_summary(client, project_key)] *)
Definition project_summary (client : DSSClient) (project_key : string)
  : outcome json :=
  bind (get_project client project_key) (fun project =>
  bind (get_metadata project) (fun metadata =>
  bind (list_datasets project) (fun datasets =>
  bind (list_recipes project) (fun recipes =>
  bind (list_scenarios project) (fun scenarios =>
  let jobs := recent_jobs project in
  bind (get metadata "label" (JStr project_key)) (fun label =>
  bind (get metadata "description" (JStr "")) (fun description =>
  bind (comprehension name_and_type datasets) (fun datasets_ =>
  bind (comprehension name_and_type recipes) (fun recipes_ =>
  bind (comprehension id_and_name scenarios) (fun scenarios_ =>
  Ret (JObj {[ "key" := JStr project_key;
               "name" := label;
               "description" := description;
               "datasets" := JList datasets_;
               "recipes" := JList recipes_;
               "scenarios" := JList scenarios_;
               "recent_jobs" := JList jobs;
               "dataset_count" := JInt (Z.of_nat (length datasets));
               "recipe_count" := JInt (Z.of_nat (length recipes));
               "scenario_count" := JInt (Z.of_nat (length scenarios))
            ]}))))))))))).

(** The keys that [connection_info] leaves out of the parameters. *)
Definition secret_keys : list string :=
  ["password"; "secretKey"; "privateKey"].

(** The [try] of [connection_info]: [except Exception] turns a failed
    test into a result; what is no [Exception] goes through. *)
Definition test_connection (conn : Connection) : outcome json :=
  match test conn with
  | Ret test_result => Ret test_result
  | Raise e =>
    if Server.is_Exception e
    then Ret (JObj {[ "ok" := JBool false; "error" := JStr (exn_msg e) ]})
    else Raise e
  end.

(** [connection_info(client, connection_name)] *)
Definition connection_info (client : DSSClient) (connection_name : string)
  : outcome json :=
  bind (get_connection client connection_name) (fun conn =>
  bind (get_definition conn) (fun definition =>
  bind (test_connection conn) (fun test_result =>
  bind (get definition "type" JNull) (fun type =>
  bind (get definition "usableBy" JNull) (fun usable_by =>
  bind (get definition "params" (JObj ∅)) (fun params =>
  bind (items params) (fun params_items =>
  Ret (JObj {[ "name" := JStr connection_name;
               "type" := type;
               "usable_by" := usable_by;
               "params" :=
                 JObj (filter (fun kv => kv.1 ∉ secret_keys) params_items);
               "test_result" := test_result ]})))))))).

(** *** Sample instance *)

(** A connection whose test fails with a connection error, and whose
    definition carries a password. *)
Definition warehouse : Connection :=
  {| get_definition :=
       Ret (JObj {[ "type" := JStr "Snowflake";
                    "params" := JObj {[ "host" := JStr "acme.example.com";
                                        "user" := JStr "svc";
                                        "password" := JStr "hunter2" ]} ]});
     test := Raise (Exn "DataikuException" "connection refused") |}.

Definition row_counting (count : json) : Metrics :=
  {| get_global_value := fun _ => Ret count |}.

(** An empty dataset whose metrics say so, with one column. *)
Definition empty_dataset : Dataset :=
  {| get_settings :=
       Ret {| get_raw :=
                Ret (JObj {[ "schema" :=
                               JObj {[ "columns" :=
                                 JList [JObj {[ "name" := JStr "id";
                                                "type" := JStr "bigint" ]}] ]};
                             "params" := JObj {[ "table" := JStr "T" ]} ]});
              type_ := JStr "Snowflake" |};
     get_last_metric_values := Ret (Some (row_counting (JInt 0)));
     iter_rows := ([], None) |}.

(** A dataset of seven rows whose reading breaks off after them. *)
Definition seven_rows : Dataset :=
  {| get_settings := get_settings empty_dataset;
     get_last_metric_values := Raise (Exn "DataikuException" "no metrics");
     iter_rows :=
       (map (fun i => JObj {[ "id" := JInt i ]}) [1; 2; 3; 4; 5; 6; 7],
        Some (Exn "DataikuException" "stream closed")) |}.

Definition job_item (id : string) : json := JObj {[ "id" := JStr id ]}.

Definition sample_project : Project :=
  {| get_metadata := Ret (JObj {[ "label" := JStr "Sales" ]});
     list_datasets := Ret [JObj {[ "name" := JStr "orders";
                                   "type" := JStr "Snowflake" ]};
                           JObj {[ "name" := JStr "customers";
                                   "type" := JStr "Snowflake" ]}];
     list_recipes := Ret [];
     list_scenarios := Ret [JObj {[ "id" := JStr "NIGHTLY";
                                    "name" := JStr "Nightly build" ]}];
     list_jobs := Ret (map job_item ["j1"; "j2"; "j3"; "j4"; "j5"; "j6"]);
     get_dataset := fun name =>
       if bool_decide (name = "orders") then Ret seven_rows
       else Ret empty_dataset |}.

Definition sample_client : DSSClient :=
  {| get_project := fun _ => Ret sample_project;
     get_connection := fun _ => Ret warehouse;
     list_projects := Ret [] |}.

(** A [dict(zip(...))] that is never needed: the sample rows are dicts. *)
Definition no_zip (names : list json) (row : json) : outcome json :=
  Raise (Exn "TypeError" "zip argument #2 must support iteration").

(** What the helpers answer on the sample instance. *)
Definition warehouse_info : gmap string json :=
  {[ "name" := JStr "wh";
     "type" := JStr "Snowflake";
     "usable_by" := JNull;
     "params" := JObj {[ "host" := JStr "acme.example.com";
                         "user" := JStr "svc" ]};
     "test_result" := JObj {[ "ok" := JBool false;
                              "error" := JStr "connection refused" ]} ]}.

Definition sales_summary : gmap string json :=
  {[ "key" := JStr "SALES";
     "name" := JStr "Sales";
     "description" := JStr "";
     "datasets" := JList [JObj {[ "name" := JStr "orders";
                                  "type" := JStr "Snowflake" ]};
                          JObj {[ "name" := JStr "customers";
                                  "type" := JStr "Snowflake" ]}];
     "recipes" := JList [];
     "scenarios" := JList [JObj {[ "id" := JStr "NIGHTLY";
                                   "name" := JStr "Nightly build" ]}];
     "recent_jobs" := JList (map job_item ["j1"; "j2"; "j3"; "j4"; "j5"]);
     "dataset_count" := JInt 2;
     "recipe_count" := JInt 0;
     "scenario_count" := JInt 1 ]}.

Definition customers_info : gmap string json :=
  {[ "name" := JStr "customers";
     "type" := JStr "Snowflake";
     "schema" := JList [JList [JStr "id"; JStr "bigint"]];
     "row_count" := JNull;
     "sample" := JList [];
     "connection" := JNull;
     "path" := JStr "T" ]}.

Definition orders_info : gmap string json :=
  {[ "name" := JStr "orders";
     "type" := JStr "Snowflake";
     "schema" := JList [JList [JStr "id"; JStr "bigint"]];
     "row_count" := JNull;
     "sample" := JList (map (fun i => JObj {[ "id" := JInt i ]})
                            [1; 2; 3; 4; 5]);
     "connection" := JNull;
     "path" := JStr "T" ]}.

End Inspection.

(** ** create_dataset.py

    The functions of this script act on the platform.  The calls they
    make are recorded in a [World], in the order they are made, together
    with what is printed; what the platform answers to a call may depend
    on the calls made before it. *)

Module CreateDataset.
Import Py PyMore.
Local Open Scope string_scope.

(** The calls on the client and on the handles got from it.  A handle is
    named by the keys it was got with. *)
Inductive call :=
| get_project (project_key : string)
| list_datasets (project_key : string)
| get_dataset (project_key name : string)
| delete (project_key name : string)
| create_upload_dataset (project_key name connection : string)
| uploaded_add_file (project_key name content filename : string).

(** What the platform does on each call, given the calls made so far.
    Only the listing of datasets answers something the script reads. *)
Record Platform := {
  answer : list call -> call -> outcome ();
  datasets : list call -> string -> outcome (list json);
}.

Record World := {
  calls : list call;
  stdout : string;
}.

(** A step of the script: it returns or raises, and leaves a world. *)
Definition M (A : Type) : Type := World -> outcome A * World.

Definition ret {A} (a : A) : M A := fun w => (Ret a, w).

Definition lift {A} (o : outcome A) : M A := fun w => (o, w).

Definition and_then {A B} (m : M A) (k : A -> M B) : M B :=
  fun w =>
    match m w with
    | (Ret a, w') => k a w'
    | (Raise e, w') => (Raise e, w')
    end.

Notation "'let*' x := m 'in' k" := (and_then m (fun x => k))
  (at level 10, x name, m at level 100, k at level 200).
Notation "'run' m 'then' k" := (and_then m (fun _ => k))
  (at level 10, m at level 100, k at level 200).

(** [print(line)] *)
Definition print (line : string) : M () :=
  fun w => (Ret (), {| calls := calls w; stdout := stdout w ++ line ++ nl |}).

(** [d[key]] for a string key (the messages are those of Python 3.11 and
    later). *)
Definition subscript (d : json) (key : string) : outcome json :=
  match d with
  | JObj m =>
    match m !! key with
    | Some v => Ret v
    | None => Raise (Exn "KeyError" ("'" ++ key ++ "'"))
    end
  | JList _ =>
    Raise (Exn "TypeError" "list indices must be integers or slices, not str")
  | JStr _ =>
    Raise (Exn "TypeError" "string indices must be integers, not 'str'")
  | _ =>
    Raise (Exn "TypeError"
             ("'" ++ type_name d ++ "' object is not subscriptable"))
  end.

(** [dataset_name in existing] *)
Definition contains (existing : list json) (dataset_name : string) : bool :=
  existsb (fun name => eq_str name dataset_name) existing.

(** A record of [create_dataset_from_records]: a dict, with its keys in
    the order they were put in. *)
Definition record := list (string * json).

(** [r.get(c)] *)
Definition record_get (r : record) (c : string) : json :=
  match List.find (fun kv => bool_decide (kv.1 = c)) r with
  | Some kv => kv.2
  | None => JNull
  end.

Section Process.
(** [os.environ] once the [.env] file has been loaded. *)
Variable environ : gmap string string.
Variable platform : Platform.
(** What [csv.writer] writes for a header and rows; it is Python's. *)
Variable csv_text : list json -> list (list json) -> outcome string.

(** A call on the platform. *)
Definition perform (c : call) : M () :=
  fun w => (answer platform (calls w) c,
            {| calls := calls w ++ [c]; stdout := stdout w |}).

(** [project.list_datasets()] *)
Definition perform_list_datasets (project_key : string) : M (list json) :=
  fun w => (datasets platform (calls w) project_key,
            {| calls := calls w ++ [list_datasets project_key];
               stdout := stdout w |}).

(** [client.get_client()]; building the client sends nothing. *)
Definition get_client : M () :=
  let url := environ !! "DATAIKU_URL" in
  let api_key := environ !! "DATAIKU_API_KEY" in
  if Server.py_not url || Server.py_not api_key then
    lift (Raise (Exn "ValueError"
      "DATAIKU_URL and DATAIKU_API_KEY must be set in environment or .env file"))
  else ret ().

(** [create_dataset_from_csv(project_key, dataset_name, csv_content,
    connection="filesystem_managed")]; it returns the handle of the new
    dataset. *)
Definition create_dataset_from_csv
    (project_key dataset_name csv_content connection : string)
  : M (string * string) :=
  run get_client then
  run perform (get_project project_key) then
  let* listing := perform_list_datasets project_key in
  let* existing :=
    lift (comprehension (fun d => subscript d "name") listing) in
  run (if contains existing dataset_name then
         run print ("Deleting existing dataset: " ++ dataset_name) then
         run perform (get_dataset project_key dataset_name) then
         perform (delete project_key dataset_name)
       else ret ()) then
  run perform (create_upload_dataset project_key dataset_name connection) then
  run perform (uploaded_add_file project_key dataset_name csv_content
                                 (dataset_name ++ ".csv")) then
  run print ("Created dataset: " ++ dataset_name) then
  ret (project_key, dataset_name).

(** [create_dataset_from_dict(project_key, dataset_name, columns, rows,
    connection="filesystem_managed")] *)
Definition create_dataset_from_dict (project_key dataset_name : string)
    (columns : list json) (rows : list (list json)) (connection : string)
  : M (string * string) :=
  let* csv_content := lift (csv_text columns rows) in
  create_dataset_from_csv project_key dataset_name csv_content connection.

(** [create_dataset_from_records(project_key, dataset_name, records,
    connection="filesystem_managed")] *)
Definition create_dataset_from_records (project_key dataset_name : string)
    (records : list record) (connection : string) : M (string * string) :=
  match records with
  | [] => lift (Raise (Exn "ValueError" "Records list cannot be empty"))
  | first :: _ =>
    let columns := map fst first in
    let rows := map (fun r => map (record_get r) columns) records in
    create_dataset_from_dict project_key dataset_name
      (map JStr columns) rows connection
  end.
End Process.

(** The calls that [create_dataset_from_csv] makes when none of them
    fails, [listed] telling whether the listing names the dataset. *)
Definition plan (project_key dataset_name csv_content connection : string)
    (listed : bool) : list call :=
  [get_project project_key; list_datasets project_key]
  ++ (if listed
      then [get_dataset project_key dataset_name;
            delete project_key dataset_name]
      else [])
  ++ [create_upload_dataset project_key dataset_name connection;
      uploaded_add_file project_key dataset_name csv_content
                        (dataset_name ++ ".csv")].

(** Whether the listing that follows the calls [before] and
    [get_project] names the dataset. *)
Definition listed (platform : Platform) (before : list call)
    (project_key dataset_name : string) : bool :=
  match datasets platform (before ++ [get_project project_key]) project_key
  with
  | Ret listing =>
    match comprehension (fun d => subscript d "name") listing with
    | Ret existing => contains existing dataset_name
    | Raise _ => false
    end
  | Raise _ => false
  end.

(** *** Sample platform *)

Definition configured : gmap string string :=
  {[ "DATAIKU_URL" := "https://dss.example.com";
     "DATAIKU_API_KEY" := "secret" ]}.

(** A project that holds a dataset [sales]; creating an upload dataset
    fails on it, for want of rights on the connection. *)
Definition read_only : Platform :=
  {| answer := fun _ c =>
       match c with
       | create_upload_dataset _ _ _ =>
         Raise (Exn "DataikuException" "connection not writable")
       | _ => Ret ()
       end;
     datasets := fun _ _ => Ret [JObj {[ "name" := JStr "sales" ]}] |}.

Definition world0 : World := {| calls := []; stdout := "" |}.

(** A CSV writer for cells without commas and quotes: it is not
    called. *)
Definition no_csv (columns : list json) (rows : list (list json))
  : outcome string :=
  Raise (Exn "Error" "iterable expected").

End CreateDataset.

(** ** Views of the search helpers used to state their properties *)

Module SearchViews.
Import Py PyMore Search.

(** The datasets of a listing up to the first one whose settings cannot
    be read. *)
Fixpoint readable (project : Project) (items : list json) : list json :=
  match items with
  | [] => []
  | d :: rest =>
    match bind (get d "name" JNull) (dataset_raw project) with
    | Ret _ => d :: readable project rest
    | Raise _ => []
    end
  end.

(** A project whose listing of datasets is cut there. *)
Definition cut_project (project : Project) : Project :=
  {| list_datasets :=
       bind (list_datasets project) (fun items =>
       Ret (readable project items));
     list_recipes := list_recipes project;
     list_scenarios := list_scenarios project;
     dataset_raw := dataset_raw project |}.

Definition cut_client (client : DSSClient) : DSSClient :=
  {| list_projects := list_projects client;
     get_project := fun pkey =>
       bind (get_project client pkey) (fun project =>
       Ret (cut_project project));
     list_users := list_users client |}.

(** The string a record holds under [key], the empty string when the key
    is missing; nothing when the record is no dict or holds something
    else there. *)
Definition text_field (u : json) (key : string) : option string :=
  match get u key (JStr "") with
  | Ret (JStr s) => Some s
  | _ => None
  end.

Definition well_formed_user (u : json) : Prop :=
  is_Some (text_field u "login") /\ is_Some (text_field u "displayName").

Section Regex.
Variable regex : Type.
Variable re_search : regex -> string -> bool.

(** What a search by name reports: an entry for a string name in which
    the pattern is found. *)
Definition name_found (rx : regex) (r : json) : Prop :=
  exists pkey name type,
    r = named_entry pkey (JStr name) type /\ re_search rx name = true.

(** The search of one project, as [find_datasets] runs it. *)
Definition datasets_in (client : DSSClient) (rx : regex) (k : string)
  : list json :=
  try_project client list_datasets (fun _ => name_step regex re_search rx (JStr k))
              (JStr k) [].

(** What a search of scenarios reports: an entry whose name or whose id
    is a string in which the pattern is found. *)
Definition scenario_found (rx : regex) (r : json) : Prop :=
  exists pkey sid name,
    r = scenario_entry pkey sid name
    /\ ((exists s, name = JStr s /\ re_search rx s = true)
        \/ (exists s, sid = JStr s /\ re_search rx s = true)).

(** A user whose login or display name matches. *)
Definition user_matches (rx : regex) (u : json) : bool :=
  match text_field u "login", text_field u "displayName" with
  | Some login, Some display => re_search rx login || re_search rx display
  | _, _ => false
  end.
End Regex.

(** What [find_by_connection] reports: a dataset whose settings were read
    from a project of the instance and name the connection. *)
Definition uses_connection (client : DSSClient) (connection_name : string)
    (r : json) : Prop :=
  exists pkey project items d name raw params type,
    get_project client pkey = Ret project
    /\ list_datasets project = Ret items /\ d ∈ items
    /\ get d "name" JNull = Ret name
    /\ dataset_raw project name = Ret raw
    /\ get raw "params" (JObj ∅) = Ret (JObj params)
    /\ params !! "connection" = Some (JStr connection_name)
    /\ r = connection_entry pkey name type
             (py_or (default JNull (params !! "path"))
                    (default JNull (params !! "table"))).

(** A step that only appends, and appends the same whatever the results
    so far. *)
Definition appends (step : json -> list json -> outcome (list json)) : Prop :=
  forall item r, step item r = bind (step item []) (fun m => Ret (r ++ m)).

(** What [find_users] reports of a user. *)
Definition user_record (u : json) : json :=
  match u with
  | JObj d =>
    user_entry (default (JStr "") (d !! "login"))
               (default (JStr "") (d !! "displayName"))
               (default (JList []) (d !! "groups"))
               (default JNull (d !! "email"))
  | _ => JNull
  end.

End SearchViews.

(** ** Views of a status used to state more properties *)

Module JobsViews.
Import Py Jobs.

(** The state in the nested shape, if the status has one. *)
Definition nested_state (status : gmap string json) : option json :=
  match status !! "baseStatus" with
  | Some (JObj base) => base !! "state"
  | _ => None
  end.

(** The job's n-th status has a nested state, and it is not terminal. *)
Definition nested_pending (job : Remote) (n : nat) : bool :=
  match job n with
  | Ret status =>
    match nested_state status with
    | Some state => negb (is_terminal state)
    | None => false
    end
  | Raise _ => false
  end.

End JobsViews.

(** ** Views of the server state used to state more properties *)

Module ServerViews.
Import Py Server.
Local Open Scope string_scope.



(** [client = None] *)
Definition code_drop_client : list stmt := [SAssign "client" (ELit LNone)].

End ServerViews.

(** ** More sample handles *)

Module Samples2.
Import Py Jobs Samples.

(** A handle whose queries answer the listed payloads and then fail with
    [e], as a dropped connection would. *)
Definition failing_after (replies : list (gmap string json)) (e : exn)
  : Remote :=
  fun i =>
    match replies !! i with
    | Some payload => Ret payload
    | None => Raise e
    end.

Definition connection_reset : exn :=
  Exn "ConnectionError" "Connection reset by peer".

(** A status whose [baseStatus] is [null]. *)
Definition null_base : gmap string json := {[ "baseStatus" := JNull ]}.

(** A status whose two shapes disagree. *)
Definition two_states (nested flat : string) : gmap string json :=
  {[ "baseStatus" := JObj {[ "state" := JStr nested ]};
     "state" := JStr flat ]}.

End Samples2.

(** ** Properties of the completion waiter *)

Module JobsFacts.
Import Py Jobs Polling.

Lemma Qgtb_true x y : Qgtb x y = true <-> (y < x)%Q.
Proof.
  unfold Qgtb. rewrite negb_true_iff, <- not_true_iff_false, Qle_bool_iff.
  split; [apply Qnot_le_lt|apply Qlt_not_le].
Qed.

Lemma Qgtb_false x y : Qgtb x y = false <-> (x <= y)%Q.
Proof. unfold Qgtb. by rewrite negb_false_iff, Qle_bool_iff. Qed.

Lemma wait_loop_poll host job timeout poll_interval start fuel w :
  wait_loop host job timeout poll_interval start fuel w
  = poll_loop host job job_classify (job_timeout_result timeout)
      timeout poll_interval start fuel w.
Proof.
  revert w. induction fuel as [|fuel IH]; intros w; [reflexivity|].
  cbn [wait_loop poll_loop]. destruct (Qgtb _ _); [reflexivity|].
  destruct (query host job w) as [[status|e] w1]; [|reflexivity].
  unfold job_classify. destruct (job_state status) as [state|e]; cbn [bind];
    [|reflexivity].
  destruct (is_terminal state); [reflexivity|].
  destruct (time_sleep host poll_interval w1) as [[[]|e] w2];
    [apply IH|reflexivity].
Qed.

Lemma scenario_loop_poll host run timeout start fuel w :
  scenario_loop host run timeout start fuel w
  = poll_loop host run scenario_classify (scenario_timeout_result timeout)
      timeout 2 start fuel w.
Proof.
  revert w. induction fuel as [|fuel IH]; intros w; [reflexivity|].
  cbn [scenario_loop poll_loop]. destruct (Qgtb _ _); [reflexivity|].
  destruct (query host run w) as [[info|e] w1]; [|reflexivity].
  unfold scenario_classify.
  destruct (scenario_outcome info) as [state|e]; cbn [bind]; [|reflexivity].
  destruct (is_not_None state); [reflexivity|].
  destruct (time_sleep host 2 w1) as [[[]|e] w2]; [apply IH|reflexivity].
Qed.

Section LoopFacts.
Variable host : Host.
Variable remote : Remote.
Variable classify : gmap string json -> outcome (option (Q -> WaitResult)).
Variable on_timeout : Q -> WaitResult.
Variables timeout interval : Z.

Local Notation "'loop'" :=
  (poll_loop host remote classify on_timeout timeout interval).
Local Notation "'tick'" := (Polling.tick host interval).
Local Notation "'after'" := (Polling.after host interval).
Local Notation "'pending'" := (Polling.pending remote classify).

Lemma polls_after n w : polls (after n w) = (polls w + n)%nat.
Proof.
  revert w. induction n as [|n IH]; intros w; cbn [Polling.after].
  - lia.
  - rewrite IH. cbn. lia.
Qed.

Lemma after_S n w : after (S n) w = tick (after n w).
Proof.
  revert w. induction n as [|n IH]; intros w; [reflexivity|].
  change (after (S (S n)) w) with (after (S n) (tick w)).
  rewrite IH. reflexivity.
Qed.

(** Fuel only bounds the number of rounds: an answer reached with some
    fuel is the answer with any larger fuel. *)
Lemma loop_fuel_mono fuel : forall fuel' start w r,
  (fuel <= fuel')%nat ->
  loop start fuel w = Some r -> loop start fuel' w = Some r.
Proof.
  induction fuel as [|fuel IH]; intros fuel' start w r Hle Hrun;
    [discriminate|].
  destruct fuel' as [|fuel']; [lia|]. cbn [poll_loop] in *.
  destruct (Qgtb _ _); [done|].
  destruct (query host remote w) as [[payload|e] w1]; [|done].
  destruct (classify payload) as [[finish|]|e]; try done.
  destruct (time_sleep host interval w1) as [[[]|e] w2]; [|done].
  apply (IH fuel'); [lia|done].
Qed.

(** One round that keeps polling is exactly a [tick]. *)
Lemma loop_step start fuel w :
  0 <= interval ->
  (now w - start <= inject_Z timeout)%Q ->
  pending (polls w) = true ->
  loop start (S fuel) w = loop start fuel (tick w).
Proof.
  intros Hi Ht Hp. cbn [poll_loop]. unfold time_time.
  rewrite (proj2 (Qgtb_false _ _) Ht).
  unfold Polling.pending in Hp. unfold query.
  destruct (remote (polls w)) as [payload|e]; [|discriminate].
  destruct (classify payload) as [[k|]|e]; try discriminate.
  unfold time_sleep. cbn [now polls sleeps].
  destruct (Z.ltb_spec interval 0); [lia|].
  reflexivity.
Qed.

(** A loop that meets its first finishing payload at the n-th query,
    before the timeout, returns the record built from that payload. *)
Lemma loop_finishes n : forall start fuel w payload finish,
  0 <= interval ->
  (forall i, (i < n)%nat -> pending (polls w + i) = true) ->
  remote (polls w + n)%nat = Ret payload ->
  classify payload = Ret (Some finish) ->
  (forall i, (i <= n)%nat ->
     (now (after i w) - start <= inject_Z timeout)%Q) ->
  (n < fuel)%nat ->
  loop start fuel w
  = Some (Ret (finish (now (after n w) - start)%Q),
          snd (query host remote (after n w))).
Proof.
  induction n as [|n IH]; intros start fuel w payload finish Hi Hp Hr Hc Ht Hf.
  - destruct fuel as [|fuel]; [lia|].
    cbn [poll_loop Polling.after]. unfold time_time.
    pose proof (Ht 0%nat ltac:(lia)) as Ht0. cbn [Polling.after] in Ht0.
    rewrite (proj2 (Qgtb_false _ _) Ht0).
    unfold query. rewrite Nat.add_0_r in Hr. rewrite Hr, Hc. reflexivity.
  - destruct fuel as [|fuel]; [lia|].
    rewrite loop_step; [|done|apply (Ht 0%nat); lia|].
    2:{ specialize (Hp 0%nat ltac:(lia)). by rewrite Nat.add_0_r in Hp. }
    cbn [Polling.after].
    apply (IH start fuel (tick w) payload finish); try done; try lia.
    + intros i Hlt. cbn [Polling.tick polls].
      replace (S (polls w) + i)%nat with (polls w + S i)%nat by lia.
      apply Hp. lia.
    + cbn [Polling.tick polls].
      by replace (S (polls w) + n)%nat with (polls w + S n)%nat by lia.
    + intros i Hle. apply (Ht (S i)). lia.
Qed.

Lemma inject_Z_succ k : inject_Z (Z.of_nat (S k)) = (inject_Z (Z.of_nat k) + 1)%Q.
Proof. by rewrite Nat2Z.inj_succ, <- Z.add_1_r, inject_Z_plus. Qed.

(** A loop whose every reply asks for another round stops at the first
    head whose elapsed time exceeds the timeout, and there only.  The
    clock moves by at least one second per round, so the loop is over
    within as many rounds as whole seconds are left, plus one. *)
Lemma loop_times_out_within k : forall fuel start w,
  1 <= interval ->
  (forall i, (0 <= query_cost host i)%Q) ->
  (forall i, (0 <= oversleep host i)%Q) ->
  (forall i, pending (polls w + i) = true) ->
  (inject_Z timeout - (now w - start) < inject_Z (Z.of_nat k))%Q ->
  (k < fuel)%nat ->
  exists n,
    loop start fuel w
    = Some (Ret (on_timeout (now (after n w) - start)%Q), after n w)
    /\ (inject_Z timeout < now (after n w) - start)%Q
    /\ (forall i, (i < n)%nat ->
          (now (after i w) - start <= inject_Z timeout)%Q).
Proof.
  induction k as [|k IH]; intros fuel start w Hi Hq Hs Hp Hk Hf;
    (destruct fuel as [|fuel]; [lia|]);
    destruct (Qlt_le_dec (inject_Z timeout) (now w - start)) as [Hlt|Hle].
  - exists 0%nat. cbn [poll_loop Polling.after]. unfold time_time.
    rewrite (proj2 (Qgtb_true _ _) Hlt).
    split; [reflexivity|]. split; [done|]. intros i Hi0. lia.
  - change (inject_Z (Z.of_nat 0)) with 0%Q in Hk. lra.
  - exists 0%nat. cbn [poll_loop Polling.after]. unfold time_time.
    rewrite (proj2 (Qgtb_true _ _) Hlt).
    split; [reflexivity|]. split; [done|]. intros i Hi0. lia.
  - rewrite loop_step; [|lia|done|].
    2:{ specialize (Hp 0%nat). by rewrite Nat.add_0_r in Hp. }
    destruct (IH fuel start (tick w)) as (n & Hrun & Hover & Hunder);
      try done; try lia.
    + intros i. cbn [Polling.tick polls].
      replace (S (polls w) + i)%nat with (polls w + S i)%nat by lia.
      apply Hp.
    + cbn [Polling.tick now]. rewrite inject_Z_succ in Hk.
      specialize (Hq (polls w)). specialize (Hs (sleeps w)).
      rewrite Zle_Qle in Hi. change (inject_Z 1) with 1%Q in Hi. lra.
    + exists (S n). cbn [Polling.after]. split; [exact Hrun|].
      split; [exact Hover|].
      intros [|i] Hlt; cbn [Polling.after]; [done|]. apply Hunder. lia.
Qed.

(** The fuel that suffices when the loop starts at its own start time. *)
Lemma timeout_fuel (x : Q) (t : Z) :
  (x == 0)%Q ->
  (inject_Z t - x < inject_Z (Z.of_nat (Z.to_nat (t + 1))))%Q.
Proof.
  intros Hx. destruct (Z.le_gt_cases 0 (t + 1)) as [Hle|Hgt].
  - rewrite Z2Nat.id, inject_Z_plus by done.
    change (inject_Z 1) with 1%Q. lra.
  - replace (Z.to_nat (t + 1)) with 0%nat by lia.
    change (inject_Z (Z.of_nat 0)) with 0%Q.
    assert (t < 0) as Hneg by lia. rewrite Zlt_Qlt in Hneg.
    change (inject_Z 0) with 0%Q in Hneg. lra.
Qed.

(** The same run, with the reported duration bracketed: it exceeds the
    timeout, and overshoots it by at most one interval plus what one query
    and one sleep can cost on top. *)
Lemma loop_timeout_bounds k fuel start w delta :
  1 <= interval ->
  (forall i, (0 <= query_cost host i)%Q) ->
  (forall i, (0 <= oversleep host i)%Q) ->
  (forall i j, (query_cost host i + oversleep host j <= delta)%Q) ->
  (forall i, pending (polls w + i) = true) ->
  (now w - start <= inject_Z timeout)%Q ->
  (inject_Z timeout - (now w - start) < inject_Z (Z.of_nat k))%Q ->
  (k < fuel)%nat ->
  exists d w',
    loop start fuel w = Some (Ret (on_timeout d), w')
    /\ (inject_Z timeout < d
        <= inject_Z timeout + inject_Z interval + delta)%Q
    /\ (0 < polls w' - polls w)%nat.
Proof.
  intros Hi Hq Hs Hd Hp H0 Hk Hf.
  destruct (loop_times_out_within k fuel start w)
    as (n & Hrun & Hover & Hunder); try done.
  exists (now (after n w) - start)%Q, (after n w).
  split; [exact Hrun|]. destruct n as [|n].
  - cbn [Polling.after] in Hover. lra.
  - specialize (Hunder n ltac:(lia)). rewrite polls_after.
    rewrite after_S in Hover |- *. cbn [Polling.tick now] in Hover |- *.
    specialize (Hd (polls (after n w)) (sleeps (after n w))).
    specialize (Hq (polls (after n w))).
    specialize (Hs (sleeps (after n w))).
    split; [|lia]. split; lra.
Qed.

(** Whatever record a loop returns is either the timeout record, built
    once the elapsed time exceeds the timeout, or the record of a
    finishing payload, which is the last reply the loop has read. *)
Lemma loop_result_inv fuel : forall start w r w',
  loop start fuel w = Some (Ret r, w') ->
  (exists d, (inject_Z timeout < d)%Q /\ r = on_timeout d)
  \/ (exists i payload finish d,
        remote (polls w + i)%nat = Ret payload
        /\ polls w' = (polls w + S i)%nat
        /\ classify payload = Ret (Some finish)
        /\ (d <= inject_Z timeout)%Q /\ r = finish d).
Proof.
  induction fuel as [|fuel IH]; intros start w r w' Hrun; [discriminate|].
  cbn [poll_loop] in Hrun. unfold time_time in Hrun.
  destruct (Qgtb _ _) eqn:Hgt.
  - injection Hrun as <- <-. left. apply Qgtb_true in Hgt. eauto.
  - apply Qgtb_false in Hgt. unfold query in Hrun.
    destruct (remote (polls w)) as [payload|e] eqn:Hrem; [|discriminate].
    destruct (classify payload) as [[finish|]|e] eqn:Hcl; try discriminate.
    + injection Hrun as <- <-. right.
      exists 0%nat, payload, finish, (now w - start)%Q. cbn [polls].
      rewrite Nat.add_0_r. repeat split; (done || lia).
    + unfold time_sleep in Hrun.
      destruct (interval <? 0); [discriminate|].
      apply IH in Hrun as [Hto|(i & p & k & d & Hr & Hp & Hc & Hd & ->)];
        [by left|right].
      cbn [polls] in Hr, Hp. exists (S i), p, k, d.
      replace (polls w + S i)%nat with (S (polls w) + i)%nat by lia.
      repeat split; (done || lia).
Qed.
End LoopFacts.

(** *** Reading a payload *)

Lemma eq_str_true v s : eq_str v s = true <-> v = JStr s.
Proof.
  destruct v; cbn; try (split; [discriminate|intros [=]]).
  rewrite bool_decide_eq_true. split; [by intros ->|by intros [= ->]].
Qed.

Lemma is_terminal_true state :
  is_terminal state = true
  <-> state = JStr "DONE" \/ state = JStr "FAILED" \/ state = JStr "ABORTED".
Proof.
  unfold is_terminal. rewrite !orb_true_iff, !eq_str_true. tauto.
Qed.

(** With no state in either shape, and a [baseStatus] that is missing or
    an object, the loop reads [UNKNOWN]. *)
Lemma state_absent_unknown status :
  state_absent status = true -> base_readable status = true ->
  job_state status = Ret (JStr "UNKNOWN").
Proof.
  unfold state_absent, base_readable, job_state. cbn [get bind].
  destruct (status !! "state") as [flat|]; [discriminate|].
  destruct (status !! "baseStatus") as [[| | | | |base]|]; try discriminate.
  - destruct (base !! "state") eqn:Hbase; [discriminate|]. intros _ _.
    cbn. by rewrite Hbase.
  - intros _ _. cbn. by rewrite lookup_empty.
Qed.

Lemma absent_at_pending job n :
  absent_at job n = true -> readable_at job n = true ->
  job_pending job n = true.
Proof.
  unfold absent_at, readable_at, job_pending, pending, job_classify.
  destruct (job n) as [status|e]; [|discriminate]. intros Habs Hread.
  by rewrite (state_absent_unknown _ Habs Hread).
Qed.

(** A [baseStatus] that is present and not an object makes the extraction
    raise; the loop has no handler, so the wait raises with it. *)
Lemma job_state_base_not_dict :
  job_state {[ "baseStatus" := JNull ]}
  = Raise (Exn "AttributeError" "'NoneType' object has no attribute 'get'").
Proof. reflexivity. Qed.

(** *** [wait_for_job] *)

(** The record [wait_for_job] returns when the first terminal state shows
    at the n-th query and no loop head before it has passed the timeout. *)
Lemma wait_for_job_finishes host job timeout poll_interval w n payload state fuel :
  0 <= poll_interval ->
  (forall i, (i < n)%nat -> job_pending job (polls w + i) = true) ->
  job (polls w + n)%nat = Ret payload ->
  job_state payload = Ret state ->
  is_terminal state = true ->
  (forall i, (i <= n)%nat ->
     (now (after host poll_interval i w) - now w <= inject_Z timeout)%Q) ->
  (n < fuel)%nat ->
  wait_for_job host job timeout poll_interval fuel w
  = Some (Ret (job_result state payload
                 (now (after host poll_interval n w) - now w)%Q),
          snd (query host job (after host poll_interval n w))).
Proof.
  intros Hi Hp Hr Hs Ht Hin Hf. unfold wait_for_job, time_time.
  rewrite wait_loop_poll.
  apply (loop_finishes host job job_classify _ timeout poll_interval n
           (now w) fuel w payload (job_result state payload)); try done.
  unfold job_classify. rewrite Hs. cbn [bind]. by rewrite Ht.
Qed.

(** C1. Whenever the statuses [wait_for_job] reads are non-terminal up to
    the n-th and the n-th carries a terminal state, read while the elapsed
    time is within the timeout, the call returns a record (given fuel for
    n + 1 rounds) after exactly those n + 1 queries: [success] is true for
    DONE and false for FAILED and ABORTED, [status] is that last state and
    [details] is the raw payload it came in. *)
Theorem wait_for_job_terminal host job timeout poll_interval w n payload state fuel :
  0 <= poll_interval ->
  (forall i, (i < n)%nat -> job_pending job (polls w + i) = true) ->
  job (polls w + n)%nat = Ret payload ->
  job_state payload = Ret state ->
  is_terminal state = true ->
  (forall i, (i <= n)%nat ->
     (now (after host poll_interval i w) - now w <= inject_Z timeout)%Q) ->
  (n < fuel)%nat ->
  exists r w',
    wait_for_job host job timeout poll_interval fuel w = Some (Ret r, w')
    /\ polls w' = (polls w + S n)%nat
    /\ (state = JStr "DONE" -> success r = true)
    /\ (state = JStr "FAILED" \/ state = JStr "ABORTED" -> success r = false)
    /\ status r = state
    /\ details r = JObj payload.
Proof.
  intros Hi Hp Hr Hs Ht Hin Hf.
  eexists _, _. split; [by eapply wait_for_job_finishes|].
  cbn [query snd polls job_result success status details].
  rewrite polls_after. split; [lia|].
  split; [by intros ->|]. split; [by intros [-> | ->]|]. done.
Qed.

Lemma wait_for_job_terminal_witness :
  exists r w',
    wait_for_job Samples.slow_host
      (Samples.scripted [Samples.flat_state "RUNNING"; Samples.stateless]
         (Samples.nested_state "FAILED"))
      600 2 3 Samples.world0 = Some (Ret r, w')
    /\ polls w' = (polls Samples.world0 + 3)%nat
    /\ (JStr "FAILED" = JStr "DONE" -> success r = true)
    /\ (JStr "FAILED" = JStr "FAILED" \/ JStr "FAILED" = JStr "ABORTED"
        -> success r = false)
    /\ status r = JStr "FAILED"
    /\ details r = JObj (Samples.nested_state "FAILED").
Proof.
  apply (wait_for_job_terminal Samples.slow_host _ 600 2 Samples.world0 2
           (Samples.nested_state "FAILED") (JStr "FAILED") 3).
  - lia.
  - intros [|[|i]] Hlt; [reflexivity|reflexivity|lia].
  - reflexivity.
  - reflexivity.
  - reflexivity.
  - intros [|[|[|i]]] Hle; [by vm_compute..|lia].
  - lia.
Defined.

(** With every status non-terminal, [wait_for_job] returns the timeout
    record at the first loop head whose elapsed time exceeds the timeout. *)
Lemma wait_for_job_pending_times_out host job timeout poll_interval w fuel :
  1 <= poll_interval ->
  (forall i, (0 <= query_cost host i)%Q) ->
  (forall i, (0 <= oversleep host i)%Q) ->
  (forall i, job_pending job (polls w + i) = true) ->
  (Z.to_nat (timeout + 1) < fuel)%nat ->
  exists n,
    wait_for_job host job timeout poll_interval fuel w
    = Some (Ret (job_timeout_result timeout
                   (now (after host poll_interval n w) - now w)%Q),
            after host poll_interval n w)
    /\ (inject_Z timeout < now (after host poll_interval n w) - now w)%Q
    /\ (forall i, (i < n)%nat ->
          (now (after host poll_interval i w) - now w
           <= inject_Z timeout)%Q).
Proof.
  intros Hi Hq Hs Hp Hf. unfold wait_for_job, time_time.
  rewrite wait_loop_poll.
  apply (loop_times_out_within host job job_classify
           (job_timeout_result timeout) timeout poll_interval
           (Z.to_nat (timeout + 1))); try done.
  apply timeout_fuel. lra.
Qed.

(** C3, as the code has it.  While no status is terminal, a wait with a
    timeout of at least zero and a poll interval of at least one second
    returns status TIMEOUT and success false (given fuel for timeout + 2
    rounds), and the reported duration is greater than the timeout and at
    most the timeout plus one poll interval plus [delta], where [delta]
    bounds what one status query and one oversleep add to a round; on a
    host without such overhead the duration lies in
    (timeout, timeout + poll_interval]. *)
Theorem wait_for_job_timeout host job timeout poll_interval delta w fuel :
  1 <= poll_interval ->
  0 <= timeout ->
  (forall i, (0 <= query_cost host i)%Q) ->
  (forall i, (0 <= oversleep host i)%Q) ->
  (forall i j, (query_cost host i + oversleep host j <= delta)%Q) ->
  (forall i, job_pending job (polls w + i) = true) ->
  (Z.to_nat (timeout + 1) < fuel)%nat ->
  exists r w',
    wait_for_job host job timeout poll_interval fuel w = Some (Ret r, w')
    /\ status r = JStr "TIMEOUT"
    /\ success r = false
    /\ (inject_Z timeout < duration r
        <= inject_Z timeout + inject_Z poll_interval + delta)%Q.
Proof.
  intros Hi H0 Hq Hs Hd Hp Hf. unfold wait_for_job, time_time.
  rewrite wait_loop_poll. rewrite Zle_Qle in H0.
  change (inject_Z 0) with 0%Q in H0.
  destruct (loop_timeout_bounds host job job_classify
              (job_timeout_result timeout) timeout poll_interval
              (Z.to_nat (timeout + 1)) fuel (now w) w delta)
    as (d & w' & Hrun & Hbounds & _); try done.
  { lra. }
  { apply timeout_fuel. lra. }
  exists (job_timeout_result timeout d), w'. by rewrite Hrun.
Qed.

Lemma wait_for_job_timeout_witness :
  exists r w',
    wait_for_job Samples.slow_host
      (Samples.scripted [] (Samples.flat_state "RUNNING")) 7 2 9
      Samples.world0 = Some (Ret r, w')
    /\ status r = JStr "TIMEOUT"
    /\ success r = false
    /\ (inject_Z 7 < duration r <= inject_Z 7 + inject_Z 2 + (6 # 10))%Q.
Proof.
  apply (wait_for_job_timeout Samples.slow_host _ 7 2 (6 # 10)
           Samples.world0 9).
  - lia.
  - lia.
  - intros i. by vm_compute.
  - intros i. by vm_compute.
  - intros i j. by vm_compute.
  - intros i. reflexivity.
  - vm_compute. lia.
Defined.

(** C3, as the spec words it, fails: with the default timeout of 600 and
    poll interval of 2 on a host without overhead, the loop head at 600
    does not exceed the timeout, so the loop polls and sleeps once more and
    reports 602, which is timeout + poll_interval and so outside
    [timeout, timeout + poll_interval). *)
Lemma wait_for_job_timeout_interval_cex :
  wait_for_job Samples.ideal_host
    (Samples.scripted [] (Samples.flat_state "RUNNING"))
    default_timeout default_poll_interval 400 Samples.world0
  = Some (Ret (job_timeout_result 600 602),
          {| now := 602; polls := 301; sleeps := 301 |})
  /\ (duration (job_timeout_result 600 602)
      == inject_Z default_timeout + inject_Z default_poll_interval)%Q
  /\ ~ (inject_Z default_timeout <= duration (job_timeout_result 600 602)
        < inject_Z default_timeout + inject_Z default_poll_interval)%Q.
Proof.
  split; [by vm_compute|]. split; [by vm_compute|].
  unfold default_timeout, default_poll_interval. cbn [duration job_timeout_result].
  intros [_ Hlt]. by vm_compute in Hlt.
Qed.

(** The same failure with overhead: a timeout of 5, a poll interval of 2
    and half a second per status query give loop heads at 0, 2.5 and 5,
    none past the timeout, and a reported duration of 7.5. *)
Lemma wait_for_job_timeout_interval_latency :
  wait_for_job {| query_cost := fun _ => (1 # 2)%Q; oversleep := fun _ => 0%Q |}
    (Samples.scripted [] (Samples.flat_state "RUNNING")) 5 2 9 Samples.world0
  = Some (Ret (job_timeout_result 5 (60 # 8)),
          {| now := (60 # 8)%Q; polls := 3; sleeps := 3 |})
  /\ (60 # 8 == 15 # 2)%Q
  /\ ~ (inject_Z 5 <= 60 # 8 < inject_Z 5 + inject_Z 2)%Q.
Proof.
  split; [by vm_compute|]. split; [by vm_compute|].
  intros [_ Hlt]. by vm_compute in Hlt.
Qed.

(** C8, as the code has it.  When no status carries a state, in either
    shape, and [baseStatus] is missing or an object in every status,
    [wait_for_job] never returns a terminal record: whatever the fuel, a
    returned record is the timeout record; and with fuel for timeout + 2
    rounds it does return, after n full rounds of query and sleep, each
    begun with the elapsed time still within the timeout, at the first loop
    head where the elapsed time exceeds it. *)
Theorem wait_for_job_state_absent host job timeout poll_interval w fuel :
  1 <= poll_interval ->
  (forall i, (0 <= query_cost host i)%Q) ->
  (forall i, (0 <= oversleep host i)%Q) ->
  (forall i, absent_at job (polls w + i) = true) ->
  (forall i, readable_at job (polls w + i) = true) ->
  (Z.to_nat (timeout + 1) < fuel)%nat ->
  (forall fuel' r w',
     wait_for_job host job timeout poll_interval fuel' w = Some (Ret r, w') ->
     status r = JStr "TIMEOUT" /\ success r = false)
  /\ exists n,
      wait_for_job host job timeout poll_interval fuel w
      = Some (Ret (job_timeout_result timeout
                     (now (after host poll_interval n w) - now w)%Q),
              after host poll_interval n w)
      /\ (inject_Z timeout < now (after host poll_interval n w) - now w)%Q
      /\ (forall i, (i < n)%nat ->
            (now (after host poll_interval i w) - now w
             <= inject_Z timeout)%Q).
Proof.
  intros Hi Hq Hs Habs Hread Hf. split.
  - intros fuel' r w' Hrun. unfold wait_for_job in Hrun.
    rewrite wait_loop_poll in Hrun.
    apply loop_result_inv in Hrun
      as [(d & _ & ->)|(i & p & k & d & Hr & _ & Hc & _)]; [done|].
    pose proof (absent_at_pending _ _ (Habs i) (Hread i)) as Hpend.
    unfold job_pending, pending in Hpend. by rewrite Hr, Hc in Hpend.
  - apply wait_for_job_pending_times_out; try done.
    intros i. by apply absent_at_pending.
Qed.

Lemma wait_for_job_state_absent_witness :
  (forall fuel' r w',
     wait_for_job Samples.slow_host (Samples.scripted [] Samples.stateless)
       7 2 fuel' Samples.world0 = Some (Ret r, w') ->
     status r = JStr "TIMEOUT" /\ success r = false)
  /\ exists n,
      wait_for_job Samples.slow_host (Samples.scripted [] Samples.stateless)
        7 2 9 Samples.world0
      = Some (Ret (job_timeout_result 7
                     (now (after Samples.slow_host 2 n Samples.world0)
                      - now Samples.world0)%Q),
              after Samples.slow_host 2 n Samples.world0)
      /\ (inject_Z 7 < now (after Samples.slow_host 2 n Samples.world0)
                       - now Samples.world0)%Q
      /\ (forall i, (i < n)%nat ->
            (now (after Samples.slow_host 2 i Samples.world0)
             - now Samples.world0 <= inject_Z 7)%Q).
Proof.
  apply (wait_for_job_state_absent Samples.slow_host _ 7 2 Samples.world0 9).
  - lia.
  - intros i. by vm_compute.
  - intros i. by vm_compute.
  - intros i. reflexivity.
  - intros i. reflexivity.
  - vm_compute. lia.
Defined.

(** C8, as the spec words it, fails.  A status whose [baseStatus] is
    [null] has no state in either shape, yet [wait_for_job] does not go
    on polling until the timeout: the extraction calls [get] on [None],
    and the [AttributeError] leaves the wait at the first query. *)
Lemma wait_for_job_state_absent_cex :
  state_absent Samples2.null_base = true
  /\ JobsViews.nested_state Samples2.null_base = None
  /\ Samples2.null_base !! "state" = None
  /\ wait_for_job Samples.slow_host (Samples.scripted [] Samples2.null_base)
       7 2 9 Samples.world0
     = Some (Raise (Exn "AttributeError"
                      "'NoneType' object has no attribute 'get'"),
             {| now := (1 # 2)%Q; polls := 1; sleeps := 0 |}).
Proof. repeat split; by vm_compute. Qed.

(** *** [run_scenario_and_wait] *)

(** The record a scenario wait returns when the first outcome that is not
    [None] shows at the n-th query, with no loop head before it past the
    timeout. *)
Lemma scenario_finishes host client project_key scenario_id run timeout
    w n run_info state fuel :
  scenario_run client project_key scenario_id = Ret run ->
  (forall i, (i < n)%nat -> scenario_pending run (polls w + i) = true) ->
  run (polls w + n)%nat = Ret run_info ->
  scenario_outcome run_info = Ret state ->
  is_not_None state = true ->
  (forall i, (i <= n)%nat ->
     (now (after host 2 i w) - now w <= inject_Z timeout)%Q) ->
  (n < fuel)%nat ->
  run_scenario_and_wait host client project_key scenario_id timeout fuel w
  = Some (Ret (scenario_result state run_info
                 (now (after host 2 n w) - now w)%Q),
          snd (query host run (after host 2 n w))).
Proof.
  intros Hrun Hp Hr Hs Hn Hin Hf. unfold run_scenario_and_wait, time_time.
  rewrite Hrun, scenario_loop_poll.
  apply (loop_finishes host run scenario_classify _ timeout 2 n
           (now w) fuel w run_info (scenario_result state run_info));
    try done.
  unfold scenario_classify. rewrite Hs. cbn [bind]. by rewrite Hn.
Qed.

(** C2. For a scenario run, (1) when the first outcome that is not [None]
    is read at the n-th query within the timeout, the wait returns a record
    whose [success] is true exactly if that outcome is SUCCESS, so false
    for any other outcome, and whose [outcome] is the value read; (2) when
    the outcome stays [None] at every query, the wait returns the TIMEOUT
    record, with success false, once the elapsed time exceeds the timeout. *)
Theorem run_scenario_and_wait_outcome host client project_key scenario_id
    run timeout w fuel :
  scenario_run client project_key scenario_id = Ret run ->
  (forall n run_info state,
     (forall i, (i < n)%nat -> scenario_pending run (polls w + i) = true) ->
     run (polls w + n)%nat = Ret run_info ->
     scenario_outcome run_info = Ret state ->
     is_not_None state = true ->
     (forall i, (i <= n)%nat ->
        (now (after host 2 i w) - now w <= inject_Z timeout)%Q) ->
     (n < fuel)%nat ->
     exists r w',
       run_scenario_and_wait host client project_key scenario_id timeout
         fuel w = Some (Ret r, w')
       /\ (success r = true <-> state = JStr "SUCCESS")
       /\ (state <> JStr "SUCCESS" -> success r = false)
       /\ outcome_ r = Some state)
  /\ ((forall i, scenario_pending run (polls w + i) = true) ->
      (forall i, (0 <= query_cost host i)%Q) ->
      (forall i, (0 <= oversleep host i)%Q) ->
      (Z.to_nat (timeout + 1) < fuel)%nat ->
      exists r w',
        run_scenario_and_wait host client project_key scenario_id timeout
          fuel w = Some (Ret r, w')
        /\ status r = JStr "TIMEOUT"
        /\ success r = false
        /\ outcome_ r = Some JNull
        /\ (inject_Z timeout < duration r)%Q).
Proof.
  intros Hrun. split.
  - intros n run_info state Hp Hr Hs Hn Hin Hf.
    eexists _, _. split; [by eapply scenario_finishes|].
    cbn [scenario_result success outcome_]. rewrite <- eq_str_true.
    split; [done|]. split; [|done].
    by destruct (eq_str state "SUCCESS").
  - intros Hp Hq Hs Hf. unfold run_scenario_and_wait, time_time.
    rewrite Hrun, scenario_loop_poll.
    destruct (loop_times_out_within host run scenario_classify
                (scenario_timeout_result timeout) timeout 2
                (Z.to_nat (timeout + 1)) fuel (now w) w)
      as (n & Hloop & Hover & _); try done.
    { apply timeout_fuel. lra. }
    eexists _, _. split; [exact Hloop|]. by cbn.
Qed.

Lemma run_scenario_and_wait_outcome_witness :
  (exists r w',
     run_scenario_and_wait Samples.slow_host
       (Samples.client_of
          (Samples.scripted [Samples.run_info_pending]
             (Samples.run_info_of (JStr "SUCCESS"))))
       "PROJ" "nightly" 600 5 Samples.world0 = Some (Ret r, w')
     /\ (success r = true <-> JStr "SUCCESS" = JStr "SUCCESS")
     /\ (JStr "SUCCESS" <> JStr "SUCCESS" -> success r = false)
     /\ outcome_ r = Some (JStr "SUCCESS"))
  /\ (exists r w',
       run_scenario_and_wait Samples.slow_host
         (Samples.client_of
            (Samples.scripted [] (Samples.run_info_of JNull)))
         "PROJ" "nightly" 5 9 Samples.world0 = Some (Ret r, w')
       /\ status r = JStr "TIMEOUT"
       /\ success r = false
       /\ outcome_ r = Some JNull
       /\ (inject_Z 5 < duration r)%Q).
Proof.
  split.
  - apply (proj1 (run_scenario_and_wait_outcome Samples.slow_host
             (Samples.client_of
                (Samples.scripted [Samples.run_info_pending]
                   (Samples.run_info_of (JStr "SUCCESS"))))
             "PROJ" "nightly" _ 600 Samples.world0 5 eq_refl)
           1%nat (Samples.run_info_of (JStr "SUCCESS")) (JStr "SUCCESS")).
    + intros [|i] Hlt; [reflexivity|lia].
    + reflexivity.
    + reflexivity.
    + reflexivity.
    + intros [|[|i]] Hle; [by vm_compute..|lia].
    + lia.
  - apply (proj2 (run_scenario_and_wait_outcome Samples.slow_host
             (Samples.client_of
                (Samples.scripted [] (Samples.run_info_of JNull)))
             "PROJ" "nightly" _ 5 Samples.world0 9 eq_refl)).
    + intros i. reflexivity.
    + intros i. by vm_compute.
    + intros i. by vm_compute.
    + vm_compute. lia.
Defined.

(** C10. A scenario wait that reads an outcome other than [None] reports
    the literal status DONE whatever the outcome is: for an outcome other
    than SUCCESS the record has status DONE with success false, and the
    failure shows only in [outcome] and [success]. *)
Theorem run_scenario_and_wait_status_done host client project_key scenario_id
    run timeout w n run_info state fuel :
  scenario_run client project_key scenario_id = Ret run ->
  (forall i, (i < n)%nat -> scenario_pending run (polls w + i) = true) ->
  run (polls w + n)%nat = Ret run_info ->
  scenario_outcome run_info = Ret state ->
  is_not_None state = true ->
  (forall i, (i <= n)%nat ->
     (now (after host 2 i w) - now w <= inject_Z timeout)%Q) ->
  (n < fuel)%nat ->
  exists r w',
    run_scenario_and_wait host client project_key scenario_id timeout fuel w
    = Some (Ret r, w')
    /\ status r = JStr "DONE"
    /\ outcome_ r = Some state
    /\ success r = eq_str state "SUCCESS"
    /\ (state <> JStr "SUCCESS" ->
        success r = false /\ status r = JStr "DONE").
Proof.
  intros Hrun Hp Hr Hs Hn Hin Hf.
  eexists _, _. split; [by eapply scenario_finishes|].
  cbn [scenario_result success outcome_ status].
  split; [done|]. split; [done|]. split; [done|].
  intros Hne. destruct (eq_str state "SUCCESS") eqn:Heq; [|done].
  by apply eq_str_true in Heq.
Qed.

Lemma run_scenario_and_wait_status_done_witness :
  exists r w',
    run_scenario_and_wait Samples.slow_host
      (Samples.client_of
         (Samples.scripted [Samples.run_info_pending; Samples.run_info_of JNull]
            (Samples.run_info_of (JStr "FAILED"))))
      "PROJ" "nightly" 600 5 Samples.world0 = Some (Ret r, w')
    /\ status r = JStr "DONE"
    /\ outcome_ r = Some (JStr "FAILED")
    /\ success r = eq_str (JStr "FAILED") "SUCCESS"
    /\ (JStr "FAILED" <> JStr "SUCCESS" ->
        success r = false /\ status r = JStr "DONE").
Proof.
  apply (run_scenario_and_wait_status_done Samples.slow_host
           (Samples.client_of
              (Samples.scripted
                 [Samples.run_info_pending; Samples.run_info_of JNull]
                 (Samples.run_info_of (JStr "FAILED"))))
           "PROJ" "nightly" _ 600 Samples.world0 2
           (Samples.run_info_of (JStr "FAILED")) (JStr "FAILED") 5 eq_refl).
  - intros [|[|i]] Hlt; [reflexivity|reflexivity|lia].
  - reflexivity.
  - reflexivity.
  - reflexivity.
  - intros [|[|[|i]]] Hle; [by vm_compute..|lia].
  - lia.
Defined.

(** *** Every wait result *)

Lemma wait_for_job_success_iff host job timeout poll_interval fuel w r w' :
  wait_for_job host job timeout poll_interval fuel w = Some (Ret r, w') ->
  (success r = true <-> status r = JStr "DONE").
Proof.
  unfold wait_for_job. rewrite wait_loop_poll. intros Hrun.
  apply loop_result_inv in Hrun
    as [(d & _ & ->)|(i & p & k & d & _ & _ & Hc & _ & ->)]; [done|].
  unfold job_classify in Hc. destruct (job_state p) as [state|e]; [|done].
  cbn [bind] in Hc. destruct (is_terminal state); [|done].
  injection Hc as <-. cbn. apply eq_str_true.
Qed.

(** C4. Every record a wait operation returns obeys the success rule: for
    [wait_for_job], [build_and_wait] and [run_recipe_and_wait], success is
    true exactly if the status is DONE; for [run_scenario_and_wait],
    success is true exactly if the outcome is SUCCESS.  Timeout records and
    the other terminal records therefore all have success false. *)
Theorem wait_result_success_iff host client job project_key name build_mode
    timeout poll_interval fuel w r w' :
  (wait_for_job host job timeout poll_interval fuel w = Some (Ret r, w')
   \/ build_and_wait host client project_key name build_mode timeout fuel w
      = Some (Ret r, w')
   \/ run_recipe_and_wait host client project_key name timeout fuel w
      = Some (Ret r, w') ->
   (success r = true <-> status r = JStr "DONE"))
  /\ (run_scenario_and_wait host client project_key name timeout fuel w
      = Some (Ret r, w') ->
      (success r = true <-> outcome_ r = Some (JStr "SUCCESS"))
      /\ (status r = JStr "TIMEOUT" -> success r = false)).
Proof.
  split.
  - unfold build_and_wait, run_recipe_and_wait.
    intros [Hrun|[Hrun|Hrun]].
    + by eapply wait_for_job_success_iff.
    + destruct (dataset_build _ _ _ _); [|done].
      by eapply wait_for_job_success_iff.
    + destruct (recipe_run _ _ _); [|done].
      by eapply wait_for_job_success_iff.
  - unfold run_scenario_and_wait. destruct (scenario_run _ _ _); [|done].
    rewrite scenario_loop_poll. intros Hrun.
    apply loop_result_inv in Hrun
      as [(d & _ & ->)|(i & p & k & d & _ & _ & Hc & _ & ->)]; [done|].
    unfold scenario_classify in Hc.
    destruct (scenario_outcome p) as [state|e]; [|done].
    cbn [bind] in Hc. destruct (is_not_None state); [|done].
    injection Hc as <-. cbn. rewrite eq_str_true.
    split; [|done]. split; [by intros ->|by intros [= ->]].
Qed.

Lemma wait_result_success_iff_witness :
  (success (job_result (JStr "ABORTED") (Samples.flat_state "ABORTED") 0)
   = true
   <-> status (job_result (JStr "ABORTED") (Samples.flat_state "ABORTED") 0)
       = JStr "DONE")
  /\ (success (scenario_result (JStr "SUCCESS")
                (Samples.run_info_of (JStr "SUCCESS")) 0) = true
      <-> outcome_ (scenario_result (JStr "SUCCESS")
                      (Samples.run_info_of (JStr "SUCCESS")) 0)
          = Some (JStr "SUCCESS")).
Proof.
  split.
  - apply (proj1 (wait_result_success_iff Samples.ideal_host
             (Samples.client_of
                (Samples.scripted [] (Samples.flat_state "ABORTED")))
             (Samples.scripted [] (Samples.flat_state "ABORTED"))
             "PROJ" "orders" "RECURSIVE_BUILD" 600 2 1 Samples.world0
             (job_result (JStr "ABORTED") (Samples.flat_state "ABORTED") 0)
             {| now := 0; polls := 1; sleeps := 0 |})).
    right. left. reflexivity.
  - apply (proj2 (wait_result_success_iff Samples.ideal_host
             (Samples.client_of
                (Samples.scripted [] (Samples.run_info_of (JStr "SUCCESS"))))
             (Samples.scripted [] (Samples.run_info_of (JStr "SUCCESS")))
             "PROJ" "nightly" "RECURSIVE_BUILD" 600 2 1 Samples.world0
             (scenario_result (JStr "SUCCESS")
                (Samples.run_info_of (JStr "SUCCESS")) 0)
             {| now := 0; polls := 1; sleeps := 0 |})).
    reflexivity.
Defined.

End JobsFacts.

(** ** Properties of the execution session *)

Module ServerFacts.
Import Py Server.
Local Open Scope string_scope.
Set Warnings "-clear-no-such-hyp".

(** *** Entering and leaving a call *)

Lemma get_dataiku_client_present environ st :
  _credentials_missing environ = false ->
  get_dataiku_client environ st
  = (Ret (fst (acquire environ st)), snd (acquire environ st)).
Proof.
  unfold _credentials_missing, get_dataiku_client, get_client, acquire.
  intros ->. by destruct (_client st).
Qed.

Lemma execute_python_present environ format_exc code st :
  _credentials_missing environ = false ->
  execute_python environ format_exc code st
  = leave format_exc (sys_stdout st) (exec code (entered environ st)).
Proof.
  intros Hcred. unfold execute_python. rewrite Hcred.
  rewrite get_dataiku_client_present by done.
  unfold entered, leave.
  destruct (acquire environ st) as [c st1] eqn:Hacq. cbn [fst snd].
  assert (sys_stdout st1 = sys_stdout st) as Hout.
  { unfold acquire in Hacq. destruct (_client st); by injection Hacq as <- <-. }
  cbn [set_global sys_stdout]. rewrite Hout.
  by destruct (exec code _) as [[|ex line|] st4].
Qed.

Lemma acquire_client environ st :
  _client (snd (acquire environ st)) = Some (fst (acquire environ st)).
Proof. unfold acquire. by destruct (_client st) eqn:Hc. Qed.

(** The client is acquired once: a state that has one keeps it. *)
Lemma acquire_again environ st c :
  _client st = Some c -> acquire environ st = (c, st).
Proof. unfold acquire. by intros ->. Qed.

(** *** States that agree on a set of identifiers *)

Lemma agree_refl S st : agree S st st.
Proof. by split. Qed.

Lemma agree_sym S st1 st2 : agree S st1 st2 -> agree S st2 st1.
Proof.
  intros [Hg Ho Ha]. split; intros; symmetry; auto.
Qed.

Lemma agree_trans S st1 st2 st3 :
  agree S st1 st2 -> agree S st2 st3 -> agree S st1 st3.
Proof.
  intros [Hg Ho Ha] [Hg' Ho' Ha']. split; intros.
  - rewrite Hg by done. auto.
  - rewrite Ho. auto.
  - rewrite Ha by done. auto.
Qed.

Lemma agree_mono S S' st1 st2 : S' ⊆ S -> agree S st1 st2 -> agree S' st1 st2.
Proof.
  intros Hsub [Hg Ho Ha]. split; intros; auto.
Qed.

(** Agreement looks at the globals and the heap only. *)
Lemma agree_same_store S st1 st2 st1' st2' :
  execution_globals st1' = execution_globals st1 -> heap st1' = heap st1 ->
  execution_globals st2' = execution_globals st2 -> heap st2' = heap st2 ->
  agree S st1 st2 -> agree S st1' st2'.
Proof.
  intros Hg1 Hh1 Hg2 Hh2 [Hg Ho Ha].
  split; intros; rewrite ?Hg1, ?Hh1, ?Hg2, ?Hh2; auto.
Qed.

(** States that agree hold the same objects at the same places. *)
Lemma agree_obj S st1 st2 l :
  agree S st1 st2 ->
  match heap st1 !! l, heap st2 !! l with
  | Some o1, Some o2 =>
    obj_type o1 = obj_type o2 /\ obj_name o1 = obj_name o2
    /\ obj_repr o1 = obj_repr o2 /\ obj_hidden o1 = obj_hidden o2
  | None, None => True
  | _, _ => False
  end.
Proof.
  intros [_ Ho _]. specialize (Ho l).
  destruct (heap st1 !! l) as [o1|], (heap st2 !! l) as [o2|];
    cbn in Ho; try done.
  by injection Ho.
Qed.

Lemma agree_type_name S st1 st2 v :
  agree S st1 st2 -> type_name (heap st1) v = type_name (heap st2) v.
Proof.
  intros Hag. destruct v; try done. cbn.
  pose proof (agree_obj S st1 st2 l Hag) as Hl.
  destruct (heap st1 !! l) as [o1|], (heap st2 !! l) as [o2|]; try done.
  destruct Hl as (Ht & _). cbn. congruence.
Qed.

Lemma agree_py_str S st1 st2 v :
  agree S st1 st2 -> py_str (heap st1) v = py_str (heap st2) v.
Proof.
  intros Hag. destruct v; try done. cbn.
  pose proof (agree_obj S st1 st2 l Hag) as Hl.
  destruct (heap st1 !! l) as [o1|], (heap st2 !! l) as [o2|]; try done.
  destruct Hl as (_ & _ & Hr & _). cbn. congruence.
Qed.

Lemma agree_not_callable S st1 st2 v :
  agree S st1 st2 -> not_callable (heap st1) v = not_callable (heap st2) v.
Proof.
  intros Hag. unfold not_callable. by rewrite (agree_type_name S st1 st2).
Qed.

Lemma agree_getattr S st1 st2 v a :
  a ∈ S -> agree S st1 st2 -> getattr (heap st1) v a = getattr (heap st2) v a.
Proof.
  intros Hin Hag. unfold getattr. destruct (is_dunder a); [done|].
  destruct v; try done.
  pose proof (agree_obj S st1 st2 l Hag) as Hl.
  pose proof (agree_attrs _ _ _ Hag l a Hin) as Hla. unfold attr_at in Hla.
  destruct (heap st1 !! l) as [o1|], (heap st2 !! l) as [o2|]; try done.
  cbn in Hla. rewrite Hla. destruct Hl as (Ht & Hn & _ & Hh).
  unfold no_attribute. by rewrite Ht, Hn, Hh.
Qed.

Lemma agree_lookup_name S st1 st2 builtins x :
  x ∈ S -> agree S st1 st2 ->
  lookup_name builtins (execution_globals st1) (heap st1) x
  = lookup_name builtins (execution_globals st2) (heap st2) x.
Proof.
  intros Hin Hag. unfold lookup_name.
  rewrite (agree_globals _ _ _ Hag) by done.
  destruct builtins as [b|]; [|done]. cbn.
  by rewrite (agree_attrs _ _ _ Hag).
Qed.

Lemma agree_call S st1 st2 f arg :
  agree S st1 st2 -> call (heap st1) f arg = call (heap st2) f arg.
Proof.
  intros Hag. unfold call.
  rewrite (agree_not_callable S st1 st2), (agree_py_str S st1 st2) by done.
  destruct f; try done.
  pose proof (agree_obj S st1 st2 l Hag) as Hl.
  destruct (heap st1 !! l) as [o1|], (heap st2 !! l) as [o2|]; try done.
  by destruct Hl as (-> & _).
Qed.

(** An expression whose identifiers lie in [S] evaluates alike in states
    that agree on [S]. *)
Lemma agree_eval S st1 st2 builtins e :
  idents e ⊆ S -> agree S st1 st2 ->
  eval builtins (execution_globals st1) (heap st1) e
  = eval builtins (execution_globals st2) (heap st2) e.
Proof.
  intros Hsub Hag.
  induction e as [c|x|e IH a|f IHf arg IHarg]; cbn [eval idents] in *.
  - done.
  - rewrite (agree_lookup_name S st1 st2); [done|set_solver|done].
  - rewrite IH by set_solver. clear IH.
    destruct (eval _ _ _ e) as [[v|ex|] out]; [|done..].
    rewrite (agree_getattr S st1 st2); [done|set_solver|done].
  - rewrite IHf, IHarg by set_solver. clear IHf IHarg.
    destruct (eval _ _ _ f) as [[vf|ex|] out1]; [|done..].
    destruct (eval _ _ _ arg) as [[va|ex|] out2]; [|done..].
    by rewrite (agree_call S st1 st2).
Qed.

(** *** Statements on states that agree *)

Lemma write_stdout out st1 st2 :
  sys_stdout st1 = sys_stdout st2 ->
  sys_stdout (write out st1) = sys_stdout (write out st2).
Proof. unfold write. intros ->. by destruct (sys_stdout st2). Qed.

Lemma write_store out st :
  execution_globals (write out st) = execution_globals st
  /\ heap (write out st) = heap st
  /\ _client (write out st) = _client st
  /\ clients_created (write out st) = clients_created st.
Proof. unfold write. by destruct (sys_stdout st). Qed.

Lemma agree_write S out1 out2 st1 st2 :
  agree S st1 st2 -> agree S (write out1 st1) (write out2 st2).
Proof.
  apply agree_same_store; apply write_store.
Qed.

Lemma agree_set_global S x v st1 st2 :
  agree S st1 st2 -> agree S (set_global x v st1) (set_global x v st2).
Proof.
  intros [Hg Ho Ha]. split; cbn; [|done..].
  intros y Hy. destruct (decide (x = y)) as [->|Hne].
  - by rewrite !lookup_insert_eq.
  - rewrite !lookup_insert_ne by done. auto.
Qed.

Lemma attr_at_insert h l o l' a :
  attr_at (<[l := o]> h) l' a
  = if decide (l = l') then attrs o !! a else attr_at h l' a.
Proof.
  unfold attr_at. destruct (decide (l = l')) as [->|Hne].
  - by rewrite lookup_insert_eq.
  - by rewrite lookup_insert_ne.
Qed.

Lemma agree_setattr S target a v st1 st2 :
  agree S st1 st2 -> sys_stdout st1 = sys_stdout st2 ->
  fst (setattr target a v st1) = fst (setattr target a v st2)
  /\ agree S (snd (setattr target a v st1)) (snd (setattr target a v st2))
  /\ sys_stdout (snd (setattr target a v st1))
     = sys_stdout (snd (setattr target a v st2)).
Proof.
  intros Hag Hout. unfold setattr. destruct (is_dunder a); [done|].
  destruct target; try done.
  pose proof (agree_obj S st1 st2 l Hag) as Hl.
  pose proof (agree_attrs _ _ _ Hag l) as Hla. unfold attr_at in Hla.
  destruct (heap st1 !! l) as [o1|] eqn:H1, (heap st2 !! l) as [o2|] eqn:H2;
    try done.
  destruct Hl as (Ht & Hn & Hr & Hh). rewrite Ht.
  destruct (bool_decide (obj_type o2 = "module")); [|done].
  cbn [fst snd]. split; [done|]. split; [|done].
  destruct Hag as [Hg Ho Ha]. split; cbn [set_heap execution_globals heap].
  - done.
  - intros l'. destruct (decide (l = l')) as [<-|Hne].
    + rewrite !lookup_insert_eq. cbn. unfold obj_meta. cbn.
      by rewrite Ht, Hn, Hr, Hh.
    + rewrite !lookup_insert_ne by done. auto.
  - intros l' a' Hin. rewrite !attr_at_insert.
    destruct (decide (l = l')) as [<-|Hne]; [|auto].
    cbn [with_attr attrs]. destruct (decide (a = a')) as [->|Hna].
    + by rewrite !lookup_insert_eq.
    + rewrite !lookup_insert_ne by done. by apply Hla.
Qed.

(** A statement whose identifiers lie in [S] ends alike, prints alike and
    keeps the agreement when run in states that agree on [S]. *)
Lemma agree_exec_stmt S builtins s st1 st2 :
  stmt_idents s ⊆ S -> agree S st1 st2 -> sys_stdout st1 = sys_stdout st2 ->
  fst (exec_stmt builtins s st1) = fst (exec_stmt builtins s st2)
  /\ agree S (snd (exec_stmt builtins s st1)) (snd (exec_stmt builtins s st2))
  /\ sys_stdout (snd (exec_stmt builtins s st1))
     = sys_stdout (snd (exec_stmt builtins s st2)).
Proof.
  intros Hsub Hag Hout.
  assert (forall out,
            agree S (write out st1) (write out st2)
            /\ sys_stdout (write out st1) = sys_stdout (write out st2))
    as Hw by (intros out; split; [by apply agree_write|by apply write_stdout]).
  destruct s as [x e|e a rhs|e|e]; cbn [exec_stmt stmt_idents] in *.
  - rewrite (agree_eval S st1 st2) by (done || set_solver).
    destruct (eval _ _ _ e) as [[v|ex|] out]; cbn [fst snd];
      (split; [done|]); [|apply Hw..].
    split; [|apply Hw]. apply agree_set_global, Hw.
  - rewrite (agree_eval S st1 st2 _ rhs) by (done || set_solver).
    destruct (eval _ _ _ rhs) as [[v|ex|] out1]; cbn [fst snd];
      [|split; [done|apply Hw]..].
    rewrite (agree_eval S st1 st2 _ e) by (done || set_solver).
    destruct (eval _ _ _ e) as [[target|ex|] out2]; cbn [fst snd];
      [|split; [done|apply Hw]..].
    apply agree_setattr; apply Hw.
  - rewrite (agree_eval S st1 st2) by (done || set_solver).
    destruct (eval _ _ _ e) as [[v|ex|] out]; cbn [fst snd];
      (split; [done|apply Hw]).
  - rewrite (agree_eval S st1 st2) by (done || set_solver).
    destruct (eval _ _ _ e) as [[v|ex|] out]; cbn [fst snd];
      [|split; [done|apply Hw]..].
    destruct (raise_value e v); cbn [fst snd]; (split; [done|apply Hw]).
Qed.

Lemma code_idents_cons s code :
  code_idents (s :: code) = stmt_idents s ∪ code_idents code.
Proof. reflexivity. Qed.

Lemma code_writes_cons s code :
  code_writes (s :: code) = stmt_writes s ∪ code_writes code.
Proof. reflexivity. Qed.

Lemma agree_exec_from S builtins code : forall line st1 st2,
  code_idents code ⊆ S -> agree S st1 st2 -> sys_stdout st1 = sys_stdout st2 ->
  fst (exec_from builtins line code st1) = fst (exec_from builtins line code st2)
  /\ sys_stdout (snd (exec_from builtins line code st1))
     = sys_stdout (snd (exec_from builtins line code st2)).
Proof.
  induction code as [|s code IH]; intros line st1 st2 Hsub Hag Hout;
    cbn [exec_from]; [done|].
  rewrite code_idents_cons in Hsub.
  destruct (agree_exec_stmt S builtins s st1 st2) as (Hr & Hag' & Hout');
    [set_solver|done|done|].
  destruct (exec_stmt builtins s st1) as [r1 st1'],
           (exec_stmt builtins s st2) as [r2 st2']. cbn [fst snd] in *.
  subst r2. destruct r1 as [[]|ex|]; [|done..].
  apply IH; [set_solver|done|done].
Qed.

(** *** What a piece of code leaves untouched *)

Lemma setattr_frame S target a v st :
  a ∉ S ->
  agree S st (snd (setattr target a v st))
  /\ _client (snd (setattr target a v st)) = _client st.
Proof.
  intros Hnotin. unfold setattr.
  destruct (is_dunder a); [split; [apply agree_refl|done]|].
  destruct target; try (split; [apply agree_refl|done]).
  destruct (heap st !! l) as [o|] eqn:Hl; [|split; [apply agree_refl|done]].
  destruct (bool_decide (obj_type o = "module"));
    [|split; [apply agree_refl|done]].
  cbn [snd]. split; [|done]. split; cbn [set_heap execution_globals heap].
  - done.
  - intros l'. destruct (decide (l = l')) as [<-|Hne].
    + by rewrite lookup_insert_eq, Hl.
    + by rewrite lookup_insert_ne.
  - intros l' a' Hin. rewrite attr_at_insert.
    destruct (decide (l = l')) as [<-|Hne]; [|done].
    cbn [with_attr attrs]. rewrite lookup_insert_ne by (by intros ->).
    unfold attr_at. by rewrite Hl.
Qed.

Lemma set_global_frame S x v st :
  x ∉ S -> agree S st (set_global x v st).
Proof.
  intros Hnotin. split; cbn; [|done..].
  intros y Hy. rewrite lookup_insert_ne; [done|by intros ->].
Qed.

(** A statement changes no global and no attribute outside the name it
    assigns, creates no object, and leaves the client singleton alone. *)
Lemma exec_stmt_frame S builtins s st :
  stmt_writes s ## S ->
  agree S st (snd (exec_stmt builtins s st))
  /\ _client (snd (exec_stmt builtins s st)) = _client st.
Proof.
  intros Hdisj.
  assert (forall out, agree S st (write out st)
                      /\ _client (write out st) = _client st) as Hw.
  { intros out. split; [|apply write_store].
    apply (agree_same_store S st st st (write out st));
      (done || apply write_store || apply agree_refl). }
  destruct s as [x e|e a rhs|e|e]; cbn [exec_stmt stmt_writes] in *.
  - destruct (eval _ _ _ e) as [[v|ex|] out]; cbn [snd]; [|apply Hw..].
    split; [|apply write_store].
    eapply agree_trans; [apply Hw|]. apply set_global_frame. set_solver.
  - destruct (eval _ _ _ rhs) as [[v|ex|] out1]; cbn [snd]; [|apply Hw..].
    destruct (eval _ _ _ e) as [[target|ex|] out2]; cbn [snd]; [|apply Hw..].
    destruct (setattr_frame S target a v (write (out1 ++ out2) st))
      as [Hag Hc]; [set_solver|].
    split; [eapply agree_trans; [apply Hw|apply Hag]|].
    rewrite Hc. apply write_store.
  - destruct (eval _ _ _ e) as [[v|ex|] out]; apply Hw.
  - destruct (eval _ _ _ e) as [[v|ex|] out]; [|apply Hw..].
    destruct (raise_value e v); apply Hw.
Qed.

Lemma exec_from_frame S builtins code : forall line st,
  code_writes code ## S ->
  agree S st (snd (exec_from builtins line code st))
  /\ _client (snd (exec_from builtins line code st)) = _client st.
Proof.
  induction code as [|s code IH]; intros line st Hdisj; cbn [exec_from].
  - split; [apply agree_refl|done].
  - rewrite code_writes_cons in Hdisj.
    destruct (exec_stmt_frame S builtins s st) as [Hag Hc]; [set_solver|].
    destruct (exec_stmt builtins s st) as [[[]|ex|] st']; cbn [snd] in *;
      [|done..].
    destruct (IH (Datatypes.S line) st') as [Hag' Hc']; [set_solver|].
    split; [by eapply agree_trans|by rewrite Hc'].
Qed.

Lemma exec_frame S code st :
  code_writes code ## S ->
  agree S st (snd (exec code st))
  /\ _client (snd (exec code st)) = _client st.
Proof.
  intros Hdisj. unfold exec. destruct (compiles code).
  - by apply exec_from_frame.
  - split; [apply agree_refl|done].
Qed.

(** *** A call after an unrelated call *)

Lemma entered_unfold environ st :
  entered environ st
  = set_stdout (StringIO "")
      (set_global "client" (VRef (fst (acquire environ st)))
         (snd (acquire environ st))).
Proof. unfold entered. by destruct (acquire environ st). Qed.


Lemma leave_state format_exc old r :
  snd (leave format_exc old r) = set_stdout old (snd r).
Proof.
  destruct r as [[|ex line|] st]; cbn; [done| |done].
  by destruct (is_Exception ex).
Qed.

Lemma agree_frame_builtins X st1 st2 :
  "__builtins__" ∈ X -> agree X st1 st2 ->
  frame_builtins st1 = frame_builtins st2.
Proof.
  intros Hin Hag. unfold frame_builtins.
  rewrite (agree_globals _ _ _ Hag) by done.
  destruct (execution_globals st2 !! "__builtins__") as [[| | | |b| |]|];
    try done.
  pose proof (agree_obj X st1 st2 b Hag) as Hb.
  destruct (heap st1 !! b) as [o1|], (heap st2 !! b) as [o2|]; try done.
  by destruct Hb as (-> & _).
Qed.

(** Code that runs in states that agree on its identifiers and on
    [__builtins__], with equal captures, ends alike. *)
Lemma agree_exec X code st1 st2 :
  "__builtins__" ∈ X -> code_idents code ⊆ X ->
  agree X st1 st2 -> sys_stdout st1 = sys_stdout st2 ->
  fst (exec code st1) = fst (exec code st2)
  /\ sys_stdout (snd (exec code st1)) = sys_stdout (snd (exec code st2)).
Proof.
  intros Hb Hsub Hag Hout. unfold exec.
  rewrite (agree_frame_builtins X st1 st2) by done.
  destruct (compiles code); [|done].
  by apply (agree_exec_from X).
Qed.

(** The state a call leaves enters the next call in agreement with the
    state the first call entered, on every identifier the first call's
    code has not assigned. *)
Lemma entered_after_call environ format_exc X code st :
  _credentials_missing environ = false ->
  code_writes code ## X ->
  agree X (entered environ (snd (execute_python environ format_exc code st)))
    (entered environ st).
Proof.
  intros Hcred Hdisj. rewrite execute_python_present, leave_state by done.
  set (E := entered environ st).
  destruct (exec_frame X code E) as [Hag Hc]; [done|].
  set (F := snd (exec code E)) in *.
  assert (_client E = Some (fst (acquire environ st))) as HcE.
  { unfold E. rewrite entered_unfold. cbn. apply acquire_client. }
  rewrite (entered_unfold environ (set_stdout _ F)).
  rewrite (acquire_again environ (set_stdout (sys_stdout st) F)
             (fst (acquire environ st))) by (cbn; congruence).
  cbn [fst snd]. destruct Hag as [Hg Ho Ha].
  split; cbn [set_stdout set_global execution_globals heap].
  - intros x Hx. destruct (decide (x = "client")) as [->|Hne].
    + rewrite lookup_insert_eq. unfold E. rewrite entered_unfold. cbn.
      by rewrite lookup_insert_eq.
    + rewrite lookup_insert_ne by done. symmetry. by apply Hg.
  - intros l. symmetry. apply Ho.
  - intros l a Hin. symmetry. by apply Ha.
Qed.

(** The code of a call takes the same course after another call whose
    code assigned no identifier it mentions and did not rebind
    [__builtins__]. *)
Lemma course_after_unrelated environ format_exc first code st :
  _credentials_missing environ = false ->
  code_writes first ## {[ "__builtins__" ]} ∪ code_idents code ->
  course environ code (snd (execute_python environ format_exc first st))
  = course environ code st.
Proof.
  intros Hcred Hdisj. unfold course.
  destruct (agree_exec ({[ "__builtins__" ]} ∪ code_idents code) code
              (entered environ
                 (snd (execute_python environ format_exc first st)))
              (entered environ st)) as [Hfst Hout].
  - set_solver.
  - set_solver.
  - by apply entered_after_call.
  - by rewrite !entered_unfold.
  - unfold getvalue. by rewrite Hfst, Hout.
Qed.



(** *** Builtins across calls *)

Lemma frame_builtins_set_global x v st :
  x <> "__builtins__" -> frame_builtins (set_global x v st) = frame_builtins st.
Proof.
  intros Hne. unfold frame_builtins. cbn. by rewrite lookup_insert_ne.
Qed.

Lemma lookup_name_set_global builtins x v g h y :
  x <> y -> lookup_name builtins (<[x := v]> g) h y = lookup_name builtins g h y.
Proof. intros Hne. unfold lookup_name. by rewrite lookup_insert_ne. Qed.

(** Creating the client puts a new object on the heap and so hides no
    name that resolved before. *)
Lemma lookup_name_acquire environ st builtins x v :
  lookup_name builtins (execution_globals st) (heap st) x = Val v ->
  lookup_name builtins (execution_globals (snd (acquire environ st)))
    (heap (snd (acquire environ st))) x = Val v.
Proof.
  unfold acquire. destruct (_client st); [done|]. cbn. unfold lookup_name.
  destruct (execution_globals st !! x); [done|].
  destruct builtins as [b|]; [|done]. cbn. rewrite attr_at_insert.
  destruct (decide (fresh (dom (heap st)) = b)) as [<-|Hne]; [|done].
  unfold attr_at.
  rewrite (proj1 (not_elem_of_dom (heap st) _) (is_fresh (dom (heap st)))).
  done.
Qed.

Lemma frame_builtins_acquire environ st b :
  frame_builtins st = Some b ->
  frame_builtins (snd (acquire environ st)) = Some b.
Proof.
  unfold acquire. destruct (_client st); [done|]. cbn.
  unfold frame_builtins. cbn.
  destruct (execution_globals st !! "__builtins__") as [[| | | |b'| |]|];
    try done.
  destruct (heap st !! b') as [o|] eqn:Hb; [|done].
  rewrite lookup_insert_ne; [by rewrite Hb|].
  intros <-.
  by rewrite (proj1 (not_elem_of_dom (heap st) _) (is_fresh (dom (heap st))))
    in Hb.
Qed.

(** A name that resolved to a builtin comes from a builtins module. *)
Lemma builtin_visible_frame st name :
  builtin_visible st name ->
  execution_globals st !! name = Some (VBuiltin name)
  \/ exists b, frame_builtins st = Some b.
Proof.
  unfold builtin_visible, lookup_name.
  destruct (execution_globals st !! name) as [v|]; [intros [= ->]; by left|].
  destruct (frame_builtins st) as [b|]; [by right; eexists|done].
Qed.

Lemma builtin_visible_entered environ st name :
  name <> "client" ->
  builtin_visible st name -> builtin_visible (entered environ st) name.
Proof.
  intros Hne Hvis. pose proof Hvis as Hvis'.
  unfold builtin_visible in *. rewrite entered_unfold.
  cbn [set_stdout set_global execution_globals heap].
  change (frame_builtins _)
    with (frame_builtins (set_global "client"
            (VRef (fst (acquire environ st))) (snd (acquire environ st)))).
  rewrite frame_builtins_set_global by done.
  rewrite lookup_name_set_global by done.
  destruct (frame_builtins st) as [b|] eqn:Hb.
  - rewrite (frame_builtins_acquire environ st b Hb).
    by apply lookup_name_acquire.
  - unfold lookup_name in *. cbn in Hvis.
    assert (execution_globals (snd (acquire environ st)) = execution_globals st)
      as -> by (unfold acquire; by destruct (_client st)).
    by destruct (execution_globals st !! name).
Qed.

Lemma builtin_visible_startup server_dir layout :
  builtin_visible (startup server_dir layout) "print"
  /\ builtin_visible (startup server_dir layout) "RuntimeError".
Proof. split; by vm_compute. Qed.

Lemma sys_stdout_entered environ st :
  sys_stdout (entered environ st) = StringIO "".
Proof. by rewrite entered_unfold. Qed.

(** [print(e)] in a state where [print] is the builtin and [e] evaluates
    to [v] without printing. *)
Lemma exec_print st e v text :
  builtin_visible st "print" ->
  stmt_ok (print_ e) = true ->
  eval (frame_builtins st) (execution_globals st) (heap st) e = (Val v, "") ->
  py_str (heap st) v = Some text ->
  exec [print_ e] st = (Finished, write (text ++ nl) st).
Proof.
  unfold builtin_visible, exec. intros Hprint Hok He Hstr.
  assert (compiles [print_ e] = true) as ->
    by (unfold compiles; cbn [forallb]; by rewrite Hok).
  cbn [exec_from exec_stmt print_ eval]. rewrite Hprint, He.
  cbn [call]. rewrite bool_decide_eq_true_2 by done. by rewrite Hstr.
Qed.


Lemma getvalue_write_entered environ st out :
  getvalue (write out (entered environ st)) = out.
Proof. unfold getvalue, write. by rewrite sys_stdout_entered. Qed.

Lemma line_not_empty text : text ++ nl <> "".
Proof. by destruct text. Qed.

(** A call of [print(e)] answers the printed line. *)
Lemma execute_python_print environ format_exc st e v text :
  _credentials_missing environ = false ->
  builtin_visible st "print" ->
  stmt_ok (print_ e) = true ->
  eval (frame_builtins (entered environ st))
    (execution_globals (entered environ st)) (heap (entered environ st)) e
  = (Val v, "") ->
  py_str (heap (entered environ st)) v = Some text ->
  fst (execute_python environ format_exc [print_ e] st)
  = Returned (text ++ nl).
Proof.
  intros Hcred Hprint Hok He Hstr. rewrite execute_python_present by done.
  rewrite (exec_print _ e v text);
    [|by apply builtin_visible_entered|done..].
  cbn [leave fst]. rewrite getvalue_write_entered.
  by rewrite bool_decide_eq_false_2 by apply line_not_empty.
Qed.

(** *** The claims on [execute_python] *)

(** C5. Without the instance URL or the API key in the environment,
    [execute_python] returns the instructional text for every code input
    and leaves the whole state as it was: it raises nothing, the namespace
    and the heap are those of before (the code has not run), no client has
    been created and the singleton is still unset if it was. *)
Theorem execute_python_credentials_missing environ format_exc code st :
  _credentials_missing environ = true ->
  execute_python environ format_exc code st = (Returned credentials_error, st)
  /\ clients_created (snd (execute_python environ format_exc code st))
     = clients_created st
  /\ _client (snd (execute_python environ format_exc code st)) = _client st
  /\ execution_globals (snd (execute_python environ format_exc code st))
     = execution_globals st
  /\ heap (snd (execute_python environ format_exc code st)) = heap st.
Proof.
  intros Hcred. unfold execute_python. by rewrite Hcred.
Qed.

Lemma execute_python_credentials_missing_witness :
  execute_python bare_environ plain_traceback code_print_1 session0
  = (Returned credentials_error, session0)
  /\ clients_created
       (snd (execute_python bare_environ plain_traceback code_print_1 session0))
     = clients_created session0
  /\ _client
       (snd (execute_python bare_environ plain_traceback code_print_1 session0))
     = _client session0
  /\ execution_globals
       (snd (execute_python bare_environ plain_traceback code_print_1 session0))
     = execution_globals session0
  /\ heap
       (snd (execute_python bare_environ plain_traceback code_print_1 session0))
     = heap session0.
Proof.
  apply (execute_python_credentials_missing bare_environ plain_traceback
           code_print_1 session0).
  reflexivity.
Defined.




(** C7. The namespace persists across calls: where [print] is the
    builtin, a call of [x = 1] prints nothing and leaves [x] bound to 1 in
    [execution_globals], and the call of [print(x)] that follows runs
    against that same mapping and answers the line [1]. *)
Theorem execute_python_namespace_persists environ format_exc st :
  _credentials_missing environ = false ->
  builtin_visible st "print" ->
  fst (execute_python environ format_exc code_x_is_1 st) = Returned no_output
  /\ execution_globals (snd (execute_python environ format_exc code_x_is_1 st))
       !! "x" = Some (VInt 1)
  /\ fst (execute_python environ format_exc code_print_x
            (snd (execute_python environ format_exc code_x_is_1 st)))
     = Returned ("1" ++ nl).
Proof.
  intros Hcred Hprint.
  rewrite (execute_python_present environ format_exc code_x_is_1) by done.
  set (E := entered environ st).
  assert (exec code_x_is_1 E = (Finished, set_global "x" (VInt 1) (write "" E)))
    as -> by reflexivity.
  cbn [leave fst snd].
  change (getvalue (set_global "x" (VInt 1) (write "" E)))
    with (getvalue (write "" E)).
  unfold E at 1 2. rewrite getvalue_write_entered.
  split; [done|]. split; [by cbn; rewrite lookup_insert_eq|].
  set (s1 := set_stdout _ _).
  assert (execution_globals s1 = <["x" := VInt 1]> (execution_globals E))
    as Hg1 by (unfold s1; cbn; by rewrite (proj1 (write_store _ _))).
  assert (heap s1 = heap E) as Hh1
    by (unfold s1; cbn; by rewrite (proj1 (proj2 (write_store _ _)))).
  assert (_client s1 = Some (fst (acquire environ st))) as Hc1.
  { unfold s1. cbn. rewrite (proj1 (proj2 (proj2 (write_store _ _)))).
    unfold E. rewrite entered_unfold. cbn. apply acquire_client. }
  assert (builtin_visible s1 "print") as Hprint1.
  { pose proof (builtin_visible_entered environ st "print"
                  ltac:(done) Hprint) as HE. fold E in HE.
    unfold builtin_visible, frame_builtins in *. rewrite Hg1, Hh1.
    rewrite lookup_insert_ne by done.
    by rewrite lookup_name_set_global. }
  unfold code_print_x.
  rewrite (execute_python_print _ _ _ _ (VInt 1) "1"); [done..| |done].
  cbn [eval]. unfold lookup_name. rewrite entered_unfold.
  rewrite (acquire_again environ s1 _ Hc1).
  cbn [fst snd set_stdout set_global execution_globals].
  rewrite lookup_insert_ne by done. by rewrite Hg1, lookup_insert_eq.
Qed.

Lemma execute_python_namespace_persists_witness :
  fst (execute_python configured_environ plain_traceback code_x_is_1 session0)
  = Returned no_output
  /\ execution_globals
       (snd (execute_python configured_environ plain_traceback code_x_is_1
               session0)) !! "x" = Some (VInt 1)
  /\ fst (execute_python configured_environ plain_traceback code_print_x
            (snd (execute_python configured_environ plain_traceback
                    code_x_is_1 session0)))
     = Returned ("1" ++ nl).
Proof.
  apply (execute_python_namespace_persists configured_environ plain_traceback
           session0).
  - reflexivity.
  - apply (builtin_visible_startup "/srv/mcp-server" sample_layout).
Defined.



Lemma code_writes_idents code : code_writes code ⊆ code_idents code.
Proof.
  induction code as [|s code IH]; [done|].
  rewrite code_writes_cons, code_idents_cons.
  assert (stmt_writes s ⊆ stmt_idents s) by (destruct s; set_solver).
  set_solver.
Qed.

(** In particular the order does not matter for snippets that have no
    identifier in common, variable or attribute, and leave [__builtins__]
    alone. *)
Lemma course_disjoint_idents environ format_exc code1 code2 st :
  _credentials_missing environ = false ->
  code_idents code1 ## code_idents code2 ->
  "__builtins__" ∉ code_writes code1 ∪ code_writes code2 ->
  course environ code1 (snd (execute_python environ format_exc code2 st))
  = course environ code1 st
  /\ course environ code2 (snd (execute_python environ format_exc code1 st))
     = course environ code2 st.
Proof.
  intros Hcred Hdisj Hb.
  pose proof (code_writes_idents code1). pose proof (code_writes_idents code2).
  split; (apply course_after_unrelated; [done|set_solver]).
Qed.


End ServerFacts.

(** ** More on the completion waiter *)

Module JobsMore.
Import Py Jobs Polling JobsFacts.

Section LoopMore.
Variable host : Host.
Variable remote : Remote.
Variable classify : gmap string json -> outcome (option (Q -> WaitResult)).
Variable on_timeout : Q -> WaitResult.
Variables timeout interval : Z.

Local Notation "'loop'" :=
  (poll_loop host remote classify on_timeout timeout interval).
Local Notation "'tick'" := (Polling.tick host interval).
Local Notation "'after'" := (Polling.after host interval).
Local Notation "'pending'" := (Polling.pending remote classify).

(** A loop whose n-th query raises, or whose n-th payload cannot be read,
    raises with it: there is no handler around the query. *)
Lemma loop_raises n : forall start fuel w e,
  0 <= interval ->
  (forall i, (i < n)%nat -> pending (polls w + i) = true) ->
  bind (remote (polls w + n)%nat) classify = Raise e ->
  (forall i, (i <= n)%nat ->
     (now (after i w) - start <= inject_Z timeout)%Q) ->
  (n < fuel)%nat ->
  loop start fuel w = Some (Raise e, snd (query host remote (after n w))).
Proof.
  induction n as [|n IH]; intros start fuel w e Hi Hp Hr Ht Hf.
  - destruct fuel as [|fuel]; [lia|].
    cbn [poll_loop Polling.after]. unfold time_time.
    pose proof (Ht 0%nat ltac:(lia)) as Ht0. cbn [Polling.after] in Ht0.
    rewrite (proj2 (Qgtb_false _ _) Ht0).
    unfold query. rewrite Nat.add_0_r in Hr. cbn [snd].
    destruct (remote (polls w)) as [payload|e']; cbn [bind] in Hr.
    + by rewrite Hr.
    + by injection Hr as ->.
  - destruct fuel as [|fuel]; [lia|].
    rewrite (loop_step host remote classify on_timeout timeout interval);
      [|done|apply (Ht 0%nat); lia|].
    2:{ specialize (Hp 0%nat ltac:(lia)). by rewrite Nat.add_0_r in Hp. }
    cbn [Polling.after].
    apply (IH start fuel (tick w) e); try done; try lia.
    + intros i Hlt. cbn [Polling.tick polls].
      replace (S (polls w) + i)%nat with (polls w + S i)%nat by lia.
      apply Hp. lia.
    + cbn [Polling.tick polls].
      by replace (S (polls w) + n)%nat with (polls w + S n)%nat by lia.
    + intros i Hle. apply (Ht (S i)). lia.
Qed.

(** The loop never un-queries: the query count only grows. *)
Lemma loop_polls_mono fuel : forall start w x w',
  loop start fuel w = Some (x, w') -> (polls w <= polls w')%nat.
Proof.
  induction fuel as [|fuel IH]; intros start w x w' Hrun; [discriminate|].
  cbn [poll_loop] in Hrun. destruct (Qgtb _ _).
  { injection Hrun as <- <-. lia. }
  unfold query in Hrun.
  destruct (remote (polls w)) as [payload|e].
  2:{ injection Hrun as <- <-. cbn. lia. }
  destruct (classify payload) as [[finish|]|e].
  - injection Hrun as <- <-. cbn. lia.
  - unfold time_sleep in Hrun. destruct (interval <? 0).
    + injection Hrun as <- <-. cbn. lia.
    + apply IH in Hrun. cbn in Hrun. lia.
  - injection Hrun as <- <-. cbn. lia.
Qed.

(** A loop that starts within its timeout queries before it answers. *)
Lemma loop_queries_first fuel start w x w' :
  (now w - start <= inject_Z timeout)%Q ->
  loop start fuel w = Some (x, w') -> (polls w < polls w')%nat.
Proof.
  intros Ht Hrun. destruct fuel as [|fuel]; [discriminate|].
  cbn [poll_loop] in Hrun. unfold time_time in Hrun.
  rewrite (proj2 (Qgtb_false _ _) Ht) in Hrun. unfold query in Hrun.
  destruct (remote (polls w)) as [payload|e].
  2:{ injection Hrun as <- <-. cbn. lia. }
  destruct (classify payload) as [[finish|]|e].
  - injection Hrun as <- <-. cbn. lia.
  - unfold time_sleep in Hrun. destruct (interval <? 0).
    + injection Hrun as <- <-. cbn. lia.
    + apply loop_polls_mono in Hrun. cbn in Hrun. lia.
  - injection Hrun as <- <-. cbn. lia.
Qed.

Lemma sleeps_after n w : sleeps (after n w) = (sleeps w + n)%nat.
Proof.
  revert w. induction n as [|n IH]; intros w; cbn [Polling.after].
  - lia.
  - rewrite IH. cbn. lia.
Qed.
End LoopMore.

(** *** Errors during a wait *)

(** X1. [wait_for_job] has no handler around [job.get_status()]: when the
    n-th status query raises, after n non-terminal statuses read within
    the timeout, the wait raises that same exception.  It has then made
    n + 1 queries and slept n times; there is no retry and no TIMEOUT
    record. *)
Theorem wait_for_job_query_raises host job timeout poll_interval w n e fuel :
  0 <= poll_interval ->
  (forall i, (i < n)%nat -> job_pending job (polls w + i) = true) ->
  job (polls w + n)%nat = Raise e ->
  (forall i, (i <= n)%nat ->
     (now (after host poll_interval i w) - now w <= inject_Z timeout)%Q) ->
  (n < fuel)%nat ->
  exists w',
    wait_for_job host job timeout poll_interval fuel w = Some (Raise e, w')
    /\ polls w' = (polls w + S n)%nat
    /\ sleeps w' = (sleeps w + n)%nat.
Proof.
  intros Hi Hp Hr Hin Hf. eexists. split.
  - unfold wait_for_job, time_time. rewrite wait_loop_poll.
    apply (loop_raises host job job_classify _ timeout poll_interval n);
      try done.
    by rewrite Hr.
  - cbn [query snd polls sleeps].
    rewrite polls_after, sleeps_after. lia.
Qed.

Lemma wait_for_job_query_raises_witness :
  exists w',
    wait_for_job Samples.slow_host
      (Samples2.failing_after [Samples.flat_state "RUNNING"]
         Samples2.connection_reset)
      600 2 5 Samples.world0
    = Some (Raise Samples2.connection_reset, w')
    /\ polls w' = (polls Samples.world0 + 2)%nat
    /\ sleeps w' = (sleeps Samples.world0 + 1)%nat.
Proof.
  apply (wait_for_job_query_raises Samples.slow_host _ 600 2 Samples.world0
           1 Samples2.connection_reset 5).
  - lia.
  - intros [|i] Hlt; [reflexivity|lia].
  - reflexivity.
  - intros [|[|i]] Hle; [by vm_compute..|lia].
  - lia.
Defined.

Lemma job_state_base_not_object status v :
  status !! "baseStatus" = Some v ->
  (forall base, v <> JObj base) ->
  job_state status
  = Raise (Exn "AttributeError"
             ("'" ++ type_name v ++ "' object has no attribute 'get'")).
Proof.
  intros Hbase Hv. unfold job_state. cbn [get bind]. rewrite Hbase.
  cbn [default]. destruct v; try done. by destruct (Hv d).
Qed.

(** X2. The nested shape is read without a type check: a status whose
    [baseStatus] key is present but holds something else than an object
    (a JSON null, say) makes [wait_for_job] raise [AttributeError], even
    when the status also carries a flat terminal [state]. *)
Theorem wait_for_job_base_not_object host job timeout poll_interval w n
    status v fuel :
  0 <= poll_interval ->
  (forall i, (i < n)%nat -> job_pending job (polls w + i) = true) ->
  job (polls w + n)%nat = Ret status ->
  status !! "baseStatus" = Some v ->
  (forall base, v <> JObj base) ->
  (forall i, (i <= n)%nat ->
     (now (after host poll_interval i w) - now w <= inject_Z timeout)%Q) ->
  (n < fuel)%nat ->
  exists w',
    wait_for_job host job timeout poll_interval fuel w
    = Some (Raise (Exn "AttributeError"
                     ("'" ++ type_name v ++ "' object has no attribute 'get'")),
            w').
Proof.
  intros Hi Hp Hr Hbase Hv Hin Hf. eexists.
  unfold wait_for_job, time_time. rewrite wait_loop_poll.
  apply (loop_raises host job job_classify _ timeout poll_interval n);
    try done.
  rewrite Hr. cbn [bind]. unfold job_classify.
  by rewrite (job_state_base_not_object status v).
Qed.

Lemma wait_for_job_base_not_object_witness :
  exists w',
    wait_for_job Samples.ideal_host
      (Samples.scripted []
         (<[ "state" := JStr "DONE" ]> Samples2.null_base))
      600 2 5 Samples.world0
    = Some (Raise (Exn "AttributeError"
                     ("'" ++ type_name JNull
                      ++ "' object has no attribute 'get'")),
            w').
Proof.
  apply (wait_for_job_base_not_object Samples.ideal_host _ 600 2
           Samples.world0 0
           (<[ "state" := JStr "DONE" ]> Samples2.null_base) JNull 5).
  - lia.
  - intros i Hlt. lia.
  - reflexivity.
  - reflexivity.
  - done.
  - intros [|i] Hle; [by vm_compute|lia].
  - lia.
Defined.

(** *** What the records say about time *)

Lemma is_terminal_not_timeout state :
  is_terminal state = true -> state <> JStr "TIMEOUT".
Proof.
  rewrite is_terminal_true. by intros [->|[->| ->]].
Qed.

(** X3. In every record a wait returns, the status is TIMEOUT exactly if
    the reported duration exceeds the timeout: a terminal record of
    [wait_for_job], [build_and_wait] or [run_recipe_and_wait], and a DONE
    record of [run_scenario_and_wait], always reports a duration within
    the timeout, since the elapsed time is read before the status is
    queried. *)
Theorem wait_result_timeout_iff host client job project_key name build_mode
    timeout poll_interval fuel w r w' :
  wait_for_job host job timeout poll_interval fuel w = Some (Ret r, w')
  \/ build_and_wait host client project_key name build_mode timeout fuel w
     = Some (Ret r, w')
  \/ run_recipe_and_wait host client project_key name timeout fuel w
     = Some (Ret r, w')
  \/ run_scenario_and_wait host client project_key name timeout fuel w
     = Some (Ret r, w') ->
  (status r = JStr "TIMEOUT" <-> (inject_Z timeout < duration r)%Q).
Proof.
  assert (forall job' pi,
            wait_for_job host job' timeout pi fuel w = Some (Ret r, w') ->
            (status r = JStr "TIMEOUT" <-> (inject_Z timeout < duration r)%Q))
    as Hjob.
  { intros job' pi Hrun. unfold wait_for_job in Hrun.
    rewrite wait_loop_poll in Hrun.
    apply loop_result_inv in Hrun
      as [(d & Hd & ->)|(i & p & k & d & _ & _ & Hc & Hd & ->)]; [done|].
    unfold job_classify in Hc. destruct (job_state p) as [state|e]; [|done].
    cbn [bind] in Hc. destruct (is_terminal state) eqn:Hterm; [|done].
    injection Hc as <-. cbn [job_result status duration].
    split; [by intros ?%is_terminal_not_timeout|].
    intros Hlt. by apply Qlt_not_le in Hlt. }
  unfold build_and_wait, run_recipe_and_wait, run_scenario_and_wait.
  intros [Hrun|[Hrun|[Hrun|Hrun]]].
  - by eapply Hjob.
  - destruct (dataset_build _ _ _ _); [|done]. by eapply Hjob.
  - destruct (recipe_run _ _ _); [|done]. by eapply Hjob.
  - destruct (scenario_run _ _ _); [|done].
    rewrite scenario_loop_poll in Hrun.
    apply loop_result_inv in Hrun
      as [(d & Hd & ->)|(i & p & k & d & _ & _ & Hc & Hd & ->)]; [done|].
    unfold scenario_classify in Hc.
    destruct (scenario_outcome p) as [state|e]; [|done].
    cbn [bind] in Hc. destruct (is_not_None state); [|done].
    injection Hc as <-. cbn [scenario_result status duration].
    split; [done|]. intros Hlt. by apply Qlt_not_le in Hlt.
Qed.

Lemma wait_result_timeout_iff_witness :
  status (job_timeout_result 600 602) = JStr "TIMEOUT"
  <-> (inject_Z 600 < duration (job_timeout_result 600 602))%Q.
Proof.
  apply (wait_result_timeout_iff Samples.ideal_host
           (Samples.client_of
              (Samples.scripted [] (Samples.flat_state "RUNNING")))
           (Samples.scripted [] (Samples.flat_state "RUNNING"))
           "PROJ" "orders" "RECURSIVE_BUILD" 600 2 400 Samples.world0
           (job_timeout_result 600 602)
           {| now := 602; polls := 301; sleeps := 301 |}).
  right. right. left. by vm_compute.
Defined.

(** X4. The timeout is tested at the head of every round, before the
    query.  With a negative timeout the loop returns the TIMEOUT record at
    its first head, however much time has passed since the start time was
    read, so [wait_for_job] answers TIMEOUT, without success, and has
    neither queried the job nor slept. *)
Theorem wait_for_job_first_round host job timeout poll_interval fuel w :
  (0 < fuel)%nat ->
  timeout < 0 ->
  (forall start_time,
     (start_time <= now w)%Q ->
     wait_loop host job timeout poll_interval start_time fuel w
     = Some (Ret (job_timeout_result timeout (now w - start_time)%Q), w))
  /\ exists r,
       wait_for_job host job timeout poll_interval fuel w = Some (Ret r, w)
       /\ status r = JStr "TIMEOUT"
       /\ success r = false.
Proof.
  intros Hfuel Hneg. destruct fuel as [|fuel]; [lia|].
  rewrite Zlt_Qlt in Hneg. change (inject_Z 0) with 0%Q in Hneg.
  assert (forall start_time,
            (start_time <= now w)%Q ->
            wait_loop host job timeout poll_interval start_time (S fuel) w
            = Some (Ret (job_timeout_result timeout (now w - start_time)%Q),
                    w)) as Hloop.
  { intros start_time Hstart. cbn [wait_loop]. unfold time_time.
    assert (inject_Z timeout < now w - start_time)%Q as Hlt by lra.
    by rewrite (proj2 (Qgtb_true _ _) Hlt). }
  split; [exact Hloop|]. eexists. split.
  - unfold wait_for_job, time_time. apply Hloop. lra.
  - done.
Qed.

Lemma wait_for_job_first_round_witness :
  (forall start_time,
     (start_time <= now Samples.world0)%Q ->
     wait_loop Samples.slow_host
       (Samples.scripted [] (Samples.flat_state "DONE")) (-1) 2 start_time 1
       Samples.world0
     = Some (Ret (job_timeout_result (-1)
                    (now Samples.world0 - start_time)%Q),
             Samples.world0))
  /\ exists r,
       wait_for_job Samples.slow_host
         (Samples.scripted [] (Samples.flat_state "DONE")) (-1) 2 1
         Samples.world0 = Some (Ret r, Samples.world0)
       /\ status r = JStr "TIMEOUT"
       /\ success r = false.
Proof.
  apply (wait_for_job_first_round Samples.slow_host
           (Samples.scripted [] (Samples.flat_state "DONE")) (-1) 2 1
           Samples.world0); lia.
Defined.

(** *** The two shapes of a status *)

Lemma job_state_nested status state :
  JobsViews.nested_state status = Some state -> job_state status = Ret state.
Proof.
  unfold JobsViews.nested_state, job_state. cbn [get bind].
  destruct (status !! "baseStatus") as [[| | | | |base]|]; try done.
  intros Hstate. cbn. by rewrite Hstate.
Qed.

(** X5. The nested shape wins over the flat one.  A status whose
    [baseStatus.state] is terminal ends the wait with that state as the
    status, whatever the flat [state] says; and while every status has a
    non-terminal [baseStatus.state] the wait runs into the timeout, even
    when the flat [state] says DONE. *)
Theorem wait_for_job_nested_first host job timeout poll_interval w fuel :
  (forall payload state,
     job (polls w) = Ret payload ->
     JobsViews.nested_state payload = Some state ->
     is_terminal state = true ->
     0 <= timeout -> (0 < fuel)%nat ->
     exists r w',
       wait_for_job host job timeout poll_interval fuel w = Some (Ret r, w')
       /\ status r = state /\ success r = eq_str state "DONE")
  /\ ((forall i, JobsViews.nested_pending job (polls w + i) = true) ->
      1 <= poll_interval ->
      (forall i, (0 <= query_cost host i)%Q) ->
      (forall i, (0 <= oversleep host i)%Q) ->
      (Z.to_nat (timeout + 1) < fuel)%nat ->
      exists r w',
        wait_for_job host job timeout poll_interval fuel w = Some (Ret r, w')
        /\ status r = JStr "TIMEOUT" /\ success r = false).
Proof.
  split.
  - intros payload state Hjob Hnested Hterm Hpos Hfuel.
    destruct fuel as [|fuel]; [lia|].
    rewrite Zle_Qle in Hpos. change (inject_Z 0) with 0%Q in Hpos.
    assert (now w - now w <= inject_Z timeout)%Q as Hle by lra.
    eexists _, _. split.
    + unfold wait_for_job, time_time. cbn [wait_loop]. unfold time_time.
      rewrite (proj2 (Qgtb_false _ _) Hle). unfold query.
      by rewrite Hjob, (job_state_nested _ _ Hnested), Hterm.
    + done.
  - intros Hpend Hi Hq Hs Hf.
    destruct (wait_for_job_pending_times_out host job timeout poll_interval
                w fuel) as (n & Hrun & _); try done.
    + intros i. specialize (Hpend i).
      unfold JobsViews.nested_pending in Hpend.
      unfold job_pending, pending, job_classify.
      destruct (job (polls w + i)%nat) as [payload|e]; [|done].
      destruct (JobsViews.nested_state payload) as [state|] eqn:Hn; [|done].
      rewrite (job_state_nested _ _ Hn). cbn [bind].
      by destruct (is_terminal state).
    + eexists _, _. split; [exact Hrun|done].
Qed.

Lemma wait_for_job_nested_first_witness :
  (exists r w',
     wait_for_job Samples.slow_host
       (Samples.scripted [] (Samples2.two_states "FAILED" "DONE")) 600 2 1
       Samples.world0 = Some (Ret r, w')
     /\ status r = JStr "FAILED"
     /\ success r = eq_str (JStr "FAILED") "DONE")
  /\ (exists r w',
        wait_for_job Samples.slow_host
          (Samples.scripted [] (Samples2.two_states "RUNNING" "DONE")) 7 2 9
          Samples.world0 = Some (Ret r, w')
        /\ status r = JStr "TIMEOUT" /\ success r = false).
Proof.
  split.
  - apply (proj1 (wait_for_job_nested_first Samples.slow_host
             (Samples.scripted [] (Samples2.two_states "FAILED" "DONE"))
             600 2 Samples.world0 1)
           (Samples2.two_states "FAILED" "DONE") (JStr "FAILED"));
      (reflexivity || lia).
  - apply (proj2 (wait_for_job_nested_first Samples.slow_host
             (Samples.scripted [] (Samples2.two_states "RUNNING" "DONE"))
             7 2 Samples.world0 9)).
    + intros i. reflexivity.
    + lia.
    + intros i. by vm_compute.
    + intros i. by vm_compute.
    + vm_compute. lia.
Defined.

(** *** The scenario wait at its timeout *)

(** X6. [run_scenario_and_wait] sleeps a fixed two seconds between
    queries, whatever the timeout: while the outcome stays [None] and the
    timeout is at least zero, the TIMEOUT record reports a duration greater
    than the timeout and at most the timeout plus two seconds plus what one
    query and one oversleep add to a round. *)
Theorem run_scenario_and_wait_timeout host client project_key scenario_id
    run timeout delta w fuel :
  scenario_run client project_key scenario_id = Ret run ->
  0 <= timeout ->
  (forall i, (0 <= query_cost host i)%Q) ->
  (forall i, (0 <= oversleep host i)%Q) ->
  (forall i j, (query_cost host i + oversleep host j <= delta)%Q) ->
  (forall i, scenario_pending run (polls w + i) = true) ->
  (Z.to_nat (timeout + 1) < fuel)%nat ->
  exists r w',
    run_scenario_and_wait host client project_key scenario_id timeout fuel w
    = Some (Ret r, w')
    /\ status r = JStr "TIMEOUT"
    /\ (inject_Z timeout < duration r <= inject_Z timeout + 2 + delta)%Q.
Proof.
  intros Hrun H0 Hq Hs Hd Hp Hf. unfold run_scenario_and_wait, time_time.
  rewrite Hrun, scenario_loop_poll. rewrite Zle_Qle in H0.
  change (inject_Z 0) with 0%Q in H0.
  destruct (loop_timeout_bounds host run scenario_classify
              (scenario_timeout_result timeout) timeout 2
              (Z.to_nat (timeout + 1)) fuel (now w) w delta)
    as (d & w' & Hloop & Hbounds & _); try done.
  { lra. }
  { apply timeout_fuel. lra. }
  exists (scenario_timeout_result timeout d), w'.
  split; [exact Hloop|]. split; [done|].
  cbn [scenario_timeout_result duration].
  by change (inject_Z 2) with 2%Q in Hbounds.
Qed.

Lemma run_scenario_and_wait_timeout_witness :
  exists r w',
    run_scenario_and_wait Samples.slow_host
      (Samples.client_of (Samples.scripted [] Samples.run_info_pending))
      "PROJ" "nightly" 5 9 Samples.world0 = Some (Ret r, w')
    /\ status r = JStr "TIMEOUT"
    /\ (inject_Z 5 < duration r <= inject_Z 5 + 2 + (6 # 10))%Q.
Proof.
  apply (run_scenario_and_wait_timeout Samples.slow_host
           (Samples.client_of (Samples.scripted [] Samples.run_info_pending))
           "PROJ" "nightly" _ 5 (6 # 10) Samples.world0 9 eq_refl).
  - lia.
  - intros i. by vm_compute.
  - intros i. by vm_compute.
  - intros i j. by vm_compute.
  - intros i. reflexivity.
  - vm_compute. lia.
Defined.

End JobsMore.

(** ** More on the execution session *)

Module ServerMore.
Import Py Server ServerFacts.
Local Open Scope string_scope.
Set Warnings "-clear-no-such-hyp".

(** *** Where the output goes *)

Lemma write_capture out st buf :
  sys_stdout st = StringIO buf ->
  sys_stdout (write out st) = StringIO (buf ++ out)
  /\ console (write out st) = console st.
Proof. unfold write. by intros ->. Qed.

Lemma setattr_rest target a v st :
  sys_stdout (snd (setattr target a v st)) = sys_stdout st
  /\ console (snd (setattr target a v st)) = console st
  /\ clients_created (snd (setattr target a v st)) = clients_created st.
Proof.
  unfold setattr. destruct (is_dunder a); [done|].
  destruct target; try done. destruct (heap st !! l) as [o|]; [|done].
  by destruct (bool_decide (obj_type o = "module")).
Qed.

(** While [sys.stdout] is a capture, a statement writes to the capture
    only: the console is untouched, and so is the count of clients. *)
Lemma exec_stmt_capture builtins s st buf :
  sys_stdout st = StringIO buf ->
  (exists buf', sys_stdout (snd (exec_stmt builtins s st)) = StringIO buf')
  /\ console (snd (exec_stmt builtins s st)) = console st
  /\ clients_created (snd (exec_stmt builtins s st)) = clients_created st.
Proof.
  intros Hout.
  assert (forall out,
            (exists buf', sys_stdout (write out st) = StringIO buf')
            /\ console (write out st) = console st
            /\ clients_created (write out st) = clients_created st) as Hw.
  { intros out. destruct (write_capture out st buf Hout) as [H1 H2].
    split; [eauto|]. split; [done|apply write_store]. }
  destruct s as [x e|e a rhs|e|e]; cbn [exec_stmt].
  - destruct (eval _ _ _ e) as [[v|ex|] out]; cbn [snd]; apply Hw.
  - destruct (eval _ _ _ rhs) as [[v|ex|] out1]; cbn [snd]; [|apply Hw..].
    destruct (eval _ _ _ e) as [[target|ex|] out2]; cbn [snd]; [|apply Hw..].
    destruct (setattr_rest target a v (write (out1 ++ out2) st))
      as (-> & -> & ->). apply Hw.
  - destruct (eval _ _ _ e) as [[v|ex|] out]; apply Hw.
  - destruct (eval _ _ _ e) as [[v|ex|] out]; [|apply Hw..].
    destruct (raise_value e v); apply Hw.
Qed.

Lemma exec_from_capture builtins code : forall line st buf,
  sys_stdout st = StringIO buf ->
  (exists buf', sys_stdout (snd (exec_from builtins line code st))
                = StringIO buf')
  /\ console (snd (exec_from builtins line code st)) = console st
  /\ clients_created (snd (exec_from builtins line code st))
     = clients_created st.
Proof.
  induction code as [|s code IH]; intros line st buf Hout; cbn [exec_from].
  - eauto.
  - destruct (exec_stmt_capture builtins s st buf Hout)
      as ((buf' & Hout') & Hcon & Hcnt).
    destruct (exec_stmt builtins s st) as [[[]|ex|] st']; cbn [snd] in *;
      [|eauto..].
    destruct (IH (Datatypes.S line) st' buf' Hout') as (Hb & -> & ->).
    eauto.
Qed.

Lemma exec_capture code st buf :
  sys_stdout st = StringIO buf ->
  (exists buf', sys_stdout (snd (exec code st)) = StringIO buf')
  /\ console (snd (exec code st)) = console st
  /\ clients_created (snd (exec code st)) = clients_created st.
Proof.
  intros Hout. unfold exec. destruct (compiles code).
  - by eapply exec_from_capture.
  - eauto.
Qed.

Lemma acquire_rest environ st :
  sys_stdout (snd (acquire environ st)) = sys_stdout st
  /\ console (snd (acquire environ st)) = console st
  /\ execution_globals (snd (acquire environ st)) = execution_globals st.
Proof. unfold acquire. by destruct (_client st). Qed.

(** X7. However a call ends whose code stays within what is followed (an
    output, an error text, an exception that leaves the call, or the
    text on missing credentials), [execute_python] leaves [sys.stdout] as
    it found it, and nothing the code prints reaches the standard output
    of the process. *)
Theorem execute_python_restores_stdout environ format_exc code st :
  fst (execute_python environ format_exc code st) <> Unknown ->
  sys_stdout (snd (execute_python environ format_exc code st)) = sys_stdout st
  /\ console (snd (execute_python environ format_exc code st)) = console st.
Proof.
  intros _. destruct (_credentials_missing environ) eqn:Hcred.
  { unfold execute_python. by rewrite Hcred. }
  rewrite execute_python_present, leave_state by done.
  cbn [set_stdout sys_stdout console]. split; [done|].
  destruct (exec_capture code (entered environ st) ""
              (sys_stdout_entered environ st)) as (_ & Hcon & _).
  rewrite Hcon, entered_unfold. cbn. apply acquire_rest.
Qed.

Lemma execute_python_restores_stdout_witness :
  sys_stdout (snd (execute_python configured_environ plain_traceback
                     code_print_1 session0)) = sys_stdout session0
  /\ console (snd (execute_python configured_environ plain_traceback
                     code_print_1 session0)) = console session0.
Proof.
  apply (execute_python_restores_stdout configured_environ plain_traceback
           code_print_1 session0).
  by vm_compute.
Defined.

(** *** The client singleton *)

(** Running code neither creates a client nor touches the singleton. *)
Lemma exec_keeps_client code st buf :
  sys_stdout st = StringIO buf ->
  _client (snd (exec code st)) = _client st
  /\ clients_created (snd (exec code st)) = clients_created st.
Proof.
  intros Hout. split.
  - apply (exec_frame ∅). set_solver.
  - by eapply exec_capture.
Qed.

Lemma call_keeps_client environ format_exc code st :
  _credentials_missing environ = false ->
  _client (snd (execute_python environ format_exc code st))
  = Some (fst (acquire environ st))
  /\ clients_created (snd (execute_python environ format_exc code st))
     = clients_created (snd (acquire environ st)).
Proof.
  intros Hcred. rewrite execute_python_present, leave_state by done.
  cbn [set_stdout _client clients_created].
  destruct (exec_keeps_client code (entered environ st) ""
              (sys_stdout_entered environ st)) as [-> ->].
  rewrite entered_unfold. cbn. split; [apply acquire_client|done].
Qed.

(** X8. The client is a lazily created singleton.  With the credentials
    configured, a call whose code stays within what is followed creates a
    client exactly if none exists yet, its code creates none, and after
    the call the singleton is set; a second such call, made after the
    first has returned a string, creates no client and keeps the same
    singleton. *)
Theorem execute_python_client_singleton environ format_exc code1 code2 st :
  _credentials_missing environ = false ->
  answered (fst (execute_python environ format_exc code1 st)) ->
  fst (execute_python environ format_exc code2
         (snd (execute_python environ format_exc code1 st))) <> Unknown ->
  is_Some (_client (snd (execute_python environ format_exc code1 st)))
  /\ clients_created (snd (execute_python environ format_exc code1 st))
     = (clients_created st
        + match _client st with Some _ => 0 | None => 1 end)%nat
  /\ (forall c, _client st = Some c ->
        _client (snd (execute_python environ format_exc code1 st)) = Some c)
  /\ _client (snd (execute_python environ format_exc code2
                     (snd (execute_python environ format_exc code1 st))))
     = _client (snd (execute_python environ format_exc code1 st))
  /\ clients_created
       (snd (execute_python environ format_exc code2
               (snd (execute_python environ format_exc code1 st))))
     = clients_created (snd (execute_python environ format_exc code1 st)).
Proof.
  intros Hcred _ _.
  destruct (call_keeps_client environ format_exc code1 st Hcred) as [Hc Hn].
  set (st1 := snd (execute_python environ format_exc code1 st)) in *.
  destruct (call_keeps_client environ format_exc code2 st1 Hcred)
    as [Hc' Hn'].
  rewrite (acquire_again environ st1 _ Hc) in Hc', Hn'. cbn [fst snd] in *.
  split; [by rewrite Hc|]. split; [|split; [|split]].
  - rewrite Hn. unfold acquire. destruct (_client st); cbn; lia.
  - intros c Hst. rewrite Hc. by rewrite (acquire_again environ st c Hst).
  - by rewrite Hc', Hc.
  - done.
Qed.

Lemma execute_python_client_singleton_witness :
  is_Some (_client (snd (execute_python configured_environ plain_traceback
                           code_raise_boom session0)))
  /\ clients_created (snd (execute_python configured_environ plain_traceback
                             code_raise_boom session0))
     = (clients_created session0
        + match _client session0 with Some _ => 0 | None => 1 end)%nat
  /\ (forall c, _client session0 = Some c ->
        _client (snd (execute_python configured_environ plain_traceback
                        code_raise_boom session0)) = Some c)
  /\ _client (snd (execute_python configured_environ plain_traceback
                     ServerViews.code_drop_client
                     (snd (execute_python configured_environ plain_traceback
                             code_raise_boom session0))))
     = _client (snd (execute_python configured_environ plain_traceback
                       code_raise_boom session0))
  /\ clients_created
       (snd (execute_python configured_environ plain_traceback
               ServerViews.code_drop_client
               (snd (execute_python configured_environ plain_traceback
                       code_raise_boom session0))))
     = clients_created (snd (execute_python configured_environ
                               plain_traceback code_raise_boom session0)).
Proof.
  apply (execute_python_client_singleton configured_environ plain_traceback
           code_raise_boom ServerViews.code_drop_client session0).
  - reflexivity.
  - eexists. by vm_compute.
  - by vm_compute.
Defined.

(** *** What leaves a call *)



(** *** The [client] global *)




(** *** One call or two *)















End ServerMore.

(** ** Properties of the search helpers *)

Module SearchFacts.
Import Py PyMore Search SearchViews.

Lemma scan_inv (P : list json -> Prop) step items rs :
  P rs ->
  (forall item r r', item ∈ items -> P r -> step item r = Ret r' -> P r') ->
  P (scan step items rs).
Proof.
  revert rs. induction items as [|d rest IH]; intros rs HP Hstep; simpl.
  - done.
  - destruct (step d rs) as [r'|e] eqn:E; [|done].
    apply IH.
    + eapply Hstep; [|exact HP|exact E]. by left.
    + intros item r r'' Hin. apply Hstep. by right.
Qed.

Lemma try_project_inv (P : list json -> Prop) client listing step pkey rs :
  P rs ->
  (forall project items item r r',
      get_project client pkey = Ret project ->
      listing project = Ret items -> item ∈ items ->
      P r -> step project item r = Ret r' -> P r') ->
  P (try_project client listing step pkey rs).
Proof.
  intros HP Hstep. unfold try_project.
  destruct (get_project client pkey) as [project|] eqn:Eproject; [|done].
  destruct (listing project) as [items|] eqn:Eitems; [|done].
  apply scan_inv; [done|]. intros item r r'. by apply Hstep.
Qed.

Lemma over_projects_inv (P : list json -> Prop) body projects rs out :
  P rs ->
  (forall pkey r, P r -> P (body pkey r)) ->
  over_projects body projects rs = Ret out -> P out.
Proof.
  revert rs. induction projects as [|p rest IH]; intros rs HP Hbody; simpl.
  - intros [= <-]. done.
  - destruct (get p "projectKey" JNull) as [pkey|]; [|done].
    apply IH; [|done]. by apply Hbody.
Qed.

Lemma over_projects_ext body body' projects rs :
  (forall pkey r, body pkey r = body' pkey r) ->
  over_projects body projects rs = over_projects body' projects rs.
Proof.
  intros Hext. revert rs.
  induction projects as [|p rest IH]; intros rs; simpl; [done|].
  destruct (get p "projectKey" JNull) as [pkey|]; [|done].
  by rewrite Hext, IH.
Qed.

Lemma over_projects_dicts body projects rs :
  Forall (fun p => exists d, p = JObj d) projects ->
  exists out, over_projects body projects rs = Ret out.
Proof.
  intros Hdicts. revert rs.
  induction Hdicts as [|p rest [d ->] _ IH]; intros rs; simpl.
  - by eexists.
  - apply IH.
Qed.

Lemma scan_app step items r :
  appends step -> scan step items r = r ++ scan step items [].
Proof.
  intros Happ. revert r.
  induction items as [|d rest IH]; intros r; simpl.
  - by rewrite app_nil_r.
  - rewrite (Happ d r). destruct (step d []) as [m|e]; simpl.
    + rewrite (IH (r ++ m)), (IH m). by rewrite app_assoc.
    + by rewrite app_nil_r.
Qed.

Lemma try_project_app client listing step pkey r :
  (forall project, appends (step project)) ->
  try_project client listing step pkey r
  = r ++ try_project client listing step pkey [].
Proof.
  intros Happ. unfold try_project.
  destruct (get_project client pkey) as [project|]; [|by rewrite app_nil_r].
  destruct (listing project) as [items|]; [|by rewrite app_nil_r].
  by apply scan_app.
Qed.

Lemma over_projects_single body k :
  over_projects body [JObj {[ "projectKey" := JStr k ]}] []
  = Ret (body (JStr k) []).
Proof. simpl. by rewrite lookup_singleton_eq. Qed.

Lemma over_projects_concat body projects keys r :
  (forall pkey r, body pkey r = r ++ body pkey []) ->
  Forall2 (fun p k => get p "projectKey" JNull = Ret (JStr k)) projects keys ->
  over_projects body projects r
  = Ret (r ++ concat (map (fun k => body (JStr k) []) keys)).
Proof.
  intros Happ Hkeys. revert r.
  induction Hkeys as [|p k projects keys Hp _ IH]; intros r; simpl.
  - by rewrite app_nil_r.
  - rewrite Hp, IH, (Happ (JStr k) r). by rewrite app_assoc.
Qed.

Section RegexFacts.
Variable regex : Type.
Variable re_compile : string -> outcome regex.
Variable re_search : regex -> string -> bool.

Local Notation "'find_datasets'" := (Search.find_datasets regex re_compile re_search).
Local Notation "'find_recipes'" := (Search.find_recipes regex re_compile re_search).
Local Notation "'find_scenarios'" := (Search.find_scenarios regex re_compile re_search).
Local Notation "'find_users'" := (Search.find_users regex re_compile re_search).
Local Notation "'name_step'" := (Search.name_step regex re_search).
Local Notation "'scenario_step'" := (Search.scenario_step regex re_search).
Local Notation "'search'" := (Search.search regex re_search).
Local Notation "'name_found'" := (SearchViews.name_found regex re_search).
Local Notation "'datasets_in'" := (SearchViews.datasets_in regex re_search).
Local Notation "'scenario_found'" := (SearchViews.scenario_found regex re_search).

Lemma search_true rx v :
  search rx v = Ret true -> exists s, v = JStr s /\ re_search rx s = true.
Proof. destruct v; simpl; try done. intros [= H]. by eexists. Qed.

Lemma name_step_sound rx pkey d r r' :
  Forall (name_found rx) r -> name_step rx pkey d r = Ret r' ->
  Forall (name_found rx) r'.
Proof.
  intros Hr. unfold Search.name_step.
  destruct (get d "name" (JStr "")) as [name|]; simpl; [|done].
  destruct (search rx name) as [[]|] eqn:Ehit; simpl; try done.
  - apply search_true in Ehit as (s & -> & Hs).
    destruct (get d "type" JNull) as [type|]; simpl; [|done].
    intros [= <-]. apply Forall_app. split; [done|].
    constructor; [|done]. by exists pkey, s, type.
  - by intros [= <-].
Qed.

Lemma name_step_appends rx pkey : appends (name_step rx pkey).
Proof.
  intros d r. unfold Search.name_step.
  destruct (get d "name" (JStr "")) as [name|]; simpl; [|done].
  destruct (search rx name) as [[]|]; simpl; try done.
  - by destruct (get d "type" JNull).
  - by rewrite app_nil_r.
Qed.

Lemma by_name_sound client listing rx projects results :
  over_projects
    (fun pkey => try_project client listing (fun _ => name_step rx pkey) pkey)
    projects [] = Ret results ->
  Forall (name_found rx) results.
Proof.
  apply (over_projects_inv (Forall (name_found rx))); [done|].
  intros pkey r Hr. apply try_project_inv; [done|].
  intros _ _ item r0 r' _ _ _. apply name_step_sound.
Qed.

Lemma find_datasets_single client pattern rx k :
  k <> "" -> re_compile pattern = Ret rx ->
  find_datasets client pattern (Some k) = Ret (datasets_in client rx k).
Proof.
  intros Hk Hrx. unfold Search.find_datasets, projects_of, given.
  rewrite Hrx. simpl. rewrite bool_decide_eq_false_2 by done. simpl.
  by rewrite lookup_singleton_eq.
Qed.

(** X12. [find_datasets], [find_recipes]: whatever the instance answers,
    every entry that a search by name returns carries a string name in
    which the compiled pattern is found; nothing else is ever reported. *)
Theorem find_by_name_sound client pattern project_key rx results :
  re_compile pattern = Ret rx ->
  find_datasets client pattern project_key = Ret results
  \/ find_recipes client pattern project_key = Ret results ->
  Forall (name_found rx) results.
Proof.
  intros Hrx. unfold Search.find_datasets, Search.find_recipes.
  rewrite Hrx. simpl.
  destruct (projects_of client project_key) as [projects|]; simpl;
    [|by intros [|]].
  intros [H|H]; by apply by_name_sound in H.
Qed.

(** X13. [find_datasets]: with a non-empty [project_key] the search never
    raises once the pattern compiles; it does not depend on
    [client.list_projects()], only on what [get_project] answers for that
    key; and every entry carries that key. *)
Theorem find_datasets_one_project client pattern rx k :
  k <> "" -> re_compile pattern = Ret rx ->
  exists results,
    find_datasets client pattern (Some k) = Ret results
    /\ Forall (fun r => get r "project_key" JNull = Ret (JStr k)) results
    /\ forall client',
         get_project client' (JStr k) = get_project client (JStr k) ->
         find_datasets client' pattern (Some k) = Ret results.
Proof.
  intros Hk Hrx. exists (datasets_in client rx k). split; [|split].
  - by apply find_datasets_single.
  - unfold SearchViews.datasets_in. apply try_project_inv; [done|].
    intros _ _ d r r' _ _ _ Hr. unfold Search.name_step.
    destruct (get d "name" (JStr "")) as [name|]; simpl; [|done].
    destruct (search rx name) as [[]|]; simpl; try done.
    + destruct (get d "type" JNull) as [type|]; simpl; [|done].
      intros [= <-]. apply Forall_app. split; [done|].
      constructor; [|done]. done.
    + by intros [= <-].
  - intros client' Hsame.
    rewrite (find_datasets_single client' pattern rx k) by done.
    unfold SearchViews.datasets_in, try_project. by rewrite Hsame.
Qed.

(** X14. [find_datasets]: when every listed project has a non-empty string
    key, the search of all projects returns the results of the searches of
    the single projects, one after the other in the order of the
    listing. *)
Theorem find_datasets_all_is_concat client pattern rx projects keys :
  re_compile pattern = Ret rx ->
  list_projects client = Ret projects ->
  Forall2 (fun p k => get p "projectKey" JNull = Ret (JStr k) /\ k <> "")
          projects keys ->
  exists per_project,
    Forall2 (fun k results =>
               find_datasets client pattern (Some k) = Ret results)
            keys per_project
    /\ find_datasets client pattern None = Ret (concat per_project).
Proof.
  intros Hrx Hprojects Hkeys.
  exists (map (datasets_in client rx) keys). split.
  - apply Forall2_fmap_r, Forall_Forall2_diag.
    apply Forall2_Forall_r with (Q := fun k => k <> "") in Hkeys as Hne.
    + eapply Forall_impl; [exact Hne|]. intros k Hk.
      by apply find_datasets_single.
    + apply Forall_forall. by intros p _ k [_ Hk].
  - unfold Search.find_datasets, projects_of. rewrite Hrx. simpl.
    rewrite Hprojects. simpl.
    rewrite (over_projects_concat _ projects keys []).
    + done.
    + intros pkey r. apply try_project_app. intros _.
      apply name_step_appends.
    + eapply Forall2_impl; [exact Hkeys|]. by intros p k [? _].
Qed.

(** X15. [find_datasets]: when the listing of projects holds dicts only,
    the search raises in two cases and no other: the pattern does not
    compile, or no project key is given (none, or the empty string) and
    [client.list_projects()] raises; it is then that same exception.
    Failures inside a project are never raised. *)
Theorem find_datasets_raises_iff client pattern project_key e :
  (forall projects, list_projects client = Ret projects ->
                    Forall (fun p => exists d, p = JObj d) projects) ->
  find_datasets client pattern project_key = Raise e
  <-> re_compile pattern = Raise e
      \/ ((exists rx, re_compile pattern = Ret rx)
          /\ given project_key = false
          /\ list_projects client = Raise e).
Proof.
  intros Hdicts. unfold Search.find_datasets, projects_of.
  destruct (re_compile pattern) as [rx|e0]; simpl.
  - destruct (given project_key) eqn:Egiven; simpl.
    + rewrite lookup_singleton_eq. simpl. split; [done|].
      by intros [|(_ & ? & _)].
    + destruct (list_projects client) as [projects|e1]; simpl.
      * destruct (over_projects_dicts
                    (fun pkey => try_project client list_datasets
                                   (fun _ => name_step rx pkey) pkey)
                    projects [] (Hdicts _ eq_refl)) as [out ->].
        split; [done|]. by intros [|(_ & _ & ?)].
      * split.
        -- intros [= ->]. right. split; [by eexists|done].
        -- by intros [|(_ & _ & [= ->])].
  - split.
    + intros [= ->]. by left.
    + by intros [[= ->]|[[rx ?] _]].
Qed.

(** X16. [find_scenarios]: every entry returned has a name, or else an id,
    that is a string in which the compiled pattern is found. *)
Theorem find_scenarios_sound client pattern project_key rx results :
  re_compile pattern = Ret rx ->
  find_scenarios client pattern project_key = Ret results ->
  Forall (scenario_found rx) results.
Proof.
  intros Hrx. unfold Search.find_scenarios. rewrite Hrx. simpl.
  destruct (projects_of client project_key) as [projects|]; simpl; [|done].
  apply (over_projects_inv (Forall (scenario_found rx))); [done|].
  intros pkey r Hr. apply try_project_inv; [done|].
  intros _ _ s r0 r' _ _ _ Hr0. unfold Search.scenario_step.
  destruct (get s "name" (JStr "")) as [name|]; simpl; [|done].
  destruct (get s "id" (JStr "")) as [sid|]; simpl; [|done].
  unfold search_either.
  destruct (search rx name) as [[]|] eqn:Ename; simpl; try done.
  - intros [= <-]. apply Forall_app. split; [done|].
    constructor; [|done]. exists pkey, sid, name. split; [done|].
    left. by apply search_true.
  - destruct (search rx sid) as [[]|] eqn:Esid; simpl; try done.
    + intros [= <-]. apply Forall_app. split; [done|].
      constructor; [|done]. exists pkey, sid, name. split; [done|].
      right. by apply search_true.
    + by intros [= <-].
Qed.

Lemma text_field_get u key s :
  text_field u key = Some s -> get u key (JStr "") = Ret (JStr s).
Proof.
  unfold text_field. destruct (get u key (JStr "")) as [[]|]; try done.
  by intros [= ->].
Qed.

Lemma users_loop_well_formed rx users rest r :
  Forall well_formed_user users ->
  users_loop regex re_search rx (users ++ rest) r
  = users_loop regex re_search rx rest
      (r ++ map user_record (List.filter (user_matches regex re_search rx) users)).
Proof.
  intros Hwf. revert r.
  induction Hwf as [|u users [[login Hlogin] [display Hdisplay]] _ IH];
    intros r; simpl.
  - by rewrite app_nil_r.
  - unfold user_matches. rewrite Hlogin, Hdisplay.
    apply text_field_get in Hlogin, Hdisplay.
    destruct u as [| | | | |d]; try done.
    rewrite Hlogin, Hdisplay. simpl in Hlogin, Hdisplay.
    injection Hlogin as Hlogin. injection Hdisplay as Hdisplay.
    unfold search_either. simpl.
    destruct (re_search rx login); simpl.
    + rewrite IH. f_equal. rewrite <- app_assoc. simpl.
      by rewrite Hlogin, Hdisplay.
    + destruct (re_search rx display); simpl.
      * rewrite IH. f_equal. rewrite <- app_assoc. simpl.
        by rewrite Hlogin, Hdisplay.
      * by rewrite IH.
Qed.

(** X17. [find_users]: when every listed user is a dict whose [login] and
    [displayName] are strings or missing, the search returns the records
    of exactly the users whose login or display name matches, in the
    order of the listing. *)
Theorem find_users_filter client pattern rx users :
  re_compile pattern = Ret rx ->
  list_users client = Ret users ->
  Forall well_formed_user users ->
  find_users client pattern
  = Ret (map user_record
             (List.filter (user_matches regex re_search rx) users)).
Proof.
  intros Hrx Husers Hwf. unfold Search.find_users.
  rewrite Hrx. simpl. rewrite Husers. simpl.
  rewrite <- (app_nil_r users) at 1.
  by rewrite users_loop_well_formed.
Qed.

(** X18. [find_users]: the loop over the users stands in no [try].  One
    user whose [login] is present and not a string (a null login, say),
    after any number of well-formed users, makes the whole search raise a
    [TypeError]: the users matched before it are not returned. *)
Theorem find_users_raises client pattern rx good bad rest v :
  re_compile pattern = Ret rx ->
  list_users client = Ret (good ++ bad :: rest) ->
  Forall well_formed_user good ->
  get bad "login" (JStr "") = Ret v ->
  (forall s, v <> JStr s) ->
  exists e, find_users client pattern = Raise e /\ exn_class e = "TypeError".
Proof.
  intros Hrx Husers Hwf Hlogin Hv. unfold Search.find_users.
  rewrite Hrx. simpl. rewrite Husers. simpl.
  rewrite users_loop_well_formed by done. simpl. rewrite Hlogin. simpl.
  destruct (get bad "displayName" (JStr "")) as [display|] eqn:Edisplay.
  - simpl. unfold search_either.
    destruct v; simpl; try by eexists. by destruct (Hv s).
  - destruct bad; simpl in *; try done.
Qed.
End RegexFacts.

Lemma find_by_name_sound_witness :
  Forall (SearchViews.name_found string literal_search "ord")
         [named_entry (JStr "SALES") (JStr "orders") (JStr "Snowflake")].
Proof.
  apply (find_by_name_sound string literal_compile literal_search
           two_projects "ord" None "ord").
  - reflexivity.
  - left. vm_compute. reflexivity.
Defined.

Lemma find_datasets_one_project_witness :
  exists results,
    find_datasets string literal_compile literal_search
      two_projects "o" (Some "SALES") = Ret results
    /\ Forall (fun r => get r "project_key" JNull = Ret (JStr "SALES")) results
    /\ forall client',
         get_project client' (JStr "SALES")
         = get_project two_projects (JStr "SALES") ->
         find_datasets string literal_compile literal_search
           client' "o" (Some "SALES") = Ret results.
Proof.
  apply (find_datasets_one_project string literal_compile literal_search
           two_projects "o" "o" "SALES").
  - discriminate.
  - reflexivity.
Defined.

Lemma find_datasets_all_is_concat_witness :
  exists per_project,
    Forall2 (fun k results =>
               find_datasets string literal_compile literal_search
                 two_projects "s" (Some k) = Ret results)
            ["SALES"; "HR"] per_project
    /\ find_datasets string literal_compile literal_search
         two_projects "s" None = Ret (concat per_project).
Proof.
  apply (find_datasets_all_is_concat string literal_compile literal_search
           two_projects "s" "s" [project_item "SALES"; project_item "HR"]).
  - reflexivity.
  - reflexivity.
  - repeat constructor; discriminate.
Defined.

Lemma find_datasets_raises_iff_witness :
  find_datasets string literal_compile literal_search
    no_listing "ord" (Some "")
  = Raise (Exn "DataikuException" "forbidden").
Proof.
  refine (proj2 (find_datasets_raises_iff string literal_compile
                   literal_search no_listing "ord" (Some "") _ _) _).
  - intros projects H. discriminate H.
  - right. split; [|split].
    + by exists "ord".
    + reflexivity.
    + reflexivity.
Defined.

Lemma find_scenarios_sound_witness :
  Forall (SearchViews.scenario_found string literal_search "NIGHT")
         [scenario_entry (JStr "SALES") (JStr "NIGHTLY")
                         (JStr "Nightly build")].
Proof.
  apply (find_scenarios_sound string literal_compile literal_search
           two_projects "NIGHT" None "NIGHT").
  - reflexivity.
  - vm_compute. reflexivity.
Defined.

Lemma find_users_filter_witness :
  find_users string literal_compile literal_search
    (users_client [user_item (JStr "alice") (JStr "Alice A");
                   user_item (JStr "bob") (JStr "Bob B")]) "ali"
  = Ret [user_entry (JStr "alice") (JStr "Alice A") (JList []) JNull].
Proof.
  rewrite (find_users_filter string literal_compile literal_search
             (users_client [user_item (JStr "alice") (JStr "Alice A");
                            user_item (JStr "bob") (JStr "Bob B")])
             "ali" "ali"
             [user_item (JStr "alice") (JStr "Alice A");
              user_item (JStr "bob") (JStr "Bob B")]).
  - vm_compute. reflexivity.
  - reflexivity.
  - reflexivity.
  - repeat constructor; by eexists.
Defined.

Lemma find_users_raises_witness :
  exists e,
    find_users string literal_compile literal_search
      (users_client [user_item (JStr "alice") (JStr "Alice A");
                     user_item JNull (JStr "Ghost");
                     user_item (JStr "bob") (JStr "Bob B")]) "ali"
    = Raise e
    /\ exn_class e = "TypeError".
Proof.
  apply (find_users_raises string literal_compile literal_search _ "ali" "ali"
           [user_item (JStr "alice") (JStr "Alice A")]
           (user_item JNull (JStr "Ghost"))
           [user_item (JStr "bob") (JStr "Bob B")] JNull).
  - reflexivity.
  - reflexivity.
  - repeat constructor; by eexists.
  - reflexivity.
  - discriminate.
Defined.

(** X19. [find_by_connection]: every entry returned stands for a dataset
    listed by a project of the instance whose settings, as read during
    the search, have [connection_name] under [params.connection]; its
    [path] is [params.path], or [params.table] when the path is missing or
    falsy. *)
Theorem find_by_connection_sound client connection_name results :
  find_by_connection client connection_name = Ret results ->
  Forall (uses_connection client connection_name) results.
Proof.
  unfold find_by_connection.
  destruct (list_projects client) as [projects|]; simpl; [|done].
  apply (over_projects_inv (Forall (uses_connection client connection_name)));
    [done|].
  intros pkey r Hr. apply try_project_inv; [done|].
  intros project items d r0 r' Hproject Hitems Hd Hr0.
  unfold connection_step.
  destruct (get d "name" JNull) as [name|] eqn:Ename; simpl; [|done].
  destruct (dataset_raw project name) as [raw|] eqn:Eraw; simpl; [|done].
  destruct (get raw "params" (JObj ∅)) as [params|] eqn:Eparams; simpl;
    [|done].
  destruct params as [| | | | |params]; simpl; try done.
  destruct (params !! "connection") as [connection|] eqn:Econnection; simpl.
  - destruct (eq_str connection connection_name) eqn:Eeq.
    + destruct connection as [| | |s| |]; simpl in Eeq; try done.
      apply bool_decide_eq_true in Eeq as ->.
      destruct (get d "type" JNull) as [type|]; simpl; [|done].
      intros [= <-]. apply Forall_app. split; [done|].
      constructor; [|done].
      by exists pkey, project, items, d, name, raw, params, type.
    + by intros [= <-].
  - by intros [= <-].
Qed.

Lemma find_by_connection_sound_witness :
  Forall (uses_connection two_projects "sf-azure")
         [connection_entry (JStr "SALES") (JStr "orders") (JStr "Snowflake")
                           (JStr "T");
          connection_entry (JStr "HR") (JStr "staff") (JStr "PostgreSQL")
                           (JStr "STAFF")].
Proof.
  apply (find_by_connection_sound two_projects "sf-azure").
  vm_compute. reflexivity.
Defined.

Lemma scan_readable connection_name pkey project items r :
  scan (connection_step connection_name pkey project)
       (readable project items) r
  = scan (connection_step connection_name pkey project) items r.
Proof.
  revert r. induction items as [|d rest IH]; intros r; simpl; [done|].
  unfold connection_step at 2.
  destruct (get d "name" JNull) as [name|] eqn:Ename; simpl; [|done].
  destruct (dataset_raw project name) as [raw|] eqn:Eraw; simpl; [|done].
  unfold connection_step at 1. rewrite Ename. simpl. rewrite Eraw. simpl.
  destruct (bind (get raw "params" (JObj ∅)) _) as [r'|]; [|done].
  apply IH.
Qed.

(** X20. [find_by_connection]: in each project the search sees only the
    datasets listed before the first one whose settings cannot be read.
    Cutting every listing there changes nothing in the result: the
    datasets listed after an unreadable one are left out without a
    trace, whatever connection they use. *)
Theorem find_by_connection_cut client connection_name :
  find_by_connection (cut_client client) connection_name
  = find_by_connection client connection_name.
Proof.
  unfold find_by_connection. simpl.
  destruct (list_projects client) as [projects|]; simpl; [|done].
  apply over_projects_ext. intros pkey r. unfold try_project. simpl.
  destruct (get_project client pkey) as [project|]; simpl; [|done].
  destruct (list_datasets project) as [items|]; simpl; [|done].
  apply (scan_readable connection_name pkey project).
Qed.

End SearchFacts.

(** ** Properties of the inspection helpers *)

Module InspectionFacts.
Import Py PyMore Inspection.

Lemma comprehension_length {A B} (f : A -> outcome B) l out :
  comprehension f l = Ret out -> length out = length l.
Proof.
  revert out. induction l as [|x rest IH]; intros out; simpl.
  - by intros [= <-].
  - destruct (f x) as [y|]; [|done].
    destruct (comprehension f rest) as [ys|]; [|done].
    intros [= <-]. simpl. by rewrite (IH ys).
Qed.

Lemma comprehension_returns {A B} (f : A -> outcome B) l :
  Forall (fun x => exists y, f x = Ret y) l ->
  exists out, comprehension f l = Ret out.
Proof.
  induction 1 as [|x rest [y Hy] _ [ys Hys]]; simpl.
  - by eexists.
  - rewrite Hy, Hys. by eexists.
Qed.

Lemma sample_loop_length dict_zip names sample_size i rows rows_end sample :
  Z.of_nat (length (fst (sample_loop dict_zip names sample_size i
                                     rows rows_end sample)))
  <= Z.of_nat (length sample) + Z.max 0 (sample_size - Z.of_nat i).
Proof.
  revert i sample. induction rows as [|row rest IH]; intros i sample; simpl.
  - lia.
  - destruct (Z.geb_spec (Z.of_nat i) sample_size); simpl; [lia|].
    destruct (isinstance_dict row).
    + etrans; [apply IH|]. rewrite length_app. simpl. lia.
    + destruct (dict_zip names row) as [converted|]; simpl; [|lia].
      etrans; [apply IH|]. rewrite length_app. simpl. lia.
Qed.

Lemma sample_loop_rows dict_zip names sample_size i rows rows_end sample :
  (length (fst (sample_loop dict_zip names sample_size i
                            rows rows_end sample))
   <= length sample + length rows)%nat.
Proof.
  revert i sample. induction rows as [|row rest IH]; intros i sample; simpl.
  - lia.
  - destruct (Z.of_nat i >=? sample_size); simpl; [lia|].
    destruct (isinstance_dict row).
    + etrans; [apply IH|]. rewrite length_app. simpl. lia.
    + destruct (dict_zip names row) as [converted|]; simpl; [|lia].
      etrans; [apply IH|]. rewrite length_app. simpl. lia.
Qed.

Lemma sample_loop_dicts dict_zip names sample_size i rows rows_end sample :
  Forall (fun row => isinstance_dict row = true) rows ->
  fst (sample_loop dict_zip names sample_size i rows rows_end sample)
  = sample ++ take (Z.to_nat (sample_size - Z.of_nat i)) rows.
Proof.
  intros Hrows. revert i sample.
  induction Hrows as [|row rest Hrow _ IH]; intros i sample; simpl.
  - by rewrite take_nil, app_nil_r.
  - destruct (Z.geb_spec (Z.of_nat i) sample_size); simpl.
    + replace (Z.to_nat (sample_size - Z.of_nat i)) with 0%nat by lia.
      by rewrite app_nil_r.
    + rewrite Hrow, IH.
      replace (Z.to_nat (sample_size - Z.of_nat i))
        with (S (Z.to_nat (sample_size - Z.of_nat (S i)))) by lia.
      simpl. by rewrite <- app_assoc.
Qed.

(** X21. [connection_info]: the parameters that are returned are those of
    the definition without the keys [password], [secretKey] and
    [privateKey]; every other key is returned with its value as it is
    (what a nested value holds is not looked at). *)
Theorem connection_info_hides_secrets client connection_name r :
  connection_info client connection_name = Ret (JObj r) ->
  exists conn definition params shown,
    get_connection client connection_name = Ret conn
    /\ get_definition conn = Ret definition
    /\ get definition "params" (JObj ∅) = Ret (JObj params)
    /\ r !! "params" = Some (JObj shown)
    /\ forall k, shown !! k
                 = if bool_decide (k ∈ secret_keys) then None else params !! k.
Proof.
  unfold connection_info.
  destruct (get_connection client connection_name) as [conn|]; simpl; [|done].
  destruct (get_definition conn) as [definition|] eqn:Edefinition; simpl;
    [|done].
  destruct (test_connection conn) as [test_result|]; simpl; [|done].
  destruct (get definition "type" JNull) as [type|]; simpl; [|done].
  destruct (get definition "usableBy" JNull) as [usable_by|]; simpl; [|done].
  destruct (get definition "params" (JObj ∅)) as [params|] eqn:Eparams;
    simpl; [|done].
  destruct params as [| | | | |params]; simpl; try done.
  intros [= <-].
  exists conn, definition, params,
    (filter (fun kv => kv.1 ∉ secret_keys) params).
  repeat split; [done..|]. intros k.
  destruct (bool_decide_reflect (k ∈ secret_keys)) as [Hk|Hk].
  - apply map_lookup_filter_None. right. intros v _ Hnot. by apply Hnot.
  - destruct (params !! k) as [v|] eqn:Ev.
    + by apply map_lookup_filter_Some.
    + apply map_lookup_filter_None. by left.
Qed.

Lemma connection_info_hides_secrets_witness :
  exists conn definition params shown,
    get_connection sample_client "wh" = Ret conn
    /\ get_definition conn = Ret definition
    /\ get definition "params" (JObj ∅) = Ret (JObj params)
    /\ warehouse_info !! "params" = Some (JObj shown)
    /\ forall k, shown !! k
                 = if bool_decide (k ∈ secret_keys) then None else params !! k.
Proof.
  apply (connection_info_hides_secrets sample_client "wh" warehouse_info).
  vm_compute. reflexivity.
Defined.

(** X22. [connection_info]: a connection test that raises does not fail
    the call when the exception is an [Exception]: the result then holds
    [{"ok": False, "error": str(e)}] as its test result.  An exception
    outside [Exception] is raised by [connection_info] itself. *)
Theorem connection_info_test_fails client connection_name conn definition
    params e :
  get_connection client connection_name = Ret conn ->
  get_definition conn = Ret (JObj definition) ->
  get (JObj definition) "params" (JObj ∅) = Ret (JObj params) ->
  test conn = Raise e ->
  if Server.is_Exception e
  then exists r,
         connection_info client connection_name = Ret (JObj r)
         /\ r !! "test_result"
            = Some (JObj {[ "ok" := JBool false;
                            "error" := JStr (exn_msg e) ]})
  else connection_info client connection_name = Raise e.
Proof.
  intros Hconn Hdefinition Hparams Htest.
  unfold connection_info, test_connection.
  rewrite Hconn. simpl. rewrite Hdefinition. simpl. rewrite Htest.
  destruct (Server.is_Exception e); simpl; [|done].
  simpl in Hparams. injection Hparams as Hparams. rewrite Hparams. simpl.
  by eexists.
Qed.

Lemma connection_info_test_fails_witness :
  exists r,
    connection_info sample_client "wh" = Ret (JObj r)
    /\ r !! "test_result"
       = Some (JObj {[ "ok" := JBool false;
                       "error" := JStr "connection refused" ]}).
Proof.
  exact (connection_info_test_fails sample_client "wh" warehouse _ _ _
           eq_refl eq_refl eq_refl eq_refl).
Defined.

(** X23. [project_summary]: the recent jobs of a summary are the first
    five of the listing of jobs, in its order, and none when the listing
    raises; there are never more than five. *)
Theorem project_summary_recent_jobs client project_key r :
  project_summary client project_key = Ret (JObj r) ->
  exists project jobs,
    get_project client project_key = Ret project
    /\ r !! "recent_jobs" = Some (JList jobs)
    /\ (length jobs <= 5)%nat
    /\ match list_jobs project with
       | Ret job_list => jobs = take 5 job_list
       | Raise _ => jobs = []
       end.
Proof.
  unfold project_summary.
  destruct (get_project client project_key) as [project|]; simpl; [|done].
  destruct (get_metadata project) as [metadata|]; simpl; [|done].
  destruct (list_datasets project) as [datasets|]; simpl; [|done].
  destruct (list_recipes project) as [recipes|]; simpl; [|done].
  destruct (list_scenarios project) as [scenarios|]; simpl; [|done].
  destruct (get metadata "label" (JStr project_key)) as [label|]; simpl;
    [|done].
  destruct (get metadata "description" (JStr "")) as [description|]; simpl;
    [|done].
  destruct (comprehension name_and_type datasets) as [datasets_|]; simpl;
    [|done].
  destruct (comprehension name_and_type recipes) as [recipes_|]; simpl;
    [|done].
  destruct (comprehension id_and_name scenarios) as [scenarios_|]; simpl;
    [|done].
  intros [= <-]. exists project, (recent_jobs project).
  repeat split; unfold recent_jobs.
  - destruct (list_jobs project) as [[|job rest]|]; simpl; try lia.
    rewrite length_take. lia.
  - by destruct (list_jobs project) as [[|job rest]|].
Qed.

Lemma project_summary_recent_jobs_witness :
  exists project jobs,
    get_project sample_client "SALES" = Ret project
    /\ sales_summary !! "recent_jobs" = Some (JList jobs)
    /\ (length jobs <= 5)%nat
    /\ match list_jobs project with
       | Ret job_list => jobs = take 5 job_list
       | Raise _ => jobs = []
       end.
Proof.
  apply (project_summary_recent_jobs sample_client "SALES" sales_summary).
  vm_compute. reflexivity.
Defined.

(** X24. [project_summary]: when the project and its metadata can be read
    and its three listings hold dicts, the summary is returned whatever
    [list_jobs] does, the three lists of the summary are as long as the
    listings, and the three counts are these lengths. *)
Theorem project_summary_counts client project_key project metadata
    datasets recipes scenarios :
  get_project client project_key = Ret project ->
  get_metadata project = Ret (JObj metadata) ->
  list_datasets project = Ret datasets ->
  list_recipes project = Ret recipes ->
  list_scenarios project = Ret scenarios ->
  Forall (fun d => isinstance_dict d = true) (datasets ++ recipes ++ scenarios) ->
  exists r ds rs ss,
    project_summary client project_key = Ret (JObj r)
    /\ r !! "datasets" = Some (JList ds)
    /\ r !! "recipes" = Some (JList rs)
    /\ r !! "scenarios" = Some (JList ss)
    /\ r !! "dataset_count" = Some (JInt (Z.of_nat (length ds)))
    /\ r !! "recipe_count" = Some (JInt (Z.of_nat (length rs)))
    /\ r !! "scenario_count" = Some (JInt (Z.of_nat (length ss)))
    /\ length ds = length datasets
    /\ length rs = length recipes
    /\ length ss = length scenarios.
Proof.
  intros Hproject Hmetadata Hdatasets Hrecipes Hscenarios Hdicts.
  apply Forall_app in Hdicts as [Hd Hdicts].
  apply Forall_app in Hdicts as [Hr Hs].
  assert (forall l, Forall (fun d => isinstance_dict d = true) l ->
                    exists out, comprehension name_and_type l = Ret out)
    as Hnames.
  { intros l Hl. apply comprehension_returns.
    eapply Forall_impl; [exact Hl|]. intros [| | | | |d]; try done.
    intros _. by eexists. }
  assert (exists out, comprehension id_and_name scenarios = Ret out)
    as [ss Hss].
  { apply comprehension_returns.
    eapply Forall_impl; [exact Hs|]. intros [| | | | |d]; try done.
    intros _. by eexists. }
  destruct (Hnames _ Hd) as [ds Hds]. destruct (Hnames _ Hr) as [rs Hrs].
  unfold project_summary.
  rewrite Hproject. simpl. rewrite Hmetadata. simpl.
  rewrite Hdatasets. simpl. rewrite Hrecipes. simpl.
  rewrite Hscenarios. simpl. rewrite Hds. simpl. rewrite Hrs. simpl.
  rewrite Hss. simpl.
  apply comprehension_length in Hds, Hrs, Hss.
  eexists _, ds, rs, ss. split; [reflexivity|].
  rewrite Hds, Hrs, Hss. by repeat split.
Qed.

Lemma project_summary_counts_witness :
  exists r ds rs ss,
    project_summary sample_client "SALES" = Ret (JObj r)
    /\ r !! "datasets" = Some (JList ds)
    /\ r !! "recipes" = Some (JList rs)
    /\ r !! "scenarios" = Some (JList ss)
    /\ r !! "dataset_count" = Some (JInt (Z.of_nat (length ds)))
    /\ r !! "recipe_count" = Some (JInt (Z.of_nat (length rs)))
    /\ r !! "scenario_count" = Some (JInt (Z.of_nat (length ss)))
    /\ length ds = 2%nat
    /\ length rs = 0%nat
    /\ length ss = 1%nat.
Proof.
  apply (project_summary_counts sample_client "SALES" sample_project
           {[ "label" := JStr "Sales" ]}
           [JObj {[ "name" := JStr "orders"; "type" := JStr "Snowflake" ]};
            JObj {[ "name" := JStr "customers"; "type" := JStr "Snowflake" ]}]
           []
           [JObj {[ "id" := JStr "NIGHTLY";
                    "name" := JStr "Nightly build" ]}]).
  - reflexivity.
  - reflexivity.
  - reflexivity.
  - reflexivity.
  - reflexivity.
  - repeat constructor.
Defined.

(** X25. [dataset_info]: the row count of the result is [None] or a truthy
    value.  A count of zero read from the metrics is reported as [None],
    as is a dataset without metrics. *)
Theorem dataset_info_row_count dict_zip client project_key dataset_name
    sample_size r :
  dataset_info dict_zip client project_key dataset_name sample_size
  = Ret (JObj r) ->
  exists v, r !! "row_count" = Some v /\ (v = JNull \/ truthy v = true).
Proof.
  unfold dataset_info.
  destruct (get_project client project_key) as [project|]; simpl; [|done].
  destruct (get_dataset project dataset_name) as [dataset|]; simpl; [|done].
  destruct (get_settings dataset) as [settings|]; simpl; [|done].
  destruct (get_raw settings) as [raw|]; simpl; [|done].
  destruct (get raw "schema" (JObj ∅)) as [schema_|]; simpl; [|done].
  destruct (get schema_ "columns" (JList [])) as [schema|]; simpl; [|done].
  destruct (columns_of schema) as [columns|]; simpl; [|done].
  destruct (get raw "params" (JObj ∅)) as [params|]; simpl; [|done].
  destruct (get params "connection" JNull) as [connection|]; simpl; [|done].
  destruct (get params "path" JNull) as [path_|]; simpl; [|done].
  destruct (get params "table" JNull) as [table|]; simpl; [|done].
  intros [= <-]. eexists. split; [reflexivity|].
  unfold read_row_count.
  destruct (get_last_metric_values dataset) as [[m|]|]; simpl; try by left.
  destruct (get_global_value m "records:COUNT_RECORDS") as [metric|]; simpl;
    [|by left].
  destruct (truthy metric) eqn:Emetric; [by right|by left].
Qed.

Lemma dataset_info_row_count_witness :
  exists v,
    customers_info !! "row_count" = Some v
    /\ (v = JNull \/ truthy v = true).
Proof.
  apply (dataset_info_row_count no_zip sample_client "SALES" "customers" 5
           customers_info).
  vm_compute. reflexivity.
Defined.

(** X26. [dataset_info]: the sample holds at most [sample_size] rows (none
    when [sample_size] is zero or less) and never more rows than the
    dataset yields.  When the rows are dicts it is exactly the first
    [sample_size] rows, whether the reading of the rows comes to its end
    or breaks off with an exception. *)
Theorem dataset_info_sample dict_zip client project_key dataset_name
    sample_size r :
  dataset_info dict_zip client project_key dataset_name sample_size
  = Ret (JObj r) ->
  exists project dataset sample,
    get_project client project_key = Ret project
    /\ get_dataset project dataset_name = Ret dataset
    /\ r !! "sample" = Some (JList sample)
    /\ Z.of_nat (length sample) <= Z.max 0 sample_size
    /\ (length sample <= length (fst (iter_rows dataset)))%nat
    /\ (Forall (fun row => isinstance_dict row = true)
               (fst (iter_rows dataset)) ->
        sample = take (Z.to_nat sample_size) (fst (iter_rows dataset))).
Proof.
  unfold dataset_info.
  destruct (get_project client project_key) as [project|]; simpl; [|done].
  destruct (get_dataset project dataset_name) as [dataset|] eqn:Edataset;
    simpl; [|done].
  destruct (get_settings dataset) as [settings|]; simpl; [|done].
  destruct (get_raw settings) as [raw|]; simpl; [|done].
  destruct (get raw "schema" (JObj ∅)) as [schema_|]; simpl; [|done].
  destruct (get schema_ "columns" (JList [])) as [schema|]; simpl; [|done].
  destruct (columns_of schema) as [columns|]; simpl; [|done].
  destruct (get raw "params" (JObj ∅)) as [params|]; simpl; [|done].
  destruct (get params "connection" JNull) as [connection|]; simpl; [|done].
  destruct (get params "path" JNull) as [path_|]; simpl; [|done].
  destruct (get params "table" JNull) as [table|]; simpl; [|done].
  intros [= <-]. eexists project, dataset, _.
  split; [done|]. split; [done|]. split; [reflexivity|].
  split; [|split].
  - pose proof (sample_loop_length dict_zip (map fst columns) sample_size 0
                  (fst (iter_rows dataset)) (snd (iter_rows dataset)) [])
      as Hlen.
    simpl in Hlen. by rewrite Z.sub_0_r in Hlen.
  - apply (sample_loop_rows dict_zip (map fst columns) sample_size 0
             (fst (iter_rows dataset)) (snd (iter_rows dataset)) []).
  - intros Hrows. rewrite sample_loop_dicts by done. simpl.
    by rewrite Z.sub_0_r.
Qed.

Lemma dataset_info_sample_witness :
  exists project dataset sample,
    get_project sample_client "SALES" = Ret project
    /\ get_dataset project "orders" = Ret dataset
    /\ orders_info !! "sample" = Some (JList sample)
    /\ Z.of_nat (length sample) <= Z.max 0 5
    /\ (length sample <= length (fst (iter_rows dataset)))%nat
    /\ (Forall (fun row => isinstance_dict row = true)
               (fst (iter_rows dataset)) ->
        sample = take (Z.to_nat 5) (fst (iter_rows dataset))).
Proof.
  apply (dataset_info_sample no_zip sample_client "SALES" "orders" 5
           orders_info).
  vm_compute. reflexivity.
Defined.

(** X27. [dataset_info]: once the settings of the dataset are read, with a
    schema and parameters of the expected shape, the call returns
    whatever the metrics and the reading of the rows do: their failures
    are swallowed. *)
Theorem dataset_info_returns dict_zip client project_key dataset_name
    sample_size project dataset settings raw schema_ columns params :
  get_project client project_key = Ret project ->
  get_dataset project dataset_name = Ret dataset ->
  get_settings dataset = Ret settings ->
  get_raw settings = Ret (JObj raw) ->
  get (JObj raw) "schema" (JObj ∅) = Ret (JObj schema_) ->
  columns_of (default (JList []) (schema_ !! "columns")) = Ret columns ->
  get (JObj raw) "params" (JObj ∅) = Ret (JObj params) ->
  exists r,
    dataset_info dict_zip client project_key dataset_name sample_size
    = Ret (JObj r)
    /\ r !! "name" = Some (JStr dataset_name)
    /\ r !! "type" = Some (type_ settings)
    /\ r !! "connection" = Some (default JNull (params !! "connection")).
Proof.
  intros Hproject Hdataset Hsettings Hraw Hschema Hcolumns Hparams.
  unfold dataset_info.
  rewrite Hproject. simpl. rewrite Hdataset. simpl.
  rewrite Hsettings. simpl. rewrite Hraw. simpl.
  simpl in Hschema. injection Hschema as Hschema. rewrite Hschema. simpl.
  rewrite Hcolumns. simpl.
  simpl in Hparams. injection Hparams as Hparams. rewrite Hparams. simpl.
  by eexists.
Qed.

Lemma dataset_info_returns_witness :
  exists r,
    dataset_info no_zip sample_client "SALES" "orders" 5 = Ret (JObj r)
    /\ r !! "name" = Some (JStr "orders")
    /\ r !! "type" = Some (JStr "Snowflake")
    /\ r !! "connection" = Some JNull.
Proof.
  refine (dataset_info_returns no_zip sample_client "SALES" "orders" 5
            sample_project seven_rows
            {| get_raw := _; type_ := JStr "Snowflake" |} _ _
            [(JStr "id", JStr "bigint")] {[ "table" := JStr "T" ]}
            eq_refl eq_refl eq_refl eq_refl eq_refl _ eq_refl).
  vm_compute. reflexivity.
Defined.

End InspectionFacts.

(** ** Properties of the dataset creation script *)

Module CreateDatasetFacts.
Import Py PyMore CreateDataset.

Lemma record_get_own (r : record) :
  NoDup (map fst r) -> map (record_get r) (map fst r) = map snd r.
Proof.
  induction r as [|[k v] r IH]; simpl; [done|].
  intros Hnodup. apply NoDup_cons in Hnodup as [Hk Hnodup]. f_equal.
  - unfold record_get. simpl. by rewrite bool_decide_eq_true_2.
  - rewrite <- (IH Hnodup). apply map_ext_in. intros c Hc.
    unfold record_get. simpl.
    rewrite bool_decide_eq_false_2; [done|].
    intros <-. apply Hk. by apply list_elem_of_In.
Qed.

(** X28. [create_dataset_from_csv]: whatever the platform answers, the
    calls that one run adds are the first calls of one fixed sequence:
    [get_project], [list_datasets], then [get_dataset] and [delete] of
    the named dataset if and only if the listing names it, then
    [create_upload_dataset] and [uploaded_add_file] of
    [<dataset_name>.csv] with the content given.  A run that returns has
    made them all and returns the handle of the named dataset; a run that
    raises has stopped after one of them.  No other dataset is ever
    deleted.  When the instance URL or the API key is unset or empty the
    run raises the [ValueError] of [get_client] and has made no call and
    printed nothing. *)
Theorem create_dataset_from_csv_calls environ platform
    project_key dataset_name csv_content connection w :
  let result := create_dataset_from_csv environ platform project_key
                  dataset_name csv_content connection w in
  let steps := plan project_key dataset_name csv_content connection
                 (listed platform (calls w) project_key dataset_name) in
  (Server.py_not (environ !! "DATAIKU_URL")
   || Server.py_not (environ !! "DATAIKU_API_KEY") = true ->
   result
   = (Raise (Exn "ValueError"
        "DATAIKU_URL and DATAIKU_API_KEY must be set in environment or .env file"),
      w))
  /\ exists n,
       calls (snd result) = calls w ++ take n steps
       /\ forall handle, fst result = Ret handle ->
            n = length steps /\ handle = (project_key, dataset_name).
Proof.
  unfold create_dataset_from_csv, and_then, get_client, lift, ret, perform,
    perform_list_datasets, print, listed, plan.
  destruct (Server.py_not (environ !! "DATAIKU_URL")
            || Server.py_not (environ !! "DATAIKU_API_KEY")); simpl.
  { split; [done|]. exists 0%nat. by rewrite app_nil_r. }
  split; [done|].
  destruct (answer platform (calls w) (get_project project_key)); simpl.
  2:{ by exists 1%nat. }
  destruct (datasets platform (calls w ++ [get_project project_key])
                     project_key) as [listing|]; simpl.
  2:{ exists 2%nat. by rewrite <- app_assoc. }
  destruct (comprehension (fun d => subscript d "name") listing)
    as [existing|]; simpl.
  2:{ exists 2%nat. by rewrite <- app_assoc. }
  destruct (contains existing dataset_name); simpl.
  - destruct (answer platform _ (get_dataset project_key dataset_name));
      simpl.
    2:{ exists 3%nat. by rewrite <- !app_assoc. }
    destruct (answer platform _ (delete project_key dataset_name)); simpl.
    2:{ exists 4%nat. by rewrite <- !app_assoc. }
    destruct (answer platform _
                (create_upload_dataset project_key dataset_name connection));
      simpl.
    2:{ exists 5%nat. by rewrite <- !app_assoc. }
    destruct (answer platform _ (uploaded_add_file _ _ _ _)); simpl.
    + exists 6%nat. rewrite <- !app_assoc. split; [done|].
      by intros handle [= <-].
    + exists 6%nat. by rewrite <- !app_assoc.
  - destruct (answer platform _
                (create_upload_dataset project_key dataset_name connection));
      simpl.
    2:{ exists 3%nat. by rewrite <- !app_assoc. }
    destruct (answer platform _ (uploaded_add_file _ _ _ _)); simpl.
    + exists 4%nat. rewrite <- !app_assoc. split; [done|].
      by intros handle [= <-].
    + exists 4%nat. by rewrite <- !app_assoc.
Qed.

Lemma create_dataset_from_csv_calls_witness :
  create_dataset_from_csv ∅ read_only "SALES" "sales" "id" "fs" world0
  = (Raise (Exn "ValueError"
       "DATAIKU_URL and DATAIKU_API_KEY must be set in environment or .env file"),
     world0).
Proof.
  exact (proj1 (create_dataset_from_csv_calls ∅ read_only "SALES" "sales"
                  "id" "fs" world0) eq_refl).
Defined.

(** X29. [create_dataset_from_csv]: the replacement of a dataset is not
    atomic.  When the listing names the dataset and its deletion
    succeeds, a failure of [create_upload_dataset] is raised with the
    deletion done and nothing created or uploaded; the only line printed
    is the one that announces the deletion. *)
Theorem create_dataset_from_csv_not_atomic environ platform
    project_key dataset_name csv_content connection w listing existing e :
  Server.py_not (environ !! "DATAIKU_URL") = false ->
  Server.py_not (environ !! "DATAIKU_API_KEY") = false ->
  answer platform (calls w) (get_project project_key) = Ret () ->
  datasets platform (calls w ++ [get_project project_key]) project_key
  = Ret listing ->
  comprehension (fun d => subscript d "name") listing = Ret existing ->
  contains existing dataset_name = true ->
  answer platform
    (calls w ++ [get_project project_key; list_datasets project_key])
    (get_dataset project_key dataset_name) = Ret () ->
  answer platform
    (calls w ++ [get_project project_key; list_datasets project_key;
                 get_dataset project_key dataset_name])
    (delete project_key dataset_name) = Ret () ->
  answer platform
    (calls w ++ [get_project project_key; list_datasets project_key;
                 get_dataset project_key dataset_name;
                 delete project_key dataset_name])
    (create_upload_dataset project_key dataset_name connection) = Raise e ->
  create_dataset_from_csv environ platform project_key dataset_name
    csv_content connection w
  = (Raise e,
     {| calls := calls w
                 ++ [get_project project_key; list_datasets project_key;
                     get_dataset project_key dataset_name;
                     delete project_key dataset_name;
                     create_upload_dataset project_key dataset_name
                                           connection];
        stdout := (stdout w ++ ("Deleting existing dataset: " ++ dataset_name)
                   ++ nl)%string |}).
Proof.
  intros Hurl Hkey Hproject Hlisting Hexisting Hlisted Hget Hdelete Hcreate.
  unfold create_dataset_from_csv, and_then, get_client, lift, ret, perform,
    perform_list_datasets, print.
  rewrite Hurl, Hkey. simpl. rewrite Hproject. simpl.
  rewrite Hlisting. simpl. rewrite Hexisting. simpl.
  rewrite Hlisted. simpl. rewrite <- ?app_assoc. simpl.
  rewrite Hget. simpl. rewrite <- ?app_assoc. simpl.
  rewrite Hdelete. simpl. rewrite <- ?app_assoc. simpl.
  rewrite Hcreate. simpl. by rewrite <- ?app_assoc.
Qed.

Lemma create_dataset_from_csv_not_atomic_witness :
  create_dataset_from_csv configured read_only "SALES" "sales" "id" "fs"
    world0
  = (Raise (Exn "DataikuException" "connection not writable"),
     {| calls := [get_project "SALES"; list_datasets "SALES";
                  get_dataset "SALES" "sales"; delete "SALES" "sales";
                  create_upload_dataset "SALES" "sales" "fs"];
        stdout := ("Deleting existing dataset: sales" ++ nl)%string |}).
Proof.
  exact (create_dataset_from_csv_not_atomic configured read_only
           "SALES" "sales" "id" "fs" world0
           [JObj {[ "name" := JStr "sales" ]}] [JStr "sales"] _
           eq_refl eq_refl eq_refl eq_refl eq_refl eq_refl eq_refl eq_refl
           eq_refl).
Defined.

(** X30. [create_dataset_from_records]: an empty list of records raises a
    [ValueError] before the credentials are read or any call is made.
    Otherwise the columns are the keys of the first record, in its order,
    and the rows handed on are rectangular: the first row holds the
    values of the first record, and each further row holds, column by
    column, the value the record has under that key, [None] where it has
    none; keys that the first record does not have are dropped. *)
Theorem create_dataset_from_records_rows environ platform csv_text
    project_key dataset_name connection :
  (forall w,
     create_dataset_from_records environ platform csv_text project_key
       dataset_name [] connection w
     = (Raise (Exn "ValueError" "Records list cannot be empty"), w))
  /\ forall first rest,
       NoDup (map fst first) ->
       exists rows,
         create_dataset_from_records environ platform csv_text project_key
           dataset_name (first :: rest) connection
         = create_dataset_from_dict environ platform csv_text project_key
             dataset_name (map JStr (map fst first))
             (map snd first :: rows) connection
         /\ length rows = length rest
         /\ Forall (fun row => length row = length first) rows
         /\ forall i j r row c,
              rest !! i = Some r -> rows !! i = Some row ->
              map fst first !! j = Some c ->
              row !! j = Some (record_get r c).
Proof.
  split; [done|]. intros first rest Hnodup.
  exists (map (fun r => map (record_get r) (map fst first)) rest).
  split; [|split; [|split]].
  - unfold create_dataset_from_records. simpl.
    by rewrite (record_get_own first Hnodup).
  - by rewrite length_map.
  - apply Forall_forall. intros row Hrow.
    apply list_elem_of_fmap in Hrow as (r & -> & _).
    by rewrite !length_map.
  - intros i j r row c Hr Hrow Hc.
    change (((fun r => map (record_get r) (map fst first)) <$> rest) !! i
            = Some row) in Hrow.
    rewrite list_lookup_fmap in Hrow. unfold record in *.
    rewrite Hr in Hrow. injection Hrow as <-.
    change ((record_get r <$> map fst first) !! j = Some (record_get r c)).
    by rewrite list_lookup_fmap, Hc.
Qed.

Lemma create_dataset_from_records_rows_witness :
  exists rows,
    create_dataset_from_records configured read_only no_csv "SALES" "sales"
      [[("id", JInt 1); ("amount", JInt 100)];
       [("amount", JInt 200); ("note", JStr "late")]] "fs"
    = create_dataset_from_dict configured read_only no_csv "SALES" "sales"
        [JStr "id"; JStr "amount"] ([JInt 1; JInt 100] :: rows) "fs"
    /\ length rows = 1%nat
    /\ Forall (fun row => length row = 2%nat) rows
    /\ forall i j r row c,
         [[("amount", JInt 200); ("note", JStr "late")]] !! i = Some r ->
         rows !! i = Some row ->
         ["id"; "amount"] !! j = Some c ->
         row !! j = Some (record_get r c).
Proof.
  apply (proj2 (create_dataset_from_records_rows configured read_only no_csv
                  "SALES" "sales" "fs")
           [("id", JInt 1); ("amount", JInt 100)]
           [[("amount", JInt 200); ("note", JStr "late")]]).
  apply (bool_decide_unpack _). by vm_compute.
Defined.

End CreateDatasetFacts.
